(** * The Little Man Computer: assembler (lmasm.c) and emulator (lmc.c)

    A shallow embedding of the two programs of the repository and the
    properties of their label resolution, instruction encoding, image
    loading and fetch-decode-execute cycle.

    Conventions.
    - A C [int] is a [Z].  Signed overflow is undefined in C; the few
      additions that can leave the [int] range on some input are checked
      and give the outcome [Undefined SignedOverflow].
    - [/] and [%] on [int] truncate towards zero: [Z.quot] and [Z.rem].
    - An array access outside its array is undefined in C; it is the
      outcome [Undefined _], never a value.
    - A [FILE *] opened for reading is the list of characters still to be
      read; [fgetc] returns [None] for [EOF]; [ungetc] conses.
    - [fprintf] and [printf] calls are recorded, unrendered, as the format
      string and its arguments. *)

From Stdlib Require Import ZArith Ascii String List Bool Lia.
From stdpp Require Import base list numbers.
Import ListNotations.

Local Open Scope Z_scope.

(** ** The C library, as far as the two programs use it *)

Inductive arg : Type :=
| ArgInt (n : Z)
| ArgStr (s : string)
| ArgNull
| ArgErrno.

Record event : Type := Fprintf { fmt : string; args : list arg }.

(** Undefined behaviour the programs can run into: [mailboxes[i]] and
    [OPS[i]] indexed outside the array, the [n]-th label written past the
    end of the block that holds the label table, a call through a null
    function pointer, and signed overflow. *)
Inductive ub : Type :=
| MailboxIndex (i : Z)
| OpsIndex (i : Z)
| LabelStore (n : Z)
| NullCall
| SignedOverflow.

(** What a computation comes to: a result, undefined behaviour, or a loop
    that never ends. *)
Inductive outcome (A : Type) : Type :=
| Ok (x : A)
| Undefined (u : ub)
| Diverges.

Arguments Ok {A} x.
Arguments Undefined {A} u.
Arguments Diverges {A}.

#[global] Instance outcome_ret : MRet outcome := fun A x => Ok x.
#[global] Instance outcome_bind : MBind outcome := fun A B f m =>
  match m with
  | Ok x => f x
  | Undefined u => Undefined u
  | Diverges => Diverges
  end.

Definition INT_MAX : Z := 2147483647.
Definition INT_MIN : Z := -2147483648.

Definition int_checked (z : Z) : outcome Z :=
  if (INT_MIN <=? z) && (z <=? INT_MAX) then Ok z else Undefined SignedOverflow.

(** A [while]/[for(;;)] loop whose body either goes round again with a new
    state or leaves the loop with a result; [None] when [fuel] iterations
    were not enough. *)
Section Loop.
Context {St R : Type} (body : St -> St + R).

Fixpoint loop (fuel : nat) (s : St) : option R :=
  match fuel with
  | O => None
  | S n => match body s with
           | inl s' => loop n s'
           | inr r => Some r
           end
  end.

(** The state in which the loop starts its turn number [n], counted from
    0, when it gets that far. *)
Fixpoint reach (n : nat) (s : St) : option St :=
  match n with
  | O => Some s
  | S k => match body s with
           | inl s' => reach k s'
           | inr _ => None
           end
  end.

End Loop.

(** ** lmc.c: the emulator *)
Module Lmc.

Definition NUM_MAILBOXES : Z := 100.
Definition NUM_DIGITS : Z := 3.
Definition MAX_VALUE : Z := 999.

Record lmc_cpu : Type := mk_cpu {
  a : Z;
  pc : Z;
  instruction : Z;
  opcode : Z;
  addr : Z;
  neg : bool;
  halted : bool;
  error : bool
}.

Record lmc : Type := mk_lmc {
  mailboxes : list Z;
  cpu : lmc_cpu
}.

(** Standard input is the sequence of integers that [scanf("%d")] can
    still convert; once it is used up every further [scanf] fails (end of
    input, or a character that is never consumed). *)
Record console : Type := mk_console {
  stdin : list Z;
  stdout : list event;
  stderr : list event
}.

Record world : Type := mk_world {
  machine : lmc;
  tty : console
}.

Definition set_cpu (f : lmc_cpu -> lmc_cpu) (w : world) : world :=
  mk_world (mk_lmc (mailboxes (machine w)) (f (cpu (machine w)))) (tty w).

Definition set_mailboxes (m : list Z) (w : world) : world :=
  mk_world (mk_lmc m (cpu (machine w))) (tty w).

Definition set_a (v : Z) (c : lmc_cpu) : lmc_cpu :=
  mk_cpu v (pc c) (instruction c) (opcode c) (addr c) (neg c) (halted c) (error c).
Definition set_pc (v : Z) (c : lmc_cpu) : lmc_cpu :=
  mk_cpu (a c) v (instruction c) (opcode c) (addr c) (neg c) (halted c) (error c).
Definition set_neg (v : bool) (c : lmc_cpu) : lmc_cpu :=
  mk_cpu (a c) (pc c) (instruction c) (opcode c) (addr c) v (halted c) (error c).
Definition set_halted (v : bool) (c : lmc_cpu) : lmc_cpu :=
  mk_cpu (a c) (pc c) (instruction c) (opcode c) (addr c) (neg c) v (error c).
Definition set_error (v : bool) (c : lmc_cpu) : lmc_cpu :=
  mk_cpu (a c) (pc c) (instruction c) (opcode c) (addr c) (neg c) (halted c) v.
Definition set_decoded (i o ad : Z) (c : lmc_cpu) : lmc_cpu :=
  mk_cpu (a c) (pc c) i o ad (neg c) (halted c) (error c).

Definition print_out (e : event) (w : world) : world :=
  mk_world (machine w)
    (mk_console (stdin (tty w)) (stdout (tty w) ++ [e]) (stderr (tty w))).

Definition print_err (es : list event) (w : world) : world :=
  mk_world (machine w)
    (mk_console (stdin (tty w)) (stdout (tty w)) (stderr (tty w) ++ es)).

Definition bool_int (b : bool) : Z := if b then 1 else 0.

(** [mailboxes[i]] as an rvalue. *)
Definition mailbox_get (m : list Z) (i : Z) : outcome Z :=
  if (0 <=? i) && (i <? NUM_MAILBOXES) then
    match m !! Z.to_nat i with
    | Some v => Ok v
    | None => Undefined (MailboxIndex i)
    end
  else Undefined (MailboxIndex i).

(** [mailboxes[i] = v]. *)
Definition mailbox_set (m : list Z) (i v : Z) : outcome (list Z) :=
  if (0 <=? i) && (i <? NUM_MAILBOXES) then Ok (<[Z.to_nat i := v]> m)
  else Undefined (MailboxIndex i).

Definition dump (c : lmc_cpu) : list event :=
  [ Fprintf "Bad instruction! (%d)\n" [ArgInt (instruction c)];
    Fprintf "a  = %d\n" [ArgInt (a c)];
    Fprintf "pc = %d\n" [ArgInt (pc c)];
    Fprintf "opcode = %d\n" [ArgInt (opcode c)];
    Fprintf "addr   = %d\n" [ArgInt (addr c)];
    Fprintf "neg    = %d\n" [ArgInt (bool_int (neg c))];
    Fprintf "halt   = %d\n" [ArgInt (bool_int (halted c))] ].

Definition bad_instruction (w : world) : world :=
  let w1 := print_err (dump (cpu (machine w))) w in
  set_cpu (fun c => set_error true (set_halted true c)) w1.

Definition lmc_op : Type := world -> outcome world.

Definition lmc_halt : lmc_op := fun w =>
  Ok (set_cpu (set_halted true) w).

Definition lmc_add : lmc_op := fun w =>
  let c := cpu (machine w) in
  m ← mailbox_get (mailboxes (machine w)) (addr c);
  s ← int_checked (a c + m);
  let n := s >? MAX_VALUE in
  Ok (set_cpu (fun c => set_neg n (set_a (if n then s - (MAX_VALUE + 1) else s) c)) w).

Definition lmc_sub : lmc_op := fun w =>
  let c := cpu (machine w) in
  m ← mailbox_get (mailboxes (machine w)) (addr c);
  s ← int_checked (a c - m);
  let n := s <? 0 in
  Ok (set_cpu (fun c => set_neg n (set_a (if n then s + (MAX_VALUE + 1) else s) c)) w).

Definition lmc_store : lmc_op := fun w =>
  let c := cpu (machine w) in
  m ← mailbox_set (mailboxes (machine w)) (addr c) (a c);
  Ok (set_mailboxes m w).

Definition lmc_load : lmc_op := fun w =>
  let c := cpu (machine w) in
  m ← mailbox_get (mailboxes (machine w)) (addr c);
  Ok (set_cpu (set_a m) w).

Definition lmc_branch : lmc_op := fun w =>
  Ok (set_cpu (fun c => set_pc (addr c) c) w).

Definition lmc_branch_zero : lmc_op := fun w =>
  if a (cpu (machine w)) =? 0
  then Ok (set_cpu (fun c => set_pc (addr c) c) w)
  else Ok w.

Definition lmc_branch_positive : lmc_op := fun w =>
  if negb (neg (cpu (machine w)))
  then Ok (set_cpu (fun c => set_pc (addr c) c) w)
  else Ok w.

Definition prompt : event := Fprintf "Input number (0-%d): " [ArgInt MAX_VALUE].

Definition lmc_io : lmc_op := fun w =>
  let c := cpu (machine w) in
  if addr c =? 1 then
    match stdin (tty w) with
    | n :: rest =>
        let w1 := print_out prompt w in
        let w2 := mk_world (machine w1)
                    (mk_console rest (stdout (tty w1)) (stderr (tty w1))) in
        Ok (set_cpu (set_a n) w2)
    | [] => Diverges
    end
  else if addr c =? 2 then
    Ok (print_out (Fprintf "%d\n" [ArgInt (a c)]) w)
  else Ok (bad_instruction w).

Definition OPS : list (option lmc_op) :=
  [ Some lmc_halt;
    Some lmc_add;
    Some lmc_sub;
    Some lmc_store;
    None;
    Some lmc_load;
    Some lmc_branch;
    Some lmc_branch_zero;
    Some lmc_branch_positive;
    Some lmc_io ].

(** [instruction = mailboxes[pc++]] and the two decoding assignments. *)
Definition fetch (w : world) : outcome world :=
  let c := cpu (machine w) in
  i ← mailbox_get (mailboxes (machine w)) (pc c);
  Ok (set_cpu (fun c => set_decoded i (i `quot` NUM_MAILBOXES) (i `rem` NUM_MAILBOXES)
                          (set_pc (pc c + 1) c)) w).

(** What the body of the [while] loop does after the fetch: [inr] is the
    [break]. *)
Definition dispatch (w : world) : outcome (world + world) :=
  let o := opcode (cpu (machine w)) in
  if o >? 9 then Ok (inr (bad_instruction w))
  else if o <? 0 then Undefined (OpsIndex o)
  else match OPS !! Z.to_nat o with
       | Some (Some op) => w' ← op w; Ok (inl w')
       | _ => Ok (inr (bad_instruction w))
       end.

Definition cycle (w : world) : outcome (world + world) :=
  w1 ← fetch w; dispatch w1.

(** [while (!lmc.cpu.halted) { ... }] *)
Definition run_body (w : world) : world + outcome world :=
  if halted (cpu (machine w)) then inr (Ok w)
  else match cycle w with
       | Ok (inl w') => inl w'
       | Ok (inr w') => inr (Ok w')
       | Undefined u => inr (Undefined u)
       | Diverges => inr Diverges
       end.

Definition run (fuel : nat) (w : world) : option (outcome world) :=
  loop run_body fuel w.

(** The file opened by [fopen(argv[1], "rb")]: the bytes [fgetc] delivers
    before it returns [EOF], and whether that [EOF] is a read error. *)
Record rfile : Type := mk_rfile {
  delivered : list Z;
  ferror : bool
}.

(** The loading loop, [i] being the number of bytes read so far. *)
Fixpoint load (bytes : list Z) (i : Z) (m : list Z) : outcome (list Z * Z) :=
  match bytes with
  | [] => Ok (m, i)
  | c :: rest =>
      let k := i `quot` NUM_DIGITS in
      v ← mailbox_get m k;
      m' ← mailbox_set m k (v * 10 + c);
      load rest (i + 1) m'
  end.

Record exit : Type := mk_exit {
  status : Z;
  final : world
}.

Definition zeroed : lmc :=
  mk_lmc (replicate (Z.to_nat NUM_MAILBOXES) 0)
         (mk_cpu 0 0 0 0 0 false false false).

Definition boot (input : list Z) : world :=
  mk_world zeroed (mk_console input [] []).

(** The loop of [main] and its [return !!lmc.cpu.error]. *)
Definition execute (fuel : nat) (w : world) : option (outcome exit) :=
  match run fuel w with
  | None => None
  | Some (Ok w') => Some (Ok (mk_exit (bool_int (error (cpu (machine w')))) w'))
  | Some (Undefined u) => Some (Undefined u)
  | Some Diverges => Some Diverges
  end.

Definition main (fuel : nat) (argv : list string) (fs : string -> option rfile)
    (input : list Z) : option (outcome exit) :=
  let w0 := boot input in
  match argv with
  | [_; path] =>
      match fs path with
      | None =>
          Some (Ok (mk_exit 1
            (print_err [Fprintf "Error opening %s: %s\n" [ArgStr path; ArgErrno]] w0)))
      | Some f =>
          match load (delivered f) 0 (mailboxes (machine w0)) with
          | Undefined u => Some (Undefined u)
          | Diverges => Some Diverges
          | Ok (m, i) =>
              let w1 := set_mailboxes m w0 in
              if ferror f then
                Some (Ok (mk_exit 1
                  (print_err [Fprintf "Error loading %s: %s\n" [ArgStr path; ArgErrno]] w1)))
              else if negb (i `rem` NUM_DIGITS =? 0) then
                Some (Ok (mk_exit 1
                  (print_err [Fprintf "File size is not a multiple of the number of digits per mailbox\n" []] w1)))
              else
                let w2 := print_out (Fprintf "%s loaded. %d mailboxes.\n"
                                       [ArgStr path; ArgInt (i `quot` NUM_DIGITS)]) w1 in
                execute fuel w2
          end
      end
  | _ => Some (Ok (mk_exit 1 (print_err [Fprintf "Usage: lmc <input>\n" []] w0)))
  end.

End Lmc.

(** ** lmasm.c: the assembler *)
Module Lmasm.

Definition MAX_LABEL_LEN : nat := 32.
Definition MAX_OPCODE_LEN : nat := 3.
Definition MAX_NUM_DIGITS : nat := 5.
Definition EOF : Z := -1.

(** *** Characters and input streams *)

Definition cint : Type := option ascii.
Definition stream : Type := list ascii.

(** The value of a character as the [int] that [fgetc] returns. *)
Definition int_of_char (c : ascii) : Z := Z.of_N (N_of_ascii c).

Definition fgetc (s : stream) : cint * stream :=
  match s with
  | [] => (None, [])
  | c :: r => (Some c, r)
  end.

Definition ungetc (c : cint) (s : stream) : stream :=
  match c with
  | Some ch => ch :: s
  | None => s
  end.

Definition is_char (x : Z) (c : ascii) : bool := int_of_char c =? x.
Definition NL : Z := 10.
Definition SLASH : Z := 47.

Definition isblank (c : ascii) : bool := is_char 32 c || is_char 9 c.
Definition isdigit (c : ascii) : bool := (48 <=? int_of_char c) && (int_of_char c <=? 57).
Definition isupper (c : ascii) : bool := (65 <=? int_of_char c) && (int_of_char c <=? 90).
Definition islower (c : ascii) : bool := (97 <=? int_of_char c) && (int_of_char c <=? 122).
Definition isalpha (c : ascii) : bool := isupper c || islower c.
Definition isspace (c : ascii) : bool :=
  is_char 32 c || ((9 <=? int_of_char c) && (int_of_char c <=? 13)).
Definition islabel (c : ascii) : bool := isalpha c || isdigit c || is_char 95 c.

(** A character test applied to the [int] that [fgetc] returned. *)
Definition at_char (p : ascii -> bool) (c : cint) : bool :=
  match c with
  | Some ch => p ch
  | None => false
  end.

Definition tolower (c : ascii) : ascii :=
  if isupper c then ascii_of_N (Z.to_N (int_of_char c + 32)) else c.

Fixpoint lowered (s : string) : string :=
  match s with
  | EmptyString => EmptyString
  | String c r => String (tolower c) (lowered r)
  end.

(** A [char] array read as a C string stops at its first NUL. *)
Fixpoint c_str (s : string) : string :=
  match s with
  | EmptyString => EmptyString
  | String c r => if is_char 0 c then EmptyString else String c (c_str r)
  end.

Definition strcasecmp0 (x y : string) : bool :=
  String.eqb (lowered (c_str x)) (lowered (c_str y)).

(** *** The output file *)

(** [room] is the number of bytes the file still accepts before [fputc]
    fails; [None] is a file that never fails.  A limited [room] describes
    a stream on which [fputc] itself fails, as an unbuffered one does;
    on a buffered stream the failure shows at a later flush. *)
Record wfile : Type := mk_wfile {
  written : list Z;
  room : option nat
}.

Definition fputc (c : Z) (f : wfile) : Z * wfile :=
  match room f with
  | Some O => (EOF, f)
  | r => let b := c `mod` 256 in
         (b, mk_wfile (written f ++ [b]) (Nat.pred <$> r))
  end.

(** *** Data of the assembler *)

Inductive lmasm_arg_format : Type :=
| NO_ARGUMENT
| ONE_ARGUMENT
| MAYBE_ARGUMENT.

(** The [output_file] member is threaded separately as a [wfile]; the
    [buf] member is allocated and never used. *)
Record lmasm_conf : Type := mk_conf {
  num_digits : Z;
  max_addr : Z;
  max_dat : Z
}.

(** The [write] member is a pointer to one of three functions. *)
Inductive writer : Type :=
| fn_write_dat
| fn_write_op
| fn_write_io.

Record lmasm_opcode : Type := mk_opcode {
  name : option string;
  write : option writer;
  code : Z;
  arg_format : lmasm_arg_format
}.

(** [struct lmasm_label], its members [name] and [addr] prefixed to keep
    them apart from those of the other records. *)
Record lmasm_label : Type := mk_label {
  label_name : string;
  label_addr : Z
}.

(** *** Encoders *)

(** The body of [encode_decimal], [k] being [i + 1]. *)
Fixpoint encode_decimal_from (k : nat) (buf : list Z) (n : Z) : list Z :=
  match k with
  | O => buf
  | S i => encode_decimal_from i (<[i := n `rem` 10]> buf) (n `quot` 10)
  end.

Definition encode_decimal (buf : list Z) (n : Z) (num_digits : Z) : list Z :=
  encode_decimal_from (Z.to_nat num_digits) buf n.

(** [char buf[MAX_NUM_DIGITS]], whose initial contents are never read. *)
Definition fresh_buf : list Z := replicate MAX_NUM_DIGITS 0.

(** [for (i = from; i < num_digits; ++i) fputc(buf[i])], on the slice
    [buf[from .. num_digits - 1]]. *)
Fixpoint fput_all (ds : list Z) (f : wfile) : Z * wfile :=
  match ds with
  | [] => (0, f)
  | d :: r =>
      let (rc, f1) := fputc d f in
      if rc =? EOF then (rc, f1) else fput_all r f1
  end.

Definition slice (from : nat) (num_digits : Z) (buf : list Z) : list Z :=
  drop from (take (Z.to_nat num_digits) buf).

Definition lmasm_write_dat (self : lmasm_opcode) (conf : lmasm_conf) (value : Z)
    (f : wfile) : Z * wfile * list event :=
  if (value <? 0) || (value >? max_dat conf) then
    (-1, f, [Fprintf "DAT value %d out of range\n" [ArgInt value]])
  else
    let buf := encode_decimal fresh_buf value (num_digits conf) in
    let (rc, f1) := fput_all (slice 0 (num_digits conf) buf) f in
    (rc, f1, []).

Definition arg_str (s : option string) : arg :=
  match s with
  | Some x => ArgStr x
  | None => ArgNull
  end.

Definition lmasm_write_op (self : lmasm_opcode) (conf : lmasm_conf) (addr : Z)
    (f : wfile) : Z * wfile * list event :=
  if (addr <? 0) || (addr >? max_addr conf) then
    (-1, f, [Fprintf "%s mailbox %d out of range\n" [arg_str (name self); ArgInt addr]])
  else
    let (rc, f1) := fputc (code self) f in
    if rc =? EOF then (rc, f1, [])
    else
      let buf := encode_decimal fresh_buf addr (num_digits conf) in
      let (rc, f2) := fput_all (slice 1 (num_digits conf) buf) f1 in
      (rc, f2, []).

Definition lmasm_write_io (self : lmasm_opcode) (conf : lmasm_conf) (addr : Z)
    (f : wfile) : Z * wfile * list event :=
  let temp := mk_opcode None None 9 NO_ARGUMENT in
  lmasm_write_op temp conf (code self) f.

(** [instruction->write(instruction, &conf, addr)]; [None] is the null
    pointer of the opcode that [lmasm_write_io] makes up. *)
Definition call_write (self : lmasm_opcode) (conf : lmasm_conf) (addr : Z)
    (f : wfile) : outcome (Z * wfile * list event) :=
  match write self with
  | Some fn_write_dat => Ok (lmasm_write_dat self conf addr f)
  | Some fn_write_op => Ok (lmasm_write_op self conf addr f)
  | Some fn_write_io => Ok (lmasm_write_io self conf addr f)
  | None => Undefined NullCall
  end.

Definition OPCODES : list lmasm_opcode :=
  [ mk_opcode (Some "DAT"%string) (Some fn_write_dat) (-1) MAYBE_ARGUMENT;
    mk_opcode (Some "HLT"%string) (Some fn_write_op) 0 NO_ARGUMENT;
    mk_opcode (Some "COB"%string) (Some fn_write_op) 0 NO_ARGUMENT;
    mk_opcode (Some "ADD"%string) (Some fn_write_op) 1 ONE_ARGUMENT;
    mk_opcode (Some "SUB"%string) (Some fn_write_op) 2 ONE_ARGUMENT;
    mk_opcode (Some "STA"%string) (Some fn_write_op) 3 ONE_ARGUMENT;
    mk_opcode (Some "LDA"%string) (Some fn_write_op) 5 ONE_ARGUMENT;
    mk_opcode (Some "BRA"%string) (Some fn_write_op) 6 ONE_ARGUMENT;
    mk_opcode (Some "BRZ"%string) (Some fn_write_op) 7 ONE_ARGUMENT;
    mk_opcode (Some "BRP"%string) (Some fn_write_op) 8 ONE_ARGUMENT;
    mk_opcode (Some "INP"%string) (Some fn_write_io) 1 NO_ARGUMENT;
    mk_opcode (Some "OUT"%string) (Some fn_write_io) 2 NO_ARGUMENT ].

(** *** Scanner *)

Definition syntax (msg : string) (line : Z) : event :=
  Fprintf "Syntax error on line %d: %s\n" [ArgInt line; ArgStr msg].

Fixpoint next_non_blank (s : stream) : cint * stream :=
  match s with
  | [] => (None, [])
  | c :: r => if isblank c then next_non_blank r else (Some c, r)
  end.

Fixpoint finish_line (s : stream) (in_comment : bool) (cur_line : Z)
    : Z * stream * list event :=
  match s with
  | [] => (0, [], [])
  | c :: r =>
      if is_char NL c then (0, r, [])
      else if negb (isblank c) && negb in_comment then
        if negb (is_char SLASH c) then
          (1, r, [syntax "Expected end-of-line" cur_line])
        else
          match r with
          | [] => (1, [], [syntax "Unexpected '/'" cur_line])
          | c2 :: r2 =>
              if negb (is_char SLASH c2) then
                (1, r2, [syntax "Unexpected '/'" cur_line])
              else finish_line r2 true cur_line
          end
      else finish_line r in_comment cur_line
  end.

(** [while (islabel(c) && i < MAX_LABEL_LEN) { buf[i++] = c; c = fgetc(); }],
    [left] being [MAX_LABEL_LEN - i]. *)
Fixpoint label_chars (left : nat) (c : cint) (s : stream) : string * cint * stream :=
  match left with
  | O => (EmptyString, c, s)
  | S k =>
      match c with
      | Some ch =>
          if islabel ch then
            let (c1, s1) := fgetc s in
            let '(b, c2, s2) := label_chars k c1 s1 in
            (String ch b, c2, s2)
          else (EmptyString, c, s)
      | None => (EmptyString, c, s)
      end
  end.

Definition parse_label (s : stream) (cur_line : Z) : Z * string * stream * list event :=
  let (c, s1) := fgetc s in
  if at_char isdigit c then
    (1, EmptyString, s1, [syntax "Label begins with digit" cur_line])
  else
    let '(buf, c2, s2) := label_chars MAX_LABEL_LEN c s1 in
    if (String.length buf =? MAX_LABEL_LEN)%nat && at_char islabel c2 then
      (1, buf, s2,
       [Fprintf "Label on line %d exceeds max length of %d\n"
          [ArgInt cur_line; ArgInt (Z.of_nat MAX_LABEL_LEN)]])
    else (0, buf, ungetc c2 s2, []).

(** The [for] loop of [parse_addr] over the label table, with its [break]. *)
Fixpoint find_label (buf : string) (labels : list lmasm_label) : option Z :=
  match labels with
  | [] => None
  | l :: ls =>
      if String.eqb buf (label_name l) then Some (label_addr l)
      else find_label buf ls
  end.

(** [while (isdigit((c = fgetc(input_file)))) { addr *= 10; addr += c - '0'; }] *)
Fixpoint more_digits (s : stream) (addr : Z) : outcome (Z * cint * stream) :=
  match s with
  | [] => Ok (addr, None, [])
  | c :: r =>
      if isdigit c then
        a1 ← int_checked (addr * 10);
        a2 ← int_checked (a1 + (int_of_char c - 48));
        more_digits r a2
      else Ok (addr, Some c, r)
  end.

Definition parse_addr (s : stream) (labels : list lmasm_label) (cur_line : Z)
    : outcome (Z * stream * list event) :=
  let (c, s1) := fgetc s in
  match c with
  | Some ch =>
      if isdigit ch then
        '(addr, c2, s2) ← more_digits s1 (int_of_char ch - 48);
        if at_char islabel c2 then
          Ok (-1, s2, [syntax "Label begins with digit" cur_line])
        else
          match c2 with
          | None => Ok (addr, s2, [])
          | Some ch2 =>
              if is_char NL ch2 then Ok (addr, s2, [])
              else
                let '(rc, s3, ev) := finish_line (ungetc c2 s2) false cur_line in
                if negb (rc =? 0) then Ok (-1, s3, ev) else Ok (addr, s3, ev)
          end
      else if islabel ch then
        let '(rc, buf, s2, ev) := parse_label (ungetc c s1) cur_line in
        if negb (rc =? 0) then Ok (-1, s2, ev)
        else
          match find_label buf labels with
          | None =>
              Ok (-1, s2,
                  [Fprintf "On line %d: no such label %s\n" [ArgInt cur_line; ArgStr buf]])
          | Some addr =>
              let '(rc, s3, ev) := finish_line s2 false cur_line in
              if negb (rc =? 0) then Ok (-1, s3, ev) else Ok (addr, s3, ev)
          end
      else Ok (-1, s1, [syntax "Invalid or missing address field" cur_line])
  | None => Ok (-1, s1, [syntax "Invalid or missing address field" cur_line])
  end.

(** *** Pass 1: address allocation *)

(** Sizes of the usual LP64 targets: [struct lmasm_label] is 33 characters,
    3 bytes of padding and an [int]. *)
Definition sizeof_label : Z := 40.
Definition sizeof_ptr : Z := 8.

(** [labels_of] holds [labels[0 .. num_labels - 1]], so [num_labels] is its
    length; [label_block] is the size in bytes of the block [labels] points
    to.  [cur_line] and [cur_addr] grow by one per character read at most
    and stay far from [INT_MAX]. *)
Record pass1 : Type := mk_pass1 {
  p1_input : stream;
  cur_addr : Z;
  p1_line : Z;
  labels_of : list lmasm_label;
  label_buf_size : Z;
  label_block : Z;
  p1_err : list event
}.

(** The inner loop of the [if (isblank(c))] block; the [bool] tells whether
    [++cur_addr] was executed. *)
Fixpoint scan_rest (s : stream) (cur_line : Z) : Z * stream * list event * bool :=
  match s with
  | [] => (0, [], [], false)
  | c :: r =>
      if is_char NL c then (0, r, [], false)
      else if is_char SLASH c then
        let '(rc, s2, ev) := finish_line (c :: r) false cur_line in
        (rc, s2, ev, false)
      else if negb (isblank c) then
        let '(_, s2, ev) := finish_line r true cur_line in
        (0, s2, ev, true)
      else scan_rest r cur_line
  end.

(** One iteration of the first [while ((c = fgetc(input_file)) != EOF)];
    [inr (Ok (rc, _))] with [rc <> 0] is [goto end], with [rc = 0] the
    end of the loop. *)
Definition pass1_body (st : pass1) : pass1 + outcome (Z * pass1) :=
  match p1_input st with
  | [] => inr (Ok (0, st))
  | c :: r =>
      let line := p1_line st + 1 in
      if is_char NL c then
        inl (mk_pass1 r (cur_addr st) line (labels_of st)
               (label_buf_size st) (label_block st) (p1_err st))
      else if is_char SLASH c then
        let '(rc, s2, ev) := finish_line (c :: r) false line in
        let st' := mk_pass1 s2 (cur_addr st) line (labels_of st)
                     (label_buf_size st) (label_block st) (p1_err st ++ ev) in
        if negb (rc =? 0) then inr (Ok (rc, st')) else inl st'
      else if negb (isblank c) then
        let num_labels := Z.of_nat (length (labels_of st)) + 1 in
        let grow := num_labels >=? label_buf_size st in
        let size := if grow then label_buf_size st + 32 else label_buf_size st in
        let block := if grow then size * sizeof_ptr else label_block st in
        if num_labels * sizeof_label >? block then
          inr (Undefined (LabelStore num_labels))
        else
          let '(rc, buf, s2, ev) := parse_label (c :: r) line in
          if negb (rc =? 0) then
            inr (Ok (rc, mk_pass1 s2 (cur_addr st) line (labels_of st)
                           size block (p1_err st ++ ev)))
          else
            inl (mk_pass1 s2 (cur_addr st) line
                   (labels_of st ++ [mk_label buf (cur_addr st)])
                   size block (p1_err st ++ ev))
      else
        let '(rc, s2, ev, bump) := scan_rest r line in
        let st' := mk_pass1 s2 (if bump then cur_addr st + 1 else cur_addr st) line
                     (labels_of st) (label_buf_size st) (label_block st)
                     (p1_err st ++ ev) in
        if negb (rc =? 0) then inr (Ok (rc, st')) else inl st'
  end.

Definition pass1_start (src : stream) : pass1 :=
  mk_pass1 src 0 0 [] 32 (32 * sizeof_label) [].

Definition pass1_run (fuel : nat) (src : stream) : option (outcome (Z * pass1)) :=
  loop pass1_body fuel (pass1_start src).

(** *** Pass 2: encoding *)

Record pass2 : Type := mk_pass2 {
  p2_input : stream;
  p2_line : Z;
  p2_output : wfile;
  p2_err : list event
}.

(** [while (p(c) && (c = fgetc(input_file)) != EOF) ;] *)
Fixpoint skip_while (p : ascii -> bool) (s : stream) (c : cint) : cint * stream :=
  match s with
  | [] => if at_char p c then (None, []) else (c, [])
  | c' :: r => if at_char p c then skip_while p r (Some c') else (c, s)
  end.

(** The [for] loop that fills [opcode_name]; [None] is the end of input
    before three characters were read. *)
Fixpoint read_opcode (n : nat) (c : cint) (s : stream) : option (string * cint * stream) :=
  match n with
  | O => Some (EmptyString, c, s)
  | S k =>
      match c with
      | None => None
      | Some ch =>
          let (c1, s1) := fgetc s in
          match read_opcode k c1 s1 with
          | Some (nm, c2, s2) => Some (String ch nm, c2, s2)
          | None => None
          end
      end
  end.

Fixpoint find_opcode (opcode_name : string) (table : list lmasm_opcode)
    : option lmasm_opcode :=
  match table with
  | [] => None
  | o :: rest =>
      match name o with
      | Some nm =>
          if strcasecmp0 nm opcode_name then Some o
          else find_opcode opcode_name rest
      | None => find_opcode opcode_name rest
      end
  end.

(** The [switch (instruction->arg_format)]: [None] for the address is
    [goto end] with [rc = 1]. *)
Definition operand (af : lmasm_arg_format) (c : cint) (s : stream)
    (labels : list lmasm_label) (cur_line : Z)
    : outcome (option Z * stream * list event) :=
  let no_more :=
    let '(rc, s1, ev) := finish_line s false cur_line in
    Ok (if negb (rc =? 0) then None else Some 0, s1, ev) in
  let one :=
    '(addr, s1, ev) ← parse_addr s labels cur_line;
    Ok (if addr =? -1 then None else Some addr, s1, ev) in
  match af with
  | NO_ARGUMENT => no_more
  | MAYBE_ARGUMENT =>
      match c with
      | None => Ok (Some 0, s, [])
      | Some ch => if negb (islabel ch) then no_more else one
      end
  | ONE_ARGUMENT => one
  end.

Definition stop2 (rc : Z) (s : stream) (line : Z) (f : wfile) (err : list event)
    : pass2 + outcome (Z * pass2) :=
  inr (Ok (rc, mk_pass2 s line f err)).

(** One iteration of the second [while ((c = fgetc(input_file)) != EOF)]. *)
Definition pass2_body (conf : lmasm_conf) (labels : list lmasm_label)
    (out_path : string) (st : pass2) : pass2 + outcome (Z * pass2) :=
  let f := p2_output st in
  let err := p2_err st in
  match p2_input st with
  | [] => inr (Ok (0, st))
  | c :: r =>
      let line := p2_line st + 1 in
      if is_char NL c then inl (mk_pass2 r line f err)
      else if is_char SLASH c then
        let '(rc, s2, ev) := finish_line (c :: r) false line in
        if negb (rc =? 0) then stop2 rc s2 line f (err ++ ev)
        else inl (mk_pass2 s2 line f (err ++ ev))
      else
        let (c1, s1) := skip_while islabel r (Some c) in
        let (c2, s2) := skip_while isblank s1 c1 in
        match c2 with
        | None => stop2 0 s2 line f err
        | Some ch2 =>
            if is_char NL ch2 then inl (mk_pass2 s2 line f err)
            else
              match read_opcode MAX_OPCODE_LEN c2 s2 with
              | None =>
                  stop2 1 [] line f
                    (err ++ [Fprintf "Unexpected EOF reading instruction" []])
              | Some (opcode_name, c3, s3) =>
                  if at_char (fun ch => negb (isspace ch)) c3 then
                    stop2 1 s3 line f
                      (err ++ [Fprintf "Opcode on line %d is too long\n" [ArgInt line]])
                  else
                    match find_opcode opcode_name OPCODES with
                    | None =>
                        stop2 1 s3 line f
                          (err ++ [Fprintf "Error on line %d: No such instruction %s\n"
                                     [ArgInt line; ArgStr (c_str opcode_name)]])
                    | Some instruction =>
                        let (c4, s4) := next_non_blank (ungetc c3 s3) in
                        let s5 := ungetc c4 s4 in
                        match operand (arg_format instruction) c4 s5 labels line with
                        | Undefined u => inr (Undefined u)
                        | Diverges => inr Diverges
                        | Ok (None, s6, ev) => stop2 1 s6 line f (err ++ ev)
                        | Ok (Some addr, s6, ev) =>
                            match call_write instruction conf addr f with
                            | Undefined u => inr (Undefined u)
                            | Diverges => inr Diverges
                            | Ok (rc, f1, ev1) =>
                                let err1 := err ++ ev ++ ev1 in
                                if rc =? -1 then stop2 1 s6 line f1 err1
                                else if rc =? EOF then
                                  stop2 1 s6 line f1
                                    (err1 ++ [Fprintf "Error writing to %s: %s\n"
                                                [ArgStr out_path; ArgErrno]])
                                else inl (mk_pass2 s6 line f1 err1)
                            end
                        end
                    end
              end
        end
  end.

(** *** main *)

(** [max_dat = 1; for (i = 0; i < num_digits; ++i) max_dat *= 10;]
    The products are those of the loop as long as they fit an [int], that
    is for up to nine turns: see [times_ten_checked]. *)
Fixpoint times_ten (k : nat) (acc : Z) : Z :=
  match k with
  | O => acc
  | S k' => times_ten k' (acc * 10)
  end.

(** The same loop with each [conf.max_dat *= 10] computed in [int]. *)
Fixpoint times_ten_checked (k : nat) (acc : Z) : outcome Z :=
  match k with
  | O => Ok acc
  | S k' => a1 ← int_checked (acc * 10); times_ten_checked k' a1
  end.

Definition configure (digits : Z) : lmasm_conf :=
  let m := times_ten (Z.to_nat digits) 1 in
  mk_conf digits (m `quot` 10 - 1) (m - 1).

Record exit : Type := mk_exit {
  status : Z;
  stdout : list event;
  stderr : list event;
  output : option (list Z)
}.

(** The files the program can open: the contents of a file opened for
    reading, and for a file opened for writing the room it offers
    ([fopen] failing is [None]).  [malloc], [calloc] and [fseek] succeed. *)
Record files : Type := mk_files {
  fopen_r : string -> option stream;
  fopen_w : string -> option (option nat)
}.

(** Source text given line by line: the lines joined by newlines, with no
    newline after the last. *)
Fixpoint text (ls : list string) : stream :=
  match ls with
  | [] => []
  | [l] => list_ascii_of_string l
  | l :: rest => list_ascii_of_string l ++ ascii_of_N 10 :: text rest
  end.

(** The two messages on standard output and the message of the length
    check. *)
Definition banner (conf : lmasm_conf) : event :=
  Fprintf "Assembling for a %d-digit system. Max value: %d\n"
    [ArgInt (num_digits conf); ArgInt (max_dat conf)].

Definition announce (out_path : string) (mailboxes : Z) : event :=
  Fprintf "Now assembling %s ...\n%d mailboxes, %d bytes on disk\n"
    [ArgStr out_path; ArgInt mailboxes; ArgInt (mailboxes * 3)].

Definition too_long (mailboxes max : Z) : event :=
  Fprintf "Program is too long. %d mailboxes, max %d\n" [ArgInt mailboxes; ArgInt max].

Definition main (fuel : nat) (argv : list string) (fs : files) : option (outcome exit) :=
  let conf := configure 3 in
  match argv with
  | _ :: in_path :: out_path :: _ =>
      let out0 := [banner conf] in
      match fopen_r fs in_path with
      | None =>
          Some (Ok (mk_exit 1 out0
                      [Fprintf "Error opening %s: %s\n" [ArgStr in_path; ArgErrno]] None))
      | Some src =>
          match pass1_run fuel src with
          | None => None
          | Some (Undefined u) => Some (Undefined u)
          | Some Diverges => Some Diverges
          | Some (Ok (rc, p1)) =>
              if negb (rc =? 0) then Some (Ok (mk_exit rc out0 (p1_err p1) None))
              else if cur_addr p1 >? max_addr conf then
                Some (Ok (mk_exit 1 out0
                  (p1_err p1 ++ [too_long (cur_addr p1) (max_addr conf)]) None))
              else
                match fopen_w fs out_path with
                | None =>
                    Some (Ok (mk_exit 1 out0
                      (p1_err p1 ++ [Fprintf "Failed to open %s: %s\n"
                                       [ArgStr out_path; ArgErrno]]) None))
                | Some room0 =>
                    let out1 := out0 ++ [announce out_path (cur_addr p1)] in
                    match loop (pass2_body conf (labels_of p1) out_path) fuel
                            (mk_pass2 src 0 (mk_wfile [] room0) (p1_err p1)) with
                    | None => None
                    | Some (Undefined u) => Some (Undefined u)
                    | Some Diverges => Some Diverges
                    | Some (Ok (rc2, p2)) =>
                        Some (Ok (mk_exit rc2 out1 (p2_err p2)
                                    (Some (written (p2_output p2)))))
                    end
                end
          end
      end
  | _ => Some (Ok (mk_exit 1 [] [Fprintf "Usage: fmasm <input> <output>\n" []] None))
  end.

End Lmasm.

(** ** Decimal notation *)

(** The [k] low-order decimal digits of [n], most significant first. *)
Fixpoint decimal (k : nat) (n : Z) : list Z :=
  match k with
  | O => []
  | S i => decimal i (n / 10) ++ [n `mod` 10]
  end.

(** The number written by a sequence of digits, most significant first. *)
Definition denotes (ds : list Z) : Z := fold_left (fun v d => v * 10 + d) ds 0.

Definition is_digit (d : Z) : Prop := 0 <= d <= 9.

(** ** Sample machines, images and sources *)
Module Sample.

Definition lmc_argv : list string := ["lmc"; "prog.lmc"]%string.

(** A file system in which every path holds the image [bytes]. *)
Definition holding (bytes : list Z) : string -> option Lmc.rfile :=
  fun _ => Some (Lmc.mk_rfile bytes false).

(** One hundred mailboxes of [LDA 0]. *)
Definition lda_everywhere : list Z := concat (replicate 100 [5; 0; 0]).

(** A running machine with accumulator [a], program counter [pc], decoded
    address [addr], and mailbox 7 holding [v], the others zero. *)
Definition at_work (a pc addr v : Z) : Lmc.world :=
  Lmc.mk_world
    (Lmc.mk_lmc (<[7%nat := v]> (Lmc.mailboxes Lmc.zeroed))
                (Lmc.mk_cpu a pc 0 0 addr false false false))
    (Lmc.mk_console [] [] []).

Definition asm_argv : list string := ["lmasm"; "prog.asm"; "prog.lmc"]%string.

(** A file system in which every path opened for reading holds the source
    text [ls] and every file opened for writing accepts any number of
    bytes. *)
Definition source (ls : list string) : Lmasm.files :=
  Lmasm.mk_files (fun _ => Some (Lmasm.text ls)) (fun _ => Some None).

(** What the assembler prints on standard output when it reaches pass 2
    with [n] mailboxes allocated. *)
Definition progress (n : Z) : list event :=
  [Lmasm.banner (Lmasm.configure 3); Lmasm.announce "prog.lmc" n].

Definition unlimited : Lmasm.wfile := Lmasm.mk_wfile [] None.

Definition lda : Lmasm.lmasm_opcode :=
  Lmasm.mk_opcode (Some "LDA"%string) (Some Lmasm.fn_write_op) 5 Lmasm.ONE_ARGUMENT.

(** A later definition of the label [X]. *)
Definition later_x : list Lmasm.lmasm_label := [Lmasm.mk_label "X" 9].

(** An image one byte longer than the memory. *)
Definition too_big : Lmc.rfile := Lmc.mk_rfile (lda_everywhere ++ [0]) false.

End Sample.

(** ** Well-formed machines *)

(** A value that a mailbox or the accumulator is meant to hold. *)
Definition word_ok (v : Z) : Prop := 0 <= v <= Lmc.MAX_VALUE.

(** The memory has its [NUM_MAILBOXES] cells, cells, accumulator and
    pending input are in [0, MAX_VALUE], and the program counter is at most
    one past the last mailbox. *)
Definition tidy (w : Lmc.world) : Prop :=
  length (Lmc.mailboxes (Lmc.machine w)) = Z.to_nat Lmc.NUM_MAILBOXES
  /\ Forall word_ok (Lmc.mailboxes (Lmc.machine w))
  /\ word_ok (Lmc.a (Lmc.cpu (Lmc.machine w)))
  /\ 0 <= Lmc.pc (Lmc.cpu (Lmc.machine w)) <= Lmc.NUM_MAILBOXES
  /\ Forall word_ok (Lmc.stdin (Lmc.tty w)).

(** The state in which [main] enters its loop after it has loaded the
    words [vs] from the file [path]. *)
Definition loaded (path : string) (vs input : list Z) : Lmc.world :=
  Lmc.print_out
    (Fprintf "%s loaded. %d mailboxes.\n" [ArgStr path; ArgInt (Z.of_nat (length vs))])
    (Lmc.set_mailboxes (vs ++ replicate (Z.to_nat Lmc.NUM_MAILBOXES - length vs) 0)
       (Lmc.boot input)).

(** ** Characters of source text *)

Definition newline : ascii := ascii_of_N 10.
Definition slash : ascii := "/"%char.

(** The character that writes the decimal digit [d]. *)
Definition digit_char (d : Z) : ascii := ascii_of_N (Z.to_N (48 + d)).

(** A character that is not a newline. *)
Definition inline (c : ascii) : Prop := Lmasm.is_char Lmasm.NL c = false.

Definition blank (c : ascii) : Prop := Lmasm.isblank c = true.

(** ** Source programs line by line *)

(** The lines pass 1 tells apart: a statement, with or without a label in
    front, whose text starts after at least one blank; a label alone on
    its line; a line of blanks; and a comment that starts in the first
    column. *)
Inductive src_line : Type :=
| Statement (lbl : option (ascii * string)) (indent text : list ascii)
| Label_only (lbl : ascii * string)
| Empty (indent : list ascii)
| Comment (text : list ascii).

Definition label_text (l : ascii * string) : list ascii :=
  fst l :: list_ascii_of_string (snd l).

Definition label_string (l : ascii * string) : string := String (fst l) (snd l).

Definition render (l : src_line) : list ascii :=
  match l with
  | Statement lbl indent text =>
      match lbl with Some x => label_text x | None => [] end
      ++ indent ++ text ++ [newline]
  | Label_only x => label_text x ++ [newline]
  | Empty indent => indent ++ [newline]
  | Comment text => slash :: slash :: text ++ [newline]
  end.

Definition source_text (ls : list src_line) : list ascii := concat (map render ls).

(** A name that [parse_label] reads whole. *)
Definition label_ok (l : ascii * string) : Prop :=
  Lmasm.islabel (fst l) = true
  /\ Lmasm.isdigit (fst l) = false
  /\ Forall (fun c => Lmasm.islabel c = true) (list_ascii_of_string (snd l))
  /\ (String.length (label_string l) <= Lmasm.MAX_LABEL_LEN)%nat.

(** The text of a statement starts with a character that is neither a
    blank, a newline nor a slash, and holds no newline; nothing else is
    asked of it. *)
Definition text_ok (text : list ascii) : Prop :=
  exists c t, text = c :: t
              /\ Lmasm.isblank c = false
              /\ Lmasm.is_char Lmasm.NL c = false
              /\ Lmasm.is_char Lmasm.SLASH c = false
              /\ Forall inline t.

Definition line_ok (l : src_line) : Prop :=
  match l with
  | Statement lbl indent text =>
      match lbl with Some x => label_ok x | None => True end
      /\ indent <> [] /\ Forall blank indent /\ text_ok text
  | Label_only x => label_ok x
  | Empty indent => Forall blank indent
  | Comment text => Forall inline text
  end.

(** Mailboxes a line allocates, the label it defines, and the number of
    turns of the loop of pass 1 it takes. *)
Definition allocates (l : src_line) : Z :=
  match l with Statement _ _ _ => 1 | _ => 0 end.

Definition defines (l : src_line) : option (ascii * string) :=
  match l with
  | Statement lbl _ _ => lbl
  | Label_only x => Some x
  | _ => None
  end.

Definition turns (l : src_line) : Z :=
  match defines l with Some _ => 2 | None => 1 end.

Fixpoint allocated (ls : list src_line) : Z :=
  match ls with
  | [] => 0
  | l :: rest => allocates l + allocated rest
  end.

Fixpoint turned (ls : list src_line) : Z :=
  match ls with
  | [] => 0
  | l :: rest => turns l + turned rest
  end.

(** The label table of a program whose first line gets address [addr]:
    each label with the address of the next statement. *)
Fixpoint table_from (addr : Z) (ls : list src_line) : list Lmasm.lmasm_label :=
  match ls with
  | [] => []
  | l :: rest =>
      match defines l with
      | Some x => [Lmasm.mk_label (label_string x) addr]
      | None => []
      end ++ table_from (addr + allocates l) rest
  end.


Fixpoint labels_in (ls : list src_line) : nat :=
  match ls with
  | [] => O
  | l :: rest => (match defines l with Some _ => 1 | None => 0 end + labels_in rest)%nat
  end.

(** The state of pass 1 between two lines: the table of labels still has
    the size the first [malloc] gave it. *)
Definition between_lines (s : Lmasm.stream) (addr line : Z)
    (labels : list Lmasm.lmasm_label) (err : list event) : Lmasm.pass1 :=
  Lmasm.mk_pass1 s addr line labels 32 (32 * Lmasm.sizeof_label) err.


(** ** Statements of the language *)

Inductive operand_text : Type :=
| No_operand
| Literal (d0 : Z) (ds : list Z)
| Reference (x : ascii * string).

(** A statement as it is written: the three characters of the mnemonic,
    blanks, the operand, blanks again and possibly a comment. *)
Record instr : Type := mk_instr {
  m0 : ascii;
  m1 : ascii;
  m2 : ascii;
  gap : list ascii;
  operand_of : operand_text;
  pad : list ascii;
  remark : option (list ascii)
}.

Definition mnemonic (i : instr) : string :=
  String (m0 i) (String (m1 i) (String (m2 i) EmptyString)).

Definition operand_chars (o : operand_text) : list ascii :=
  match o with
  | No_operand => []
  | Literal d0 ds => map digit_char (d0 :: ds)
  | Reference x => label_text x
  end.

Definition remark_chars (r : option (list ascii)) : list ascii :=
  match r with
  | Some body => slash :: slash :: body
  | None => []
  end.

Definition instr_text (i : instr) : list ascii :=
  m0 i :: m1 i :: m2 i
  :: gap i ++ operand_chars (operand_of i) ++ pad i ++ remark_chars (remark i).

(** How a statement has to be written: blanks where blanks are meant, a
    comment that stays on its line, at least one blank between mnemonic
    and operand, a literal that fits an [int]. *)
Definition instr_ok (i : instr) : Prop :=
  Forall blank (gap i) /\ Forall blank (pad i)
  /\ match remark i with Some body => Forall inline body | None => True end
  /\ match operand_of i with
     | No_operand => pad i = [] /\ (gap i = [] -> remark i = None)
     | Literal d0 ds =>
         gap i <> [] /\ Forall is_digit (d0 :: ds) /\ denotes (d0 :: ds) <= INT_MAX
     | Reference x => gap i <> [] /\ label_ok x
     end.

(** A line of a program: a statement, or one of the lines that allocate
    nothing. *)
Inductive asm_line : Type :=
| Instr (lbl : option (ascii * string)) (indent : list ascii) (i : instr)
| Plain (l : src_line).

Definition raw (l : asm_line) : src_line :=
  match l with
  | Instr lbl indent i => Statement lbl indent (instr_text i)
  | Plain l => l
  end.

Definition asm_ok (l : asm_line) : Prop :=
  match l with
  | Instr _ _ i => line_ok (raw l) /\ instr_ok i
  | Plain l => line_ok l /\ allocates l = 0
  end.

(** *** What a statement means *)

(** The number the operand stands for. *)
Definition value (labels : list Lmasm.lmasm_label) (o : operand_text) : option Z :=
  match o with
  | No_operand => Some 0
  | Literal d0 ds => Some (denotes (d0 :: ds))
  | Reference x => Lmasm.find_label (label_string x) labels
  end.

(** Whether an instruction of this format can be given this operand. *)
Definition takes (af : Lmasm.lmasm_arg_format) (o : operand_text) : bool :=
  match af, o with
  | Lmasm.NO_ARGUMENT, No_operand => true
  | Lmasm.NO_ARGUMENT, _ => false
  | Lmasm.ONE_ARGUMENT, No_operand => false
  | _, _ => true
  end.

(** The ranges of a three-digit machine. *)
Definition fits (o : Lmasm.lmasm_opcode) (v : Z) : bool :=
  match Lmasm.write o with
  | Some Lmasm.fn_write_dat => (0 <=? v) && (v <=? 999)
  | Some Lmasm.fn_write_op => (0 <=? v) && (v <=? 99)
  | Some Lmasm.fn_write_io => true
  | None => false
  end.

(** The content of the mailbox. *)
Definition word (o : Lmasm.lmasm_opcode) (v : Z) : Z :=
  match Lmasm.write o with
  | Some Lmasm.fn_write_dat => v
  | Some Lmasm.fn_write_op => Lmasm.code o * 100 + v
  | Some Lmasm.fn_write_io => 900 + Lmasm.code o
  | None => 0
  end.

Definition assemble (labels : list Lmasm.lmasm_label) (i : instr) : option Z :=
  match Lmasm.find_opcode (mnemonic i) Lmasm.OPCODES, value labels (operand_of i) with
  | Some o, Some v =>
      if takes (Lmasm.arg_format o) (operand_of i) && fits o v then Some (word o v) else None
  | _, _ => None
  end.

(** The mailboxes of a program, in order, given the table of its labels;
    [None] when a statement has no meaning. *)
Fixpoint image (labels : list Lmasm.lmasm_label) (ls : list asm_line) : option (list Z) :=
  match ls with
  | [] => Some []
  | Instr _ _ i :: rest =>
      match assemble labels i, image labels rest with
      | Some w, Some ws => Some (w :: ws)
      | _, _ => None
      end
  | Plain _ :: rest => image labels rest
  end.


(** ** A sample program *)
Module Demo.

Definition sp : ascii := " "%char.
Definition tab : ascii := ascii_of_N 9.
Definition chars (s : string) : list ascii := list_ascii_of_string s.

(** [
     INP
    LOOP sta X  // keep
      OUT //show
    // again
    <tab>BRA LOOP

    END
    X DAT 042
    ] *)
Definition program : list asm_line :=
  [ Instr None [sp] (mk_instr "I" "N" "P" [] No_operand [] None);
    Instr (Some ("L"%char, "OOP"%string)) [sp]
      (mk_instr "s" "t" "a" [sp] (Reference ("X"%char, EmptyString)) [sp; sp]
         (Some (chars " keep")));
    Instr None [sp; sp] (mk_instr "O" "U" "T" [sp] No_operand [] (Some (chars "show")));
    Plain (Comment (chars " again"));
    Instr None [tab] (mk_instr "B" "R" "A" [sp] (Reference ("L"%char, "OOP"%string)) [] None);
    Plain (Empty [sp]);
    Plain (Label_only ("E"%char, "ND"%string));
    Instr (Some ("X"%char, EmptyString)) [sp]
      (mk_instr "D" "A" "T" [sp] (Literal 0 [4; 2]) [] None) ].

Definition words : list Z := [901; 304; 902; 601; 42].

Definition lines : list src_line := map raw program.

(** Read a number, print it, halt. *)
Definition echo : list asm_line :=
  [ Instr None [sp] (mk_instr "I" "N" "P" [] No_operand [] None);
    Instr None [sp] (mk_instr "O" "U" "T" [] No_operand [] None);
    Instr None [sp] (mk_instr "H" "L" "T" [] No_operand [] None) ].

Definition echo_words : list Z := [901; 902; 0].

(** Every path opened for reading holds the text [src]; a file opened for
    writing has the room [room]. *)
Definition disk (src : Lmasm.stream) (room : option nat) : Lmasm.files :=
  Lmasm.mk_files (fun _ => Some src) (fun _ => Some room).

(** Thirty-one labels, each alone on its line. *)
Definition many_labels : list src_line :=
  replicate 31 (Label_only ("L"%char, EmptyString)).

(** A statement with a mnemonic that does not exist. *)
Definition mul : src_line := Statement None [sp] (chars "MUL 3").

(** A machine about to execute the input instruction, with [n] typed in. *)
Definition at_input (n : Z) : Lmc.world :=
  Lmc.mk_world
    (Lmc.mk_lmc (<[7%nat := 1]> (Lmc.mailboxes Lmc.zeroed))
                (Lmc.mk_cpu 0 1 901 9 1 false false false))
    (Lmc.mk_console [n] [] []).

End Demo.

(** * Properties *)

(** ** Fuel *)

Lemma loop_mono {St R : Type} (body : St -> St + R) (n m : nat) (s : St) (r : R) :
  (n <= m)%nat -> loop body n s = Some r -> loop body m s = Some r.
Proof.
  revert m s. induction n as [|n IH]; intros m s Hle H; [discriminate|].
  destruct m as [|m]; [lia|]. simpl in *.
  destruct (body s); [apply IH; [lia|exact H]|exact H].
Qed.

Lemma lmc_main_mono (n m : nat) argv fs input r :
  (n <= m)%nat -> Lmc.main n argv fs input = Some r -> Lmc.main m argv fs input = Some r.
Proof.
  intros Hle. unfold Lmc.main.
  destruct argv as [|? [|path [|? ?]]]; try tauto.
  destruct (fs path) as [f|]; [|tauto].
  destruct (Lmc.load _ _ _) as [[mem i]| |]; try tauto.
  destruct (Lmc.ferror f); [tauto|].
  destruct (negb _); [tauto|].
  unfold Lmc.execute, Lmc.run.
  destruct (loop Lmc.run_body n _) as [o|] eqn:E; [|discriminate].
  rewrite (loop_mono _ n m _ _ Hle E). tauto.
Qed.

Lemma lmasm_main_mono (n m : nat) argv fs r :
  (n <= m)%nat -> Lmasm.main n argv fs = Some r -> Lmasm.main m argv fs = Some r.
Proof.
  intros Hle. unfold Lmasm.main.
  destruct argv as [|? [|inp [|outp ?]]]; try tauto.
  destruct (Lmasm.fopen_r fs inp) as [src|]; [|tauto].
  unfold Lmasm.pass1_run.
  destruct (loop Lmasm.pass1_body n _) as [o|] eqn:E1; [|discriminate].
  rewrite (loop_mono _ n m _ _ Hle E1).
  destruct o as [[rc p1]| |]; try tauto.
  destruct (negb _); [tauto|].
  destruct (_ >? _); [tauto|].
  destruct (Lmasm.fopen_w fs outp) as [room0|]; [|tauto].
  destruct (loop (Lmasm.pass2_body _ _ _) n _) as [o|] eqn:E2; [|discriminate].
  rewrite (loop_mono _ n m _ _ Hle E2). tauto.
Qed.

(** ** The emulator's arithmetic *)

Lemma mailbox_get_in (m : list Z) (i v : Z) :
  0 <= i < Lmc.NUM_MAILBOXES -> m !! Z.to_nat i = Some v -> Lmc.mailbox_get m i = Ok v.
Proof.
  intros Hi Hv. unfold Lmc.mailbox_get. rewrite Hv.
  replace ((0 <=? i) && (i <? Lmc.NUM_MAILBOXES)) with true; [reflexivity|].
  symmetry. apply andb_true_iff. split; [apply Z.leb_le|apply Z.ltb_lt]; lia.
Qed.

Lemma mailbox_get_out (m : list Z) (i : Z) :
  i < 0 \/ Lmc.NUM_MAILBOXES <= i -> Lmc.mailbox_get m i = Undefined (MailboxIndex i).
Proof.
  intros Hi. unfold Lmc.mailbox_get.
  replace ((0 <=? i) && (i <? Lmc.NUM_MAILBOXES)) with false; [reflexivity|].
  symmetry. apply andb_false_iff.
  destruct Hi; [left; apply Z.leb_gt|right; apply Z.ltb_ge]; lia.
Qed.

Lemma int_checked_small (z : Z) : INT_MIN <= z <= INT_MAX -> int_checked z = Ok z.
Proof.
  intros H. unfold int_checked.
  replace ((INT_MIN <=? z) && (z <=? INT_MAX)) with true; [reflexivity|].
  symmetry. apply andb_true_iff. split; apply Z.leb_le; lia.
Qed.


(** ** The fetch-decode-execute loop *)

Lemma fetch_in (w : Lmc.world) (i : Z) :
  let c := Lmc.cpu (Lmc.machine w) in
  0 <= Lmc.pc c < Lmc.NUM_MAILBOXES ->
  Lmc.mailboxes (Lmc.machine w) !! Z.to_nat (Lmc.pc c) = Some i ->
  Lmc.fetch w =
  Ok (Lmc.set_cpu (fun c0 => Lmc.set_decoded i (i `quot` Lmc.NUM_MAILBOXES)
                               (i `rem` Lmc.NUM_MAILBOXES)
                               (Lmc.set_pc (Lmc.pc c + 1) c0)) w).
Proof.
  intros c Hpc Hi. unfold Lmc.fetch. fold c.
  rewrite (mailbox_get_in _ _ _ Hpc Hi). reflexivity.
Qed.

Lemma fetch_out (w : Lmc.world) :
  let c := Lmc.cpu (Lmc.machine w) in
  Lmc.pc c < 0 \/ Lmc.NUM_MAILBOXES <= Lmc.pc c ->
  Lmc.fetch w = Undefined (MailboxIndex (Lmc.pc c)).
Proof.
  intros c Hpc. unfold Lmc.fetch. fold c.
  rewrite (mailbox_get_out _ _ Hpc). reflexivity.
Qed.

(** C6. When the fetched instruction decodes to opcode 4, to an opcode
    above 9, or to opcode 9 with an address field other than 1 and 2, the
    loop ends whatever fuel is left: the register dump (taken after the
    program counter was incremented and before [halted] is set) is
    appended to the error stream, seven lines that give the instruction,
    [a], [pc], [opcode], [addr], [neg] and [halt] in this order, [halted] and [error] are set, the program
    counter has advanced by the one fetch only, memory and standard output
    are untouched, and the exit status computed from [error] is 1.  So the
    image 4, 0, 0, whose first mailbox decodes to opcode 4, stops at once
    with the dump on the error stream and exit status 1. *)
Theorem bad_instruction_stops (w : Lmc.world) (i : Z) (fuel : nat) :
  let c := Lmc.cpu (Lmc.machine w) in
  let o := i `quot` Lmc.NUM_MAILBOXES in
  let ad := i `rem` Lmc.NUM_MAILBOXES in
  (2 <= fuel)%nat ->
  Lmc.halted c = false ->
  0 <= Lmc.pc c < Lmc.NUM_MAILBOXES ->
  Lmc.mailboxes (Lmc.machine w) !! Z.to_nat (Lmc.pc c) = Some i ->
  o = 4 \/ 9 < o \/ (o = 9 /\ ad <> 1 /\ ad <> 2) ->
  exists w',
    Lmc.run fuel w = Some (Ok w')
    /\ Lmc.halted (Lmc.cpu (Lmc.machine w')) = true
    /\ Lmc.error (Lmc.cpu (Lmc.machine w')) = true
    /\ Lmc.pc (Lmc.cpu (Lmc.machine w')) = Lmc.pc c + 1
    /\ Lmc.mailboxes (Lmc.machine w') = Lmc.mailboxes (Lmc.machine w)
    /\ Lmc.stdout (Lmc.tty w') = Lmc.stdout (Lmc.tty w)
    /\ Lmc.stderr (Lmc.tty w') =
       Lmc.stderr (Lmc.tty w) ++
       [ Fprintf "Bad instruction! (%d)\n" [ArgInt i];
         Fprintf "a  = %d\n" [ArgInt (Lmc.a c)];
         Fprintf "pc = %d\n" [ArgInt (Lmc.pc c + 1)];
         Fprintf "opcode = %d\n" [ArgInt o];
         Fprintf "addr   = %d\n" [ArgInt ad];
         Fprintf "neg    = %d\n" [ArgInt (if Lmc.neg c then 1 else 0)];
         Fprintf "halt   = %d\n" [ArgInt 0] ]
    /\ Lmc.bool_int (Lmc.error (Lmc.cpu (Lmc.machine w'))) = 1
    /\ exists w4,
         Lmc.main fuel Sample.lmc_argv (Sample.holding [4; 0; 0]) []
         = Some (Ok (Lmc.mk_exit 1 w4))
         /\ Lmc.cpu (Lmc.machine w4) = Lmc.mk_cpu 0 1 400 4 0 false true true
         /\ Lmc.stderr (Lmc.tty w4)
              = [ Fprintf "Bad instruction! (%d)\n" [ArgInt 400];
                Fprintf "a  = %d\n" [ArgInt 0];
                Fprintf "pc = %d\n" [ArgInt 1];
                Fprintf "opcode = %d\n" [ArgInt 4];
                Fprintf "addr   = %d\n" [ArgInt 0];
                Fprintf "neg    = %d\n" [ArgInt 0];
                Fprintf "halt   = %d\n" [ArgInt 0] ].
Proof.
  intros c o ad Hfuel Hh Hpc Hi Hbad.
  assert (Himg : exists w4,
             Lmc.main fuel Sample.lmc_argv (Sample.holding [4; 0; 0]) []
             = Some (Ok (Lmc.mk_exit 1 w4))
             /\ Lmc.cpu (Lmc.machine w4) = Lmc.mk_cpu 0 1 400 4 0 false true true
             /\ Lmc.stderr (Lmc.tty w4)
              = [ Fprintf "Bad instruction! (%d)\n" [ArgInt 400];
                Fprintf "a  = %d\n" [ArgInt 0];
                Fprintf "pc = %d\n" [ArgInt 1];
                Fprintf "opcode = %d\n" [ArgInt 4];
                Fprintf "addr   = %d\n" [ArgInt 0];
                Fprintf "neg    = %d\n" [ArgInt 0];
                Fprintf "halt   = %d\n" [ArgInt 0] ]).
  { assert (E : exists w4,
               Lmc.main 2 Sample.lmc_argv (Sample.holding [4; 0; 0]) []
               = Some (Ok (Lmc.mk_exit 1 w4))
               /\ Lmc.cpu (Lmc.machine w4) = Lmc.mk_cpu 0 1 400 4 0 false true true
               /\ Lmc.stderr (Lmc.tty w4)
              = [ Fprintf "Bad instruction! (%d)\n" [ArgInt 400];
                Fprintf "a  = %d\n" [ArgInt 0];
                Fprintf "pc = %d\n" [ArgInt 1];
                Fprintf "opcode = %d\n" [ArgInt 4];
                Fprintf "addr   = %d\n" [ArgInt 0];
                Fprintf "neg    = %d\n" [ArgInt 0];
                Fprintf "halt   = %d\n" [ArgInt 0] ]).
    { eexists. split; [vm_compute; reflexivity|]. split; reflexivity. }
    destruct E as (w4 & E & Hw4). exists w4. split; [|exact Hw4].
    exact (lmc_main_mono 2 fuel _ _ _ _ Hfuel E). }
  destruct fuel as [|[|fuel]]; [lia|lia|].
  pose proof (fetch_in w i Hpc Hi) as Hf. fold c in Hf.
  exists (Lmc.bad_instruction
            (Lmc.set_cpu (fun c0 => Lmc.set_decoded i o ad (Lmc.set_pc (Lmc.pc c + 1) c0)) w)).
  destruct w as [[mem [ac p ins op adr ng hl er]] [sin sout serr]].
  simpl in c. subst c. simpl in *. subst hl.
  split.
  - unfold Lmc.run. cbn [loop]. unfold Lmc.run_body at 1. cbn [Lmc.halted Lmc.cpu Lmc.machine].
    unfold Lmc.cycle. rewrite Hf. cbn [mbind outcome_bind].
    unfold Lmc.dispatch, Lmc.set_cpu, Lmc.set_decoded, Lmc.set_pc.
    cbn [Lmc.opcode Lmc.cpu Lmc.machine Lmc.mailboxes Lmc.tty].
    fold o. fold ad.
    destruct Hbad as [H4|[Hgt|(H9 & Hn1 & Hn2)]].
    + rewrite H4. cbn. reflexivity.
    + destruct (Z.gtb_spec o 9); [|lia]. reflexivity.
    + rewrite H9. change (9 >? 9) with false. change (9 <? 0) with false.
      change (Lmc.OPS !! Z.to_nat 9) with (Some (Some Lmc.lmc_io)).
      cbv iota. unfold Lmc.lmc_io. cbn [Lmc.addr Lmc.cpu Lmc.machine].
      destruct (Z.eqb_spec ad 1); [contradiction|].
      destruct (Z.eqb_spec ad 2); [contradiction|].
      cbn. reflexivity.
  - cbn. repeat split; try reflexivity. exact Himg.
Qed.

(** ** The image loader *)

Lemma quot_digits_range (i : Z) :
  0 <= i < Lmc.NUM_MAILBOXES * Lmc.NUM_DIGITS ->
  0 <= i `quot` Lmc.NUM_DIGITS < Lmc.NUM_MAILBOXES.
Proof.
  unfold Lmc.NUM_MAILBOXES, Lmc.NUM_DIGITS. intros H.
  rewrite Z.quot_div_nonneg by lia.
  split; [apply Z.div_pos; lia|apply Z.div_lt_upper_bound; lia].
Qed.

Lemma load_step (c : Z) (rest m : list Z) (i : Z) :
  0 <= i < Lmc.NUM_MAILBOXES * Lmc.NUM_DIGITS ->
  length m = Z.to_nat Lmc.NUM_MAILBOXES ->
  exists m', Lmc.load (c :: rest) i m = Lmc.load rest (i + 1) m'
             /\ length m' = Z.to_nat Lmc.NUM_MAILBOXES.
Proof.
  intros Hi Hlen. pose proof (quot_digits_range i Hi) as Hk.
  destruct (lookup_lt_is_Some_2 m (Z.to_nat (i `quot` Lmc.NUM_DIGITS))) as [v Hv];
    [rewrite Hlen; lia|].
  exists (<[Z.to_nat (i `quot` Lmc.NUM_DIGITS) := v * 10 + c]> m). split.
  - cbn [Lmc.load]. rewrite (mailbox_get_in _ _ _ Hk Hv). cbn [mbind outcome_bind].
    unfold Lmc.mailbox_set.
    replace ((0 <=? i `quot` Lmc.NUM_DIGITS) && (i `quot` Lmc.NUM_DIGITS <? Lmc.NUM_MAILBOXES))
      with true; [reflexivity|].
    symmetry. apply andb_true_iff. split; [apply Z.leb_le|apply Z.ltb_lt]; lia.
  - rewrite length_insert. exact Hlen.
Qed.

Lemma load_fits (bytes : list Z) : forall (i : Z) (m : list Z),
  0 <= i ->
  length m = Z.to_nat Lmc.NUM_MAILBOXES ->
  i + Z.of_nat (length bytes) <= Lmc.NUM_MAILBOXES * Lmc.NUM_DIGITS ->
  exists m', Lmc.load bytes i m = Ok (m', i + Z.of_nat (length bytes))
             /\ length m' = Z.to_nat Lmc.NUM_MAILBOXES.
Proof.
  induction bytes as [|c rest IH]; intros i m Hi Hlen Hfit.
  - exists m. simpl. rewrite Z.add_0_r. auto.
  - cbn [length] in Hfit. rewrite Nat2Z.inj_succ in Hfit.
    destruct (load_step c rest m i) as (m1 & E & Hlen1); [lia|exact Hlen|].
    destruct (IH (i + 1) m1) as (m' & E' & Hlen'); [lia|exact Hlen1|lia|].
    exists m'. rewrite E, E'. split; [|exact Hlen'].
    cbn [length]. rewrite Nat2Z.inj_succ. do 2 f_equal. lia.
Qed.

Lemma load_overrun (bytes : list Z) : forall (i : Z) (m : list Z),
  0 <= i <= Lmc.NUM_MAILBOXES * Lmc.NUM_DIGITS ->
  length m = Z.to_nat Lmc.NUM_MAILBOXES ->
  Lmc.NUM_MAILBOXES * Lmc.NUM_DIGITS < i + Z.of_nat (length bytes) ->
  Lmc.load bytes i m = Undefined (MailboxIndex Lmc.NUM_MAILBOXES).
Proof.
  induction bytes as [|c rest IH]; intros i m Hi Hlen Hover.
  - simpl in Hover. lia.
  - cbn [length] in Hover. rewrite Nat2Z.inj_succ in Hover.
    destruct (Z.eq_dec i (Lmc.NUM_MAILBOXES * Lmc.NUM_DIGITS)) as [->|Hne].
    + cbn [Lmc.load]. reflexivity.
    + destruct (load_step c rest m i) as (m1 & E & Hlen1); [lia|exact Hlen|].
      rewrite E. apply IH; [lia|exact Hlen1|lia].
Qed.

(** C10. The loader checks only that the number of bytes is a multiple of
    [NUM_DIGITS]: with at most [NUM_MAILBOXES * NUM_DIGITS] bytes every
    write [mailboxes[i / NUM_DIGITS]] is inside the array, the only load
    error is the one about the file size, reported exactly when the count
    is not a multiple of [NUM_DIGITS], and otherwise execution starts; with
    more bytes the loop writes outside the array at index [NUM_MAILBOXES]
    and the program has no error exit for it. *)
Theorem loader_has_no_size_check (prog path : string) (fs : string -> option Lmc.rfile)
    (f : Lmc.rfile) (input : list Z) (fuel : nat) :
  let n := Z.of_nat (length (Lmc.delivered f)) in
  fs path = Some f ->
  Lmc.ferror f = false ->
  (n <= Lmc.NUM_MAILBOXES * Lmc.NUM_DIGITS ->
   exists m,
     Lmc.load (Lmc.delivered f) 0 (Lmc.mailboxes Lmc.zeroed) = Ok (m, n)
     /\ length m = Z.to_nat Lmc.NUM_MAILBOXES
     /\ (n `rem` Lmc.NUM_DIGITS <> 0 ->
         Lmc.main fuel [prog; path] fs input =
         Some (Ok (Lmc.mk_exit 1
           (Lmc.print_err
              [Fprintf "File size is not a multiple of the number of digits per mailbox\n" []]
              (Lmc.set_mailboxes m (Lmc.boot input))))))
     /\ (n `rem` Lmc.NUM_DIGITS = 0 ->
         Lmc.main fuel [prog; path] fs input =
         Lmc.execute fuel
           (Lmc.print_out (Fprintf "%s loaded. %d mailboxes.\n"
                             [ArgStr path; ArgInt (n `quot` Lmc.NUM_DIGITS)])
              (Lmc.set_mailboxes m (Lmc.boot input)))))
  /\
  (Lmc.NUM_MAILBOXES * Lmc.NUM_DIGITS < n ->
   Lmc.load (Lmc.delivered f) 0 (Lmc.mailboxes Lmc.zeroed)
   = Undefined (MailboxIndex Lmc.NUM_MAILBOXES)
   /\ Lmc.main fuel [prog; path] fs input = Some (Undefined (MailboxIndex Lmc.NUM_MAILBOXES))).
Proof.
  intros n Hfs Hferr. split.
  - intros Hn.
    destruct (load_fits (Lmc.delivered f) 0 (Lmc.mailboxes Lmc.zeroed))
      as (m & E & Hlen); [lia|reflexivity|exact Hn|].
    rewrite Z.add_0_l in E. fold n in E.
    exists m. split; [exact E|]. split; [exact Hlen|].
    unfold Lmc.main. rewrite Hfs. cbn [Lmc.boot Lmc.machine]. rewrite E, Hferr.
    split; intros Hrem.
    + destruct (Z.eqb_spec (n `rem` Lmc.NUM_DIGITS) 0); [contradiction|]. reflexivity.
    + rewrite Hrem. reflexivity.
  - intros Hn.
    assert (E : Lmc.load (Lmc.delivered f) 0 (Lmc.mailboxes Lmc.zeroed)
                = Undefined (MailboxIndex Lmc.NUM_MAILBOXES)).
    { apply load_overrun; [unfold Lmc.NUM_MAILBOXES, Lmc.NUM_DIGITS; lia|reflexivity|].
      fold n. lia. }
    split; [exact E|]. unfold Lmc.main. rewrite Hfs. cbn [Lmc.boot Lmc.machine].
    rewrite E. reflexivity.
Qed.

(** C7 as stated fails on one hundred mailboxes of [LDA 0]: after the
    hundredth instruction the program counter is 100 and the next fetch
    reads outside the array; the run does not end in an exit, with status 1
    or any other, and no machine with [halted] and [error] set results. *)
Lemma fetch_past_the_end :
  Lmc.main 101 Sample.lmc_argv (Sample.holding Sample.lda_everywhere) []
  = Some (Undefined (MailboxIndex 100))
  /\ ~ (exists e, Lmc.main 101 Sample.lmc_argv (Sample.holding Sample.lda_everywhere) []
                  = Some (Ok e)
                  /\ Lmc.halted (Lmc.cpu (Lmc.machine (Lmc.final e))) = true
                  /\ Lmc.error (Lmc.cpu (Lmc.machine (Lmc.final e))) = true).
Proof.
  assert (E : Lmc.main 101 Sample.lmc_argv (Sample.holding Sample.lda_everywhere) []
              = Some (Undefined (MailboxIndex 100))) by (vm_compute; reflexivity).
  split; [exact E|]. intros (e & He & _). rewrite E in He. discriminate.
Qed.

(** C7, amended. The fetch is not guarded: no range check of the program
    counter precedes [mailboxes[pc++]].  In a machine that is not halted, a
    program counter inside the array fetches that mailbox and advances by
    one; a program counter outside it makes the fetch a read outside the
    array, and the loop produces that undefined access, not a machine with
    [halted] and [error] set. *)
Theorem fetch_is_unguarded (w : Lmc.world) (fuel : nat) :
  let c := Lmc.cpu (Lmc.machine w) in
  Lmc.halted c = false ->
  (1 <= fuel)%nat ->
  length (Lmc.mailboxes (Lmc.machine w)) = Z.to_nat Lmc.NUM_MAILBOXES ->
  (0 <= Lmc.pc c < Lmc.NUM_MAILBOXES ->
   exists i,
     Lmc.mailboxes (Lmc.machine w) !! Z.to_nat (Lmc.pc c) = Some i
     /\ Lmc.fetch w =
        Ok (Lmc.set_cpu (fun c0 => Lmc.set_decoded i (i `quot` Lmc.NUM_MAILBOXES)
                                     (i `rem` Lmc.NUM_MAILBOXES)
                                     (Lmc.set_pc (Lmc.pc c + 1) c0)) w))
  /\
  (Lmc.pc c < 0 \/ Lmc.NUM_MAILBOXES <= Lmc.pc c ->
   Lmc.fetch w = Undefined (MailboxIndex (Lmc.pc c))
   /\ Lmc.run fuel w = Some (Undefined (MailboxIndex (Lmc.pc c)))
   /\ Lmc.execute fuel w = Some (Undefined (MailboxIndex (Lmc.pc c)))).
Proof.
  intros c Hh Hfuel Hlen. split.
  - intros Hpc.
    destruct (lookup_lt_is_Some_2 (Lmc.mailboxes (Lmc.machine w)) (Z.to_nat (Lmc.pc c)))
      as [i Hi]; [rewrite Hlen; lia|].
    exists i. split; [exact Hi|]. exact (fetch_in w i Hpc Hi).
  - intros Hpc. pose proof (fetch_out w Hpc) as Hf. fold c in Hf.
    assert (Hrun : Lmc.run fuel w = Some (Undefined (MailboxIndex (Lmc.pc c)))).
    { destruct fuel as [|fuel]; [lia|].
      unfold Lmc.run. cbn [loop]. unfold Lmc.run_body. fold c. rewrite Hh.
      unfold Lmc.cycle. rewrite Hf. reflexivity. }
    split; [exact Hf|]. split; [exact Hrun|].
    unfold Lmc.execute. rewrite Hrun. reflexivity.
Qed.

(** ** The encoders *)

Lemma decimal_length (k : nat) : forall n, length (decimal k n) = k.
Proof.
  induction k as [|k IH]; intros n; [reflexivity|].
  cbn [decimal]. rewrite length_app, IH. simpl. lia.
Qed.

Lemma decimal_digits (k : nat) : forall n, Forall is_digit (decimal k n).
Proof.
  induction k as [|k IH]; intros n; [constructor|].
  cbn [decimal]. apply Forall_app. split; [apply IH|].
  constructor; [|constructor]. unfold is_digit.
  pose proof (Z.mod_pos_bound n 10). lia.
Qed.

Lemma denotes_snoc (ds : list Z) (d : Z) : denotes (ds ++ [d]) = denotes ds * 10 + d.
Proof. unfold denotes. rewrite fold_left_app. reflexivity. Qed.

Lemma denotes_cons (ds : list Z) : forall d,
  denotes (d :: ds) = d * 10 ^ Z.of_nat (length ds) + denotes ds.
Proof.
  induction ds as [|x ds IH] using rev_ind; intros d.
  - unfold denotes. simpl. lia.
  - rewrite app_comm_cons, !denotes_snoc, IH, length_app. simpl.
    rewrite Nat2Z.inj_add, Z.pow_add_r by lia. change (10 ^ Z.of_nat 1) with 10. lia.
Qed.

Lemma denotes_decimal (k : nat) : forall n,
  0 <= n -> denotes (decimal k n) = n `mod` 10 ^ Z.of_nat k.
Proof.
  induction k as [|k IH]; intros n Hn.
  - simpl. rewrite Z.mod_1_r. reflexivity.
  - cbn [decimal]. rewrite denotes_snoc, IH by (apply Z.div_pos; lia).
    rewrite Nat2Z.inj_succ, Z.pow_succ_r by lia.
    assert (Hp : 0 < 10 ^ Z.of_nat k) by (apply Z.pow_pos_nonneg; lia).
    rewrite Z.rem_mul_r by lia. lia.
Qed.

Lemma decimal_tail (k : nat) : forall n, drop 1 (decimal (S k) n) = decimal k n.
Proof.
  induction k as [|k IH]; intros n; [reflexivity|].
  change (decimal (S (S k)) n) with (decimal (S k) (n / 10) ++ [n `mod` 10]).
  rewrite drop_app_le by (rewrite decimal_length; lia).
  rewrite IH. reflexivity.
Qed.

Lemma decimal_lookup (k : nat) : forall (n : Z) (i : nat),
  (i < k)%nat ->
  decimal k n !! i = Some ((n / 10 ^ (Z.of_nat k - 1 - Z.of_nat i)) `mod` 10).
Proof.
  induction k as [|k IH]; intros n i Hi; [lia|].
  cbn [decimal]. destruct (Nat.eq_dec i k) as [->|Hne].
  - rewrite lookup_app_r by (rewrite decimal_length; lia).
    rewrite decimal_length, Nat.sub_diag.
    replace (Z.of_nat (S k) - 1 - Z.of_nat k) with 0 by lia.
    rewrite Z.pow_0_r, Z.div_1_r. reflexivity.
  - rewrite lookup_app_l by (rewrite decimal_length; lia).
    rewrite IH by lia. do 2 f_equal.
    replace (Z.of_nat (S k) - 1 - Z.of_nat i) with (Z.succ (Z.of_nat k - 1 - Z.of_nat i)) by lia.
    rewrite Z.pow_succ_r by lia.
    rewrite Z.div_div by (try apply Z.pow_pos_nonneg; lia).
    reflexivity.
Qed.

Lemma decimal_zero (k : nat) : decimal k 0 = replicate k 0.
Proof.
  induction k as [|k IH]; [reflexivity|].
  cbn [decimal]. change (0 / 10) with 0. rewrite IH, replicate_S_end. reflexivity.
Qed.

Lemma decimal_nines (k : nat) : decimal k (10 ^ Z.of_nat k - 1) = replicate k 9.
Proof.
  induction k as [|k IH]; [reflexivity|].
  cbn [decimal]. rewrite Nat2Z.inj_succ, Z.pow_succ_r by lia.
  assert (Hp : 0 < 10 ^ Z.of_nat k) by (apply Z.pow_pos_nonneg; lia).
  replace (10 * 10 ^ Z.of_nat k - 1) with (9 + (10 ^ Z.of_nat k - 1) * 10) by lia.
  rewrite Z.div_add, Z_mod_plus_full by lia.
  change (9 / 10) with 0. change (9 `mod` 10) with 9.
  rewrite Z.add_0_l, IH, replicate_S_end. reflexivity.
Qed.

(** [encode_decimal] leaves in [buf[0 .. k - 1]] the [k] low-order digits
    of [n] and does not touch the rest. *)
Lemma encode_decimal_from_spec (k : nat) : forall (buf : list Z) (n : Z),
  (k <= length buf)%nat -> 0 <= n ->
  Lmasm.encode_decimal_from k buf n = decimal k n ++ drop k buf.
Proof.
  induction k as [|k IH]; intros buf n Hk Hn; [reflexivity|].
  cbn [Lmasm.encode_decimal_from decimal].
  rewrite IH; [|rewrite length_insert; lia|apply Z.quot_pos; lia].
  rewrite Z.quot_div_nonneg, Z.rem_mod_nonneg by lia.
  rewrite insert_take_drop by lia.
  rewrite drop_app_length' by (rewrite length_take; lia).
  rewrite <- app_assoc. reflexivity.
Qed.

Lemma slice_encoded (from : nat) (digits : Z) (n : Z) :
  0 <= digits <= Z.of_nat Lmasm.MAX_NUM_DIGITS -> 0 <= n ->
  Lmasm.slice from digits (Lmasm.encode_decimal Lmasm.fresh_buf n digits)
  = drop from (decimal (Z.to_nat digits) n).
Proof.
  intros Hd Hn. unfold Lmasm.slice, Lmasm.encode_decimal.
  rewrite encode_decimal_from_spec;
    [|unfold Lmasm.fresh_buf; rewrite length_replicate; lia|exact Hn].
  rewrite take_app_length' by (rewrite decimal_length; reflexivity).
  reflexivity.
Qed.

Lemma fput_all_digits (ds : list Z) : forall (f : Lmasm.wfile),
  Lmasm.room f = None -> Forall is_digit ds ->
  Lmasm.fput_all ds f = (0, Lmasm.mk_wfile (Lmasm.written f ++ ds) None).
Proof.
  induction ds as [|d ds IH]; intros [w r] Hr Hds; simpl in Hr; subst r.
  - simpl. rewrite app_nil_r. reflexivity.
  - inversion Hds as [|? ? Hd Hrest]; subst.
    cbn [Lmasm.fput_all]. unfold Lmasm.fputc. cbn [Lmasm.room Lmasm.written fmap option_fmap option_map].
    unfold is_digit in Hd. rewrite (Z.mod_small d 256) by lia.
    destruct (Z.eqb_spec d Lmasm.EOF) as [E|_]; [unfold Lmasm.EOF in E; lia|].
    rewrite IH by (try reflexivity; assumption).
    cbn [Lmasm.written]. rewrite <- app_assoc. reflexivity.
Qed.

Lemma times_ten_spec (k : nat) : forall acc, Lmasm.times_ten k acc = acc * 10 ^ Z.of_nat k.
Proof.
  induction k as [|k IH]; intros acc; [simpl; lia|].
  cbn [Lmasm.times_ten]. rewrite IH, Nat2Z.inj_succ, Z.pow_succ_r by lia. lia.
Qed.

Lemma configure_spec (digits : Z) :
  1 <= digits ->
  Lmasm.configure digits = Lmasm.mk_conf digits (10 ^ (digits - 1) - 1) (10 ^ digits - 1).
Proof.
  intros Hd. unfold Lmasm.configure. rewrite times_ten_spec, Z2Nat.id by lia.
  assert (E : 1 * 10 ^ digits = 10 ^ (digits - 1) * 10).
  { replace digits with (Z.succ (digits - 1)) at 1 by lia.
    rewrite Z.pow_succ_r by lia. lia. }
  rewrite E at 1. rewrite Z.quot_mul by lia. rewrite E.
  f_equal. rewrite <- E. lia.
Qed.

Lemma fputc_digit (d : Z) (f : Lmasm.wfile) :
  Lmasm.room f = None -> is_digit d ->
  Lmasm.fputc d f = (d, Lmasm.mk_wfile (Lmasm.written f ++ [d]) None).
Proof.
  intros Hr Hd. unfold Lmasm.fputc. rewrite Hr. unfold is_digit in Hd.
  rewrite Z.mod_small by lia. reflexivity.
Qed.

Lemma in_range (lo hi v : Z) : lo <= v <= hi -> (v <? lo) || (v >? hi) = false.
Proof.
  intros H. apply orb_false_iff. split; [apply Z.ltb_ge; lia|].
  rewrite Z.gtb_ltb. apply Z.ltb_ge. lia.
Qed.

Lemma write_op_ok (self : Lmasm.lmasm_opcode) (conf : Lmasm.lmasm_conf) (a : Z)
    (f : Lmasm.wfile) :
  1 <= Lmasm.num_digits conf <= Z.of_nat Lmasm.MAX_NUM_DIGITS ->
  Lmasm.room f = None ->
  is_digit (Lmasm.code self) ->
  0 <= a <= Lmasm.max_addr conf ->
  Lmasm.lmasm_write_op self conf a f
  = (0, Lmasm.mk_wfile (Lmasm.written f ++ Lmasm.code self ::
                          decimal (Z.to_nat (Lmasm.num_digits conf - 1)) a) None, []).
Proof.
  intros Hnd Hr Ho Ha. unfold Lmasm.lmasm_write_op.
  rewrite (in_range 0 _ a Ha), (fputc_digit _ _ Hr Ho).
  destruct (Z.eqb_spec (Lmasm.code self) Lmasm.EOF) as [E|_];
    [unfold is_digit, Lmasm.EOF in *; lia|].
  rewrite slice_encoded by lia.
  replace (Z.to_nat (Lmasm.num_digits conf)) with (S (Z.to_nat (Lmasm.num_digits conf - 1)))
    by lia.
  rewrite decimal_tail, fput_all_digits; [|reflexivity|apply decimal_digits].
  cbn [Lmasm.written]. rewrite <- app_assoc. reflexivity.
Qed.

Lemma write_dat_ok (self : Lmasm.lmasm_opcode) (conf : Lmasm.lmasm_conf) (v : Z)
    (f : Lmasm.wfile) :
  0 <= Lmasm.num_digits conf <= Z.of_nat Lmasm.MAX_NUM_DIGITS ->
  Lmasm.room f = None ->
  0 <= v <= Lmasm.max_dat conf ->
  Lmasm.lmasm_write_dat self conf v f
  = (0, Lmasm.mk_wfile (Lmasm.written f ++ decimal (Z.to_nat (Lmasm.num_digits conf)) v) None,
     []).
Proof.
  intros Hnd Hr Hv. unfold Lmasm.lmasm_write_dat.
  rewrite (in_range 0 _ v Hv), slice_encoded by lia.
  rewrite drop_0, fput_all_digits; [reflexivity|exact Hr|apply decimal_digits].
Qed.

Lemma load_word (b0 b1 b2 : Z) :
  Lmc.load [b0; b1; b2] 0 (Lmc.mailboxes Lmc.zeroed)
  = Ok (<[0%nat := denotes [b0; b1; b2]]> (Lmc.mailboxes Lmc.zeroed), 3).
Proof. reflexivity. Qed.

(** C1. [lmasm_write_op], for an opcode value [o] in 0..9 and an operand
    [a] in [0, max_addr], appends to the image the byte [o] followed by
    [num_digits - 1] bytes that are decimal digits, the byte at place [i]
    being the digit of [a] of weight [10 ^ (num_digits - 2 - i)], so that
    read most significant first they write [a]; the number written by the
    whole mailbox
    splits at [10 ^ (num_digits - 1)] into quotient [o] and remainder [a];
    and with three digits per mailbox the emulator, which loads the three
    bytes into a mailbox and divides by [NUM_MAILBOXES], decodes opcode [o]
    and address [a]. *)
Theorem write_op_decodes (self : Lmasm.lmasm_opcode) (digits a : Z) (f : Lmasm.wfile)
    (input : list Z) :
  let conf := Lmasm.configure digits in
  let o := Lmasm.code self in
  1 <= digits <= Z.of_nat Lmasm.MAX_NUM_DIGITS ->
  Lmasm.room f = None ->
  0 <= o <= 9 ->
  0 <= a <= Lmasm.max_addr conf ->
  exists ds,
    Lmasm.lmasm_write_op self conf a f = (0, Lmasm.mk_wfile (Lmasm.written f ++ o :: ds) None, [])
    /\ length ds = Z.to_nat (digits - 1)
    /\ Forall is_digit ds
    /\ (forall i : nat, (i < length ds)%nat ->
        ds !! i = Some ((a / 10 ^ (Z.of_nat (length ds) - 1 - Z.of_nat i)) `mod` 10))
    /\ denotes ds = a
    /\ denotes (o :: ds) `quot` 10 ^ (digits - 1) = o
    /\ denotes (o :: ds) `rem` 10 ^ (digits - 1) = a
    /\ (digits = 3 ->
        exists m w',
          Lmc.load (o :: ds) 0 (Lmc.mailboxes Lmc.zeroed) = Ok (m, 3)
          /\ Lmc.fetch (Lmc.set_mailboxes m (Lmc.boot input)) = Ok w'
          /\ Lmc.opcode (Lmc.cpu (Lmc.machine w')) = o
          /\ Lmc.addr (Lmc.cpu (Lmc.machine w')) = a).
Proof.
  intros conf o Hd Hr Ho Ha. subst conf.
  rewrite configure_spec in * by lia. cbn [Lmasm.max_addr] in Ha.
  assert (Hp : 0 < 10 ^ (digits - 1)) by (apply Z.pow_pos_nonneg; lia).
  set (ds := decimal (Z.to_nat (digits - 1)) a).
  assert (Hlen : length ds = Z.to_nat (digits - 1)) by apply decimal_length.
  assert (Hden : denotes ds = a).
  { unfold ds. rewrite denotes_decimal, Z2Nat.id by lia. apply Z.mod_small. lia. }
  assert (Hword : denotes (o :: ds) = o * 10 ^ (digits - 1) + a).
  { rewrite denotes_cons, Hlen, Z2Nat.id, Hden by lia. reflexivity. }
  assert (Hq : denotes (o :: ds) `quot` 10 ^ (digits - 1) = o).
  { rewrite Hword, Z.quot_div_nonneg by nia.
    rewrite Z.div_add_l, Z.div_small by lia. lia. }
  assert (Hm : denotes (o :: ds) `rem` 10 ^ (digits - 1) = a).
  { rewrite Hword, Z.rem_mod_nonneg by nia.
    rewrite Z.add_comm, Z_mod_plus_full. apply Z.mod_small. lia. }
  exists ds. split; [|repeat split; try assumption].
  - rewrite write_op_ok; [reflexivity|cbn; lia|exact Hr|exact Ho|cbn; lia].
  - apply decimal_digits.
  - intros i Hi. rewrite Hlen in *. apply decimal_lookup. exact Hi.
  - intros ->. change (10 ^ (3 - 1)) with Lmc.NUM_MAILBOXES in Hq, Hm.
    destruct ds as [|d1 [|d2 [|? ?]]]; try discriminate Hlen.
    eexists. eexists. split; [apply load_word|].
    split; [apply (fetch_in _ (denotes [o; d1; d2])); [cbn; unfold Lmc.NUM_MAILBOXES; lia|reflexivity]|].
    split; [exact Hq|exact Hm].
Qed.

(** ** Whole runs of the assembler *)

(** A run that ends with [n] iterations per pass ends the same way with
    more. *)
Ltac by_running n :=
  apply (lmasm_main_mono n); [assumption || lia | vm_compute; reflexivity].

(** C8. A [DAT] operand equal to [max_dat] is written and [max_dat + 1] is
    refused with the message "DAT value %d out of range"; an address
    operand equal to [max_addr] is written and [max_addr + 1] is refused
    with the message "%s mailbox %d out of range"; a refusal leaves the
    output file as it was.  In whole runs with three digits: [DAT 999] and
    [BRA 99] assemble, [DAT 1000] and [BRA 100] end the run with exit
    status 1 after the message, nothing being written for that line. *)
Theorem range_check_boundaries (self : Lmasm.lmasm_opcode) (conf : Lmasm.lmasm_conf)
    (f : Lmasm.wfile) (fuel : nat) :
  1 <= Lmasm.num_digits conf <= Z.of_nat Lmasm.MAX_NUM_DIGITS ->
  Lmasm.room f = None ->
  is_digit (Lmasm.code self) ->
  0 <= Lmasm.max_dat conf ->
  0 <= Lmasm.max_addr conf ->
  (2 <= fuel)%nat ->
  (exists f', Lmasm.lmasm_write_dat self conf (Lmasm.max_dat conf) f = (0, f', []))
  /\ Lmasm.lmasm_write_dat self conf (Lmasm.max_dat conf + 1) f
     = (-1, f, [Fprintf "DAT value %d out of range\n" [ArgInt (Lmasm.max_dat conf + 1)]])
  /\ (exists f', Lmasm.lmasm_write_op self conf (Lmasm.max_addr conf) f = (0, f', []))
  /\ Lmasm.lmasm_write_op self conf (Lmasm.max_addr conf + 1) f
     = (-1, f, [Fprintf "%s mailbox %d out of range\n"
                  [Lmasm.arg_str (Lmasm.name self); ArgInt (Lmasm.max_addr conf + 1)]])
  /\ Lmasm.main fuel Sample.asm_argv (Sample.source [" DAT 999"%string])
     = Some (Ok (Lmasm.mk_exit 0 (Sample.progress 1) [] (Some [9; 9; 9])))
  /\ Lmasm.main fuel Sample.asm_argv (Sample.source [" DAT 1000"%string])
     = Some (Ok (Lmasm.mk_exit 1 (Sample.progress 1)
                   [Fprintf "DAT value %d out of range\n" [ArgInt 1000]] (Some [])))
  /\ Lmasm.main fuel Sample.asm_argv (Sample.source [" BRA 99"%string])
     = Some (Ok (Lmasm.mk_exit 0 (Sample.progress 1) [] (Some [6; 9; 9])))
  /\ Lmasm.main fuel Sample.asm_argv (Sample.source [" BRA 100"%string])
     = Some (Ok (Lmasm.mk_exit 1 (Sample.progress 1)
                   [Fprintf "%s mailbox %d out of range\n" [ArgStr "BRA"; ArgInt 100]]
                   (Some []))).
Proof.
  intros Hnd Hr Ho Hdat Haddr Hfuel.
  assert (Hbig : forall m, (m + 1 <? 0) || (m + 1 >? m) = true).
  { intros m. apply orb_true_iff. right. rewrite Z.gtb_ltb. apply Z.ltb_lt. lia. }
  split; [eexists; apply write_dat_ok; [lia|exact Hr|lia]|].
  split; [unfold Lmasm.lmasm_write_dat; rewrite Hbig; reflexivity|].
  split; [eexists; apply write_op_ok; [lia|exact Hr|exact Ho|lia]|].
  split; [unfold Lmasm.lmasm_write_op; rewrite Hbig; reflexivity|].
  repeat split; by_running 2%nat.
Qed.

(** C9. [HLT] and [COB] are two entries of the catalog with the same
    writer, the same opcode value 0 and no operand; for either the writer
    emits [num_digits] zero bytes, so sources that differ only in the
    mnemonic assemble to the same image; and a mailbox holding 0 decodes to
    opcode 0, which sets [halted] and nothing else. *)
Theorem hlt_cob_same_word (conf : Lmasm.lmasm_conf) (f : Lmasm.wfile) (w : Lmc.world)
    (fuel : nat) :
  let hlt := Lmasm.mk_opcode (Some "HLT"%string) (Some Lmasm.fn_write_op) 0 Lmasm.NO_ARGUMENT in
  let cob := Lmasm.mk_opcode (Some "COB"%string) (Some Lmasm.fn_write_op) 0 Lmasm.NO_ARGUMENT in
  let c := Lmc.cpu (Lmc.machine w) in
  1 <= Lmasm.num_digits conf <= Z.of_nat Lmasm.MAX_NUM_DIGITS ->
  0 <= Lmasm.max_addr conf ->
  Lmasm.room f = None ->
  (2 <= fuel)%nat ->
  Lmc.halted c = false ->
  0 <= Lmc.pc c < Lmc.NUM_MAILBOXES ->
  Lmc.mailboxes (Lmc.machine w) !! Z.to_nat (Lmc.pc c) = Some 0 ->
  Lmasm.find_opcode "HLT" Lmasm.OPCODES = Some hlt
  /\ Lmasm.find_opcode "COB" Lmasm.OPCODES = Some cob
  /\ Lmasm.call_write hlt conf 0 f
     = Ok (0, Lmasm.mk_wfile (Lmasm.written f ++
                                replicate (Z.to_nat (Lmasm.num_digits conf)) 0) None, [])
  /\ Lmasm.call_write cob conf 0 f = Lmasm.call_write hlt conf 0 f
  /\ Lmasm.main fuel Sample.asm_argv (Sample.source [" HLT"%string])
     = Some (Ok (Lmasm.mk_exit 0 (Sample.progress 1) [] (Some [0; 0; 0])))
  /\ Lmasm.main fuel Sample.asm_argv (Sample.source [" COB"%string])
     = Some (Ok (Lmasm.mk_exit 0 (Sample.progress 1) [] (Some [0; 0; 0])))
  /\ Lmc.run fuel w
     = Some (Ok (Lmc.set_cpu (fun c0 => Lmc.set_halted true
                                (Lmc.set_decoded 0 0 0 (Lmc.set_pc (Lmc.pc c + 1) c0))) w)).
Proof.
  intros hlt cob c Hnd Haddr Hr Hfuel Hh Hpc Hi.
  assert (Hw : forall o, Lmasm.code o = 0 ->
                Lmasm.lmasm_write_op o conf 0 f
                = (0, Lmasm.mk_wfile (Lmasm.written f ++
                                        replicate (Z.to_nat (Lmasm.num_digits conf)) 0) None, [])).
  { intros o Ho. rewrite write_op_ok; [|lia|exact Hr|rewrite Ho; unfold is_digit; lia|lia].
    rewrite Ho, decimal_zero.
    replace (Z.to_nat (Lmasm.num_digits conf)) with (S (Z.to_nat (Lmasm.num_digits conf - 1)))
      by lia.
    reflexivity. }
  split; [reflexivity|]. split; [reflexivity|].
  split; [exact (f_equal Ok (Hw hlt eq_refl))|].
  split; [exact (f_equal Ok (eq_trans (Hw cob eq_refl) (eq_sym (Hw hlt eq_refl))))|].
  split; [by_running 2%nat|]. split; [by_running 2%nat|].
  destruct fuel as [|[|fuel]]; [lia|lia|].
  pose proof (fetch_in w 0 Hpc Hi) as Hf. fold c in Hf.
  destruct w as [[mem [ac p ins op adr ng hl er]] [sin sout serr]].
  simpl in c. subst c. simpl in *. subst hl.
  unfold Lmc.run. cbn [loop]. unfold Lmc.run_body at 1.
  cbn [Lmc.halted Lmc.cpu Lmc.machine]. unfold Lmc.cycle. rewrite Hf. reflexivity.
Qed.

(** C3 on the code.  Once pass 1 has ended, the run fails with "Program
    is too long" exactly when the number of allocated mailboxes exceeds
    [max_addr], not [max_addr + 1]: the count is compared with the highest
    address.  One hundred lines of [HLT], which allocate exactly
    [max_addr + 1 = 100] mailboxes, end the run with that message and exit
    status 1 before the output file is opened, while ninety-nine lines
    assemble to 297 zero bytes. *)
Theorem hundred_mailboxes_refused (fuel : nat) (prog inp outp : string)
    (more : list string) (fs : Lmasm.files) (src : Lmasm.stream) (p1 : Lmasm.pass1) :
  let conf := Lmasm.configure 3 in
  (101 <= fuel)%nat ->
  Lmasm.fopen_r fs inp = Some src ->
  loop Lmasm.pass1_body fuel (Lmasm.pass1_start src) = Some (Ok (0, p1)) ->
  (Lmasm.main fuel (prog :: inp :: outp :: more) fs
   = Some (Ok (Lmasm.mk_exit 1 [Lmasm.banner conf]
                 (Lmasm.p1_err p1 ++
                  [Lmasm.too_long (Lmasm.cur_addr p1) (Lmasm.max_addr conf)]) None))
   <-> Lmasm.max_addr conf < Lmasm.cur_addr p1)
  /\ Lmasm.max_addr conf + 1 = 100
  /\ Lmasm.main fuel Sample.asm_argv (Sample.source (replicate 100 " HLT"%string))
     = Some (Ok (Lmasm.mk_exit 1 [Lmasm.banner conf]
                   [Lmasm.too_long (Lmasm.max_addr conf + 1) (Lmasm.max_addr conf)] None))
  /\ Lmasm.main fuel Sample.asm_argv (Sample.source (replicate 99 " HLT"%string))
     = Some (Ok (Lmasm.mk_exit 0 (Sample.progress 99) [] (Some (replicate 297 0)))).
Proof.
  intros conf Hfuel Hsrc Hp1.
  split; [|split; [reflexivity|split; by_running 101%nat]].
  unfold Lmasm.main, Lmasm.pass1_run. rewrite Hsrc, Hp1. fold conf.
  change (negb (0 =? 0)) with false. cbv iota.
  destruct (Z.gtb_spec (Lmasm.cur_addr p1) (Lmasm.max_addr conf)) as [Hgt|Hle].
  - split; [intros _; exact Hgt|reflexivity].
  - split; [|lia]. intros H. exfalso.
    destruct (Lmasm.fopen_w fs outp) as [room0|].
    + destruct (loop (Lmasm.pass2_body _ _ _) fuel _) as [[[rc2 p2]| |]|]; discriminate H.
    + injection H as H. apply app_inv_head in H. discriminate H.
Qed.

(** ** Label resolution *)

Lemma find_label_first (nm : string) (a : Z) (after : list Lmasm.lmasm_label) :
  forall before : list Lmasm.lmasm_label,
  (forall l, In l before -> Lmasm.label_name l <> nm) ->
  Lmasm.find_label nm (before ++ Lmasm.mk_label nm a :: after) = Some a.
Proof.
  induction before as [|l before IH]; intros Hne; cbn [app Lmasm.find_label].
  - cbn [Lmasm.label_name Lmasm.label_addr]. rewrite String.eqb_refl. reflexivity.
  - destruct (String.eqb_spec nm (Lmasm.label_name l)) as [E|_].
    + exfalso. apply (Hne l); [left; reflexivity|symmetry; exact E].
    + apply IH. intros l' Hl'. apply Hne. right. exact Hl'.
Qed.

Lemma find_label_none (nm : string) : forall labels : list Lmasm.lmasm_label,
  (forall l, In l labels -> Lmasm.label_name l <> nm) ->
  Lmasm.find_label nm labels = None.
Proof.
  induction labels as [|l labels IH]; intros Hne; cbn [Lmasm.find_label]; [reflexivity|].
  destruct (String.eqb_spec nm (Lmasm.label_name l)) as [E|_].
  - exfalso. apply (Hne l); [left; reflexivity|symmetry; exact E].
  - apply IH. intros l' Hl'. apply Hne. right. exact Hl'.
Qed.

Lemma ungetc_fgetc (s : Lmasm.stream) :
  Lmasm.ungetc (fst (Lmasm.fgetc s)) (snd (Lmasm.fgetc s)) = s.
Proof. destruct s; reflexivity. Qed.

(** The scanning loop of [parse_label] reads a whole label that fits in
    the buffer and stops at the character after it. *)
Lemma label_chars_reads (nm : string) : forall (ch : ascii) (left : nat) (rest : Lmasm.stream),
  (String.length nm < left)%nat ->
  Lmasm.islabel ch = true ->
  Forall (fun c => Lmasm.islabel c = true) (list_ascii_of_string nm) ->
  Lmasm.at_char Lmasm.islabel (fst (Lmasm.fgetc rest)) = false ->
  Lmasm.label_chars left (Some ch) (list_ascii_of_string nm ++ rest)
  = (String ch nm, fst (Lmasm.fgetc rest), snd (Lmasm.fgetc rest)).
Proof.
  induction nm as [|ch' nm IH]; intros ch left rest Hlen Hch Hnm Hrest;
    (destruct left as [|left]; [simpl in Hlen; lia|]);
    cbn [Lmasm.label_chars]; rewrite Hch.
  - cbn [list_ascii_of_string app].
    destruct (Lmasm.fgetc rest) as [c1 s1] eqn:E. cbn [fst snd] in *.
    destruct left as [|left]; [reflexivity|].
    cbn [Lmasm.label_chars]. destruct c1 as [c1|]; [|reflexivity].
    cbn [Lmasm.at_char] in Hrest. rewrite Hrest. reflexivity.
  - cbn [list_ascii_of_string app Lmasm.fgetc].
    inversion Hnm as [|? ? Hch' Hnm']; subst.
    rewrite (IH ch' left rest); [reflexivity|simpl in Hlen; lia|exact Hch'|exact Hnm'|exact Hrest].
Qed.

Lemma parse_label_reads (ch : ascii) (nm : string) (rest : Lmasm.stream) (line : Z) :
  (String.length (String ch nm) <= Lmasm.MAX_LABEL_LEN)%nat ->
  Lmasm.islabel ch = true ->
  Lmasm.isdigit ch = false ->
  Forall (fun c => Lmasm.islabel c = true) (list_ascii_of_string nm) ->
  Lmasm.at_char Lmasm.islabel (fst (Lmasm.fgetc rest)) = false ->
  Lmasm.parse_label (ch :: list_ascii_of_string nm ++ rest) line
  = (0, String ch nm, rest, []).
Proof.
  intros Hlen Hch Hdig Hnm Hrest. unfold Lmasm.parse_label.
  cbn [Lmasm.fgetc Lmasm.at_char]. rewrite Hdig.
  rewrite label_chars_reads; [|simpl in Hlen; lia|exact Hch|exact Hnm|exact Hrest].
  rewrite Hrest, andb_false_r, ungetc_fgetc. reflexivity.
Qed.

Lemma parse_addr_label (ch : ascii) (nm : string) (rest : Lmasm.stream)
    (labels : list Lmasm.lmasm_label) (line : Z) :
  (String.length (String ch nm) <= Lmasm.MAX_LABEL_LEN)%nat ->
  Lmasm.islabel ch = true ->
  Lmasm.isdigit ch = false ->
  Forall (fun c => Lmasm.islabel c = true) (list_ascii_of_string nm) ->
  Lmasm.at_char Lmasm.islabel (fst (Lmasm.fgetc rest)) = false ->
  Lmasm.parse_addr (ch :: list_ascii_of_string nm ++ rest) labels line
  = match Lmasm.find_label (String ch nm) labels with
    | None =>
        Ok (-1, rest,
            [Fprintf "On line %d: no such label %s\n" [ArgInt line; ArgStr (String ch nm)]])
    | Some addr =>
        let '(rc, s3, ev) := Lmasm.finish_line rest false line in
        if negb (rc =? 0) then Ok (-1, s3, ev) else Ok (addr, s3, ev)
    end.
Proof.
  intros Hlen Hch Hdig Hnm Hrest. unfold Lmasm.parse_addr.
  cbn [Lmasm.fgetc Lmasm.ungetc]. rewrite Hdig, Hch.
  rewrite parse_label_reads by assumption. reflexivity.
Qed.

(** C2. Resolution of an operand label returns the address of the first
    entry of the table, in the order in which pass 1 appended them, whose
    name is the label; what follows that entry, same-name entries
    included, plays no part.  When no entry has the name, [parse_addr]
    fails with the message "On line %d: no such label %s" carrying the line
    and the label, and the run ends with exit status 1: so do [BRA NOPE]
    on line 1 and on line 3 of a source.  Pass 1 keeps both definitions of
    a label defined twice, and the operand resolves to the first. *)
Theorem first_definition_wins (ch : ascii) (nm : string) (rest : Lmasm.stream)
    (labels before after : list Lmasm.lmasm_label) (a line : Z) (fuel : nat) :
  let label := String ch nm in
  (String.length label <= Lmasm.MAX_LABEL_LEN)%nat ->
  Lmasm.islabel ch = true ->
  Lmasm.isdigit ch = false ->
  Forall (fun c => Lmasm.islabel c = true) (list_ascii_of_string nm) ->
  Lmasm.at_char Lmasm.islabel (fst (Lmasm.fgetc rest)) = false ->
  (forall l, In l before -> Lmasm.label_name l <> label) ->
  (forall l, In l labels -> Lmasm.label_name l <> label) ->
  (6 <= fuel)%nat ->
  Lmasm.find_label label (before ++ Lmasm.mk_label label a :: after) = Some a
  /\ Lmasm.parse_addr (ch :: list_ascii_of_string nm ++ rest)
       (before ++ Lmasm.mk_label label a :: after) line
     = (let '(rc, s3, ev) := Lmasm.finish_line rest false line in
        if negb (rc =? 0) then Ok (-1, s3, ev) else Ok (a, s3, ev))
  /\ Lmasm.find_label label labels = None
  /\ Lmasm.parse_addr (ch :: list_ascii_of_string nm ++ rest) labels line
     = Ok (-1, rest, [Fprintf "On line %d: no such label %s\n" [ArgInt line; ArgStr label]])
  /\ Lmasm.main fuel Sample.asm_argv (Sample.source [" BRA NOPE"%string])
     = Some (Ok (Lmasm.mk_exit 1 (Sample.progress 1)
                   [Fprintf "On line %d: no such label %s\n" [ArgInt 1; ArgStr "NOPE"]]
                   (Some [])))
  /\ Lmasm.main fuel Sample.asm_argv
       (Sample.source [" LDA X"; "X DAT 1"; " BRA NOPE"]%string)
     = Some (Ok (Lmasm.mk_exit 1 (Sample.progress 3)
                   [Fprintf "On line %d: no such label %s\n" [ArgInt 3; ArgStr "NOPE"]]
                   (Some [5; 0; 1; 0; 0; 1])))
  /\ loop Lmasm.pass1_body fuel
       (Lmasm.pass1_start (Lmasm.text ["X DAT 1"; "X DAT 2"; " BRA X"]%string))
     = Some (Ok (0, Lmasm.mk_pass1 [] 3 5
                      [Lmasm.mk_label "X" 0; Lmasm.mk_label "X" 1]
                      32 (32 * Lmasm.sizeof_label) []))
  /\ Lmasm.main fuel Sample.asm_argv
       (Sample.source ["X DAT 1"; "X DAT 2"; " BRA X"]%string)
     = Some (Ok (Lmasm.mk_exit 0 (Sample.progress 3) []
                   (Some [0; 0; 1; 0; 0; 2; 6; 0; 0]))).
Proof.
  intros label Hlen Hch Hdig Hnm Hrest Hbefore Hlabels Hfuel.
  pose proof (find_label_first label a after before Hbefore) as Hfirst.
  pose proof (find_label_none label labels Hlabels) as Hnone.
  split; [exact Hfirst|].
  split; [unfold label in *; rewrite parse_addr_label, Hfirst by assumption; reflexivity|].
  split; [exact Hnone|].
  split; [unfold label in *; rewrite parse_addr_label, Hnone by assumption; reflexivity|].
  split; [by_running 6%nat|]. split; [by_running 6%nat|].
  split; [|by_running 6%nat].
  apply (loop_mono Lmasm.pass1_body 6); [exact Hfuel|vm_compute; reflexivity].
Qed.

(** C4 as stated fails.  The source of the scenario as written, with the
    mnemonics in the first column, does not assemble: [LDA] is read as a
    label and [FIVE] as a mnemonic that is too long; the run ends with exit
    status 1 and an empty output file. *)
Lemma mnemonic_in_first_column :
  Lmasm.main 10 Sample.asm_argv
    (Sample.source ["LDA FIVE"; "OUT"; "HLT"; "FIVE DAT 5"]%string)
  = Some (Ok (Lmasm.mk_exit 1 (Sample.progress 2)
                [Fprintf "Opcode on line %d is too long\n" [ArgInt 1]] (Some []))).
Proof. vm_compute. reflexivity. Qed.

(** C4, amended. With the three instruction lines indented, so that only
    [FIVE] stands in the first column, the source assembles with exit
    status 0 to the twelve bytes of four mailboxes, of which mailbox 3 is
    the bytes 0, 0, 5 that write the number 5; and the emulator on that
    image prints 5 and exits with status 0, halted and without error. *)
Theorem scenario_load_out_halt (fuel : nat) :
  let image := [5; 0; 3; 9; 0; 2; 0; 0; 0; 0; 0; 5] in
  (6 <= fuel)%nat ->
  Lmasm.main fuel Sample.asm_argv
    (Sample.source [" LDA FIVE"; " OUT"; " HLT"; "FIVE DAT 5"]%string)
  = Some (Ok (Lmasm.mk_exit 0 (Sample.progress 4) [] (Some image)))
  /\ Z.of_nat (length image) = 4 * Lmasm.num_digits (Lmasm.configure 3)
  /\ take 3 (drop (3 * 3) image) = [0; 0; 5]
  /\ denotes [0; 0; 5] = 5
  /\ exists w,
       Lmc.main fuel Sample.lmc_argv (Sample.holding image) [] = Some (Ok (Lmc.mk_exit 0 w))
       /\ Lmc.mailboxes (Lmc.machine w) !! 3%nat = Some 5
       /\ Lmc.stdout (Lmc.tty w)
          = [Fprintf "%s loaded. %d mailboxes.\n" [ArgStr "prog.lmc"; ArgInt 4];
             Fprintf "%d\n" [ArgInt 5]]
       /\ Lmc.stderr (Lmc.tty w) = []
       /\ Lmc.halted (Lmc.cpu (Lmc.machine w)) = true
       /\ Lmc.error (Lmc.cpu (Lmc.machine w)) = false.
Proof.
  intros image Hfuel. subst image.
  split; [by_running 6%nat|]. repeat (split; [reflexivity|]).
  assert (E : exists w,
             Lmc.main 6 Sample.lmc_argv
               (Sample.holding [5; 0; 3; 9; 0; 2; 0; 0; 0; 0; 0; 5]) []
             = Some (Ok (Lmc.mk_exit 0 w))
             /\ Lmc.mailboxes (Lmc.machine w) !! 3%nat = Some 5
             /\ Lmc.stdout (Lmc.tty w)
                = [Fprintf "%s loaded. %d mailboxes.\n" [ArgStr "prog.lmc"; ArgInt 4];
                   Fprintf "%d\n" [ArgInt 5]]
             /\ Lmc.stderr (Lmc.tty w) = []
             /\ Lmc.halted (Lmc.cpu (Lmc.machine w)) = true
             /\ Lmc.error (Lmc.cpu (Lmc.machine w)) = false).
  { eexists. split; [vm_compute; reflexivity|]. repeat split; reflexivity. }
  destruct E as (w & E & Hw). exists w. split; [|exact Hw].
  exact (lmc_main_mono 6 fuel _ _ _ _ Hfuel E).
Qed.

(** ** The theorems at concrete inputs *)


Lemma bad_instruction_stops_witness :
  let w := Sample.at_work 0 7 0 400 in
  let c := Lmc.cpu (Lmc.machine w) in
  ((2 <= 2)%nat
   /\ Lmc.halted c = false
   /\ 0 <= Lmc.pc c < Lmc.NUM_MAILBOXES
   /\ Lmc.mailboxes (Lmc.machine w) !! Z.to_nat (Lmc.pc c) = Some 400
   /\ (400 `quot` Lmc.NUM_MAILBOXES = 4
       \/ 9 < 400 `quot` Lmc.NUM_MAILBOXES
       \/ (400 `quot` Lmc.NUM_MAILBOXES = 9
           /\ 400 `rem` Lmc.NUM_MAILBOXES <> 1 /\ 400 `rem` Lmc.NUM_MAILBOXES <> 2)))
  /\ exists w',
       Lmc.run 2 w = Some (Ok w')
       /\ Lmc.halted (Lmc.cpu (Lmc.machine w')) = true
       /\ Lmc.error (Lmc.cpu (Lmc.machine w')) = true
       /\ Lmc.pc (Lmc.cpu (Lmc.machine w')) = 8
       /\ Lmc.stderr (Lmc.tty w')
          = [ Fprintf "Bad instruction! (%d)\n" [ArgInt 400];
              Fprintf "a  = %d\n" [ArgInt 0];
              Fprintf "pc = %d\n" [ArgInt 8];
              Fprintf "opcode = %d\n" [ArgInt 4];
              Fprintf "addr   = %d\n" [ArgInt 0];
              Fprintf "neg    = %d\n" [ArgInt 0];
              Fprintf "halt   = %d\n" [ArgInt 0] ].
Proof.
  intros w c.
  assert (H1 : (2 <= 2)%nat) by constructor.
  assert (H2 : Lmc.halted c = false) by reflexivity.
  assert (H3 : 0 <= Lmc.pc c < Lmc.NUM_MAILBOXES) by (vm_compute; split; congruence).
  assert (H4 : Lmc.mailboxes (Lmc.machine w) !! Z.to_nat (Lmc.pc c) = Some 400)
    by reflexivity.
  assert (H5 : 400 `quot` Lmc.NUM_MAILBOXES = 4
               \/ 9 < 400 `quot` Lmc.NUM_MAILBOXES
               \/ (400 `quot` Lmc.NUM_MAILBOXES = 9
                   /\ 400 `rem` Lmc.NUM_MAILBOXES <> 1 /\ 400 `rem` Lmc.NUM_MAILBOXES <> 2))
    by (left; reflexivity).
  split; [auto 6|].
  destruct (bad_instruction_stops w 400 2 H1 H2 H3 H4 H5)
    as (w' & E & Hh & He & Hp & _ & _ & Herr & _).
  exists w'. split; [exact E|]. split; [exact Hh|]. split; [exact He|].
  split; [exact Hp|exact Herr].
Defined.

Lemma fetch_is_unguarded_witness :
  let w := Sample.at_work 0 100 0 0 in
  let c := Lmc.cpu (Lmc.machine w) in
  (Lmc.halted c = false
   /\ (1 <= 1)%nat
   /\ length (Lmc.mailboxes (Lmc.machine w)) = Z.to_nat Lmc.NUM_MAILBOXES
   /\ (Lmc.pc c < 0 \/ Lmc.NUM_MAILBOXES <= Lmc.pc c))
  /\ Lmc.fetch w = Undefined (MailboxIndex 100)
  /\ Lmc.run 1 w = Some (Undefined (MailboxIndex 100))
  /\ Lmc.execute 1 w = Some (Undefined (MailboxIndex 100)).
Proof.
  intros w c.
  assert (H1 : Lmc.halted c = false) by reflexivity.
  assert (H2 : (1 <= 1)%nat) by constructor.
  assert (H3 : length (Lmc.mailboxes (Lmc.machine w)) = Z.to_nat Lmc.NUM_MAILBOXES)
    by reflexivity.
  assert (H4 : Lmc.pc c < 0 \/ Lmc.NUM_MAILBOXES <= Lmc.pc c)
    by (right; vm_compute; congruence).
  split; [auto|].
  exact (proj2 (fetch_is_unguarded w 1 H1 H2 H3) H4).
Defined.

Lemma loader_has_no_size_check_witness :
  let f := Sample.too_big in
  let fs := fun _ : string => Some f in
  (fs "prog.lmc"%string = Some f
   /\ Lmc.ferror f = false
   /\ Lmc.NUM_MAILBOXES * Lmc.NUM_DIGITS < Z.of_nat (length (Lmc.delivered f)))
  /\ Lmc.load (Lmc.delivered f) 0 (Lmc.mailboxes Lmc.zeroed)
     = Undefined (MailboxIndex Lmc.NUM_MAILBOXES)
  /\ Lmc.main 1 ["lmc"; "prog.lmc"]%string fs []
     = Some (Undefined (MailboxIndex Lmc.NUM_MAILBOXES)).
Proof.
  intros f fs.
  assert (H1 : fs "prog.lmc"%string = Some f) by reflexivity.
  assert (H2 : Lmc.ferror f = false) by reflexivity.
  assert (H3 : Lmc.NUM_MAILBOXES * Lmc.NUM_DIGITS < Z.of_nat (length (Lmc.delivered f)))
    by (vm_compute; reflexivity).
  split; [auto|].
  exact (proj2 (loader_has_no_size_check "lmc" "prog.lmc" fs f [] 1 H1 H2) H3).
Defined.

Lemma write_op_decodes_witness :
  let conf := Lmasm.configure 3 in
  (1 <= 3 <= Z.of_nat Lmasm.MAX_NUM_DIGITS
   /\ Lmasm.room Sample.unlimited = None
   /\ 0 <= Lmasm.code Sample.lda <= 9
   /\ 0 <= 42 <= Lmasm.max_addr conf)
  /\ exists ds,
       Lmasm.lmasm_write_op Sample.lda conf 42 Sample.unlimited
       = (0, Lmasm.mk_wfile (5 :: ds) None, [])
       /\ denotes ds = 42
       /\ exists m w',
            Lmc.load (5 :: ds) 0 (Lmc.mailboxes Lmc.zeroed) = Ok (m, 3)
            /\ Lmc.fetch (Lmc.set_mailboxes m (Lmc.boot [])) = Ok w'
            /\ Lmc.opcode (Lmc.cpu (Lmc.machine w')) = 5
            /\ Lmc.addr (Lmc.cpu (Lmc.machine w')) = 42.
Proof.
  intros conf.
  assert (H1 : 1 <= 3 <= Z.of_nat Lmasm.MAX_NUM_DIGITS) by (vm_compute; split; congruence).
  assert (H2 : Lmasm.room Sample.unlimited = None) by reflexivity.
  assert (H3 : 0 <= Lmasm.code Sample.lda <= 9) by (vm_compute; split; congruence).
  assert (H4 : 0 <= 42 <= Lmasm.max_addr conf) by (vm_compute; split; congruence).
  split; [auto|].
  destruct (write_op_decodes Sample.lda 3 42 Sample.unlimited [] H1 H2 H3 H4)
    as (ds & E & _ & _ & _ & Hden & _ & _ & Hrun).
  exists ds. split; [exact E|]. split; [exact Hden|]. exact (Hrun eq_refl).
Defined.

Lemma range_check_boundaries_witness :
  let conf := Lmasm.configure 3 in
  (1 <= Lmasm.num_digits conf <= Z.of_nat Lmasm.MAX_NUM_DIGITS
   /\ Lmasm.room Sample.unlimited = None
   /\ is_digit (Lmasm.code Sample.lda)
   /\ 0 <= Lmasm.max_dat conf
   /\ 0 <= Lmasm.max_addr conf
   /\ (2 <= 2)%nat)
  /\ (exists f', Lmasm.lmasm_write_dat Sample.lda conf 999 Sample.unlimited = (0, f', []))
  /\ Lmasm.lmasm_write_dat Sample.lda conf 1000 Sample.unlimited
     = (-1, Sample.unlimited, [Fprintf "DAT value %d out of range\n" [ArgInt 1000]])
  /\ (exists f', Lmasm.lmasm_write_op Sample.lda conf 99 Sample.unlimited = (0, f', []))
  /\ Lmasm.lmasm_write_op Sample.lda conf 100 Sample.unlimited
     = (-1, Sample.unlimited,
        [Fprintf "%s mailbox %d out of range\n" [ArgStr "LDA"; ArgInt 100]])
  /\ Lmasm.main 2 Sample.asm_argv (Sample.source [" DAT 1000"%string])
     = Some (Ok (Lmasm.mk_exit 1 (Sample.progress 1)
                   [Fprintf "DAT value %d out of range\n" [ArgInt 1000]] (Some []))).
Proof.
  intros conf.
  assert (H1 : 1 <= Lmasm.num_digits conf <= Z.of_nat Lmasm.MAX_NUM_DIGITS)
    by (vm_compute; split; congruence).
  assert (H2 : Lmasm.room Sample.unlimited = None) by reflexivity.
  assert (H3 : is_digit (Lmasm.code Sample.lda)) by (vm_compute; split; congruence).
  assert (H4 : 0 <= Lmasm.max_dat conf) by (vm_compute; congruence).
  assert (H5 : 0 <= Lmasm.max_addr conf) by (vm_compute; congruence).
  assert (H6 : (2 <= 2)%nat) by constructor.
  split; [auto 7|].
  destruct (range_check_boundaries Sample.lda conf Sample.unlimited 2 H1 H2 H3 H4 H5 H6)
    as (D1 & D2 & A1 & A2 & _ & M & _).
  auto.
Defined.

Lemma hlt_cob_same_word_witness :
  let conf := Lmasm.configure 3 in
  let w := Sample.at_work 0 0 0 0 in
  let c := Lmc.cpu (Lmc.machine w) in
  (1 <= Lmasm.num_digits conf <= Z.of_nat Lmasm.MAX_NUM_DIGITS
   /\ 0 <= Lmasm.max_addr conf
   /\ Lmasm.room Sample.unlimited = None
   /\ (2 <= 2)%nat
   /\ Lmc.halted c = false
   /\ 0 <= Lmc.pc c < Lmc.NUM_MAILBOXES
   /\ Lmc.mailboxes (Lmc.machine w) !! Z.to_nat (Lmc.pc c) = Some 0)
  /\ Lmasm.call_write
       (Lmasm.mk_opcode (Some "COB"%string) (Some Lmasm.fn_write_op) 0 Lmasm.NO_ARGUMENT)
       conf 0 Sample.unlimited
     = Lmasm.call_write
         (Lmasm.mk_opcode (Some "HLT"%string) (Some Lmasm.fn_write_op) 0 Lmasm.NO_ARGUMENT)
         conf 0 Sample.unlimited
  /\ Lmc.run 2 w
     = Some (Ok (Lmc.set_cpu (fun c0 => Lmc.set_halted true
                                (Lmc.set_decoded 0 0 0 (Lmc.set_pc (Lmc.pc c + 1) c0))) w)).
Proof.
  intros conf w c.
  assert (H1 : 1 <= Lmasm.num_digits conf <= Z.of_nat Lmasm.MAX_NUM_DIGITS)
    by (vm_compute; split; congruence).
  assert (H2 : 0 <= Lmasm.max_addr conf) by (vm_compute; congruence).
  assert (H3 : Lmasm.room Sample.unlimited = None) by reflexivity.
  assert (H4 : (2 <= 2)%nat) by constructor.
  assert (H5 : Lmc.halted c = false) by reflexivity.
  assert (H6 : 0 <= Lmc.pc c < Lmc.NUM_MAILBOXES) by (vm_compute; split; congruence).
  assert (H7 : Lmc.mailboxes (Lmc.machine w) !! Z.to_nat (Lmc.pc c) = Some 0) by reflexivity.
  split; [auto 8|].
  destruct (hlt_cob_same_word conf Sample.unlimited w 2 H1 H2 H3 H4 H5 H6 H7)
    as (_ & _ & _ & Hsame & _ & _ & Hrun).
  split; [exact Hsame|exact Hrun].
Defined.

Lemma first_definition_wins_witness :
  let label := String "X"%char EmptyString in
  ((String.length label <= Lmasm.MAX_LABEL_LEN)%nat
   /\ Lmasm.islabel "X"%char = true
   /\ Lmasm.isdigit "X"%char = false
   /\ Forall (fun c => Lmasm.islabel c = true) (list_ascii_of_string EmptyString)
   /\ Lmasm.at_char Lmasm.islabel (fst (Lmasm.fgetc [])) = false
   /\ (forall l, In l [] -> Lmasm.label_name l <> label)
   /\ (6 <= 6)%nat)
  /\ Lmasm.find_label label (Lmasm.mk_label label 3 :: Sample.later_x) = Some 3
  /\ Lmasm.parse_addr ["X"%char] [] 1
     = Ok (-1, [], [Fprintf "On line %d: no such label %s\n" [ArgInt 1; ArgStr label]]).
Proof.
  intros label.
  assert (H1 : (String.length label <= Lmasm.MAX_LABEL_LEN)%nat) by (vm_compute; lia).
  assert (H2 : Lmasm.islabel "X"%char = true) by reflexivity.
  assert (H3 : Lmasm.isdigit "X"%char = false) by reflexivity.
  assert (H4 : Forall (fun c => Lmasm.islabel c = true) (list_ascii_of_string EmptyString))
    by constructor.
  assert (H5 : Lmasm.at_char Lmasm.islabel (fst (Lmasm.fgetc [])) = false) by reflexivity.
  assert (H6 : forall l : Lmasm.lmasm_label, In l [] -> Lmasm.label_name l <> label)
    by (intros l []).
  assert (H7 : (6 <= 6)%nat) by constructor.
  split; [auto 8|].
  destruct (first_definition_wins "X"%char EmptyString [] [] [] Sample.later_x 3 1 6
              H1 H2 H3 H4 H5 H6 H6 H7)
    as (Hfirst & _ & _ & Hmissing & _).
  split; [exact Hfirst|exact Hmissing].
Defined.

Lemma hundred_mailboxes_refused_witness :
  let src := Lmasm.text (replicate 100 " HLT"%string) in
  let p1 := Lmasm.mk_pass1 [] 100 100 [] 32 (32 * Lmasm.sizeof_label) [] in
  let conf := Lmasm.configure 3 in
  ((101 <= 101)%nat
   /\ Lmasm.fopen_r (Sample.source (replicate 100 " HLT"%string)) "prog.asm" = Some src
   /\ loop Lmasm.pass1_body 101 (Lmasm.pass1_start src) = Some (Ok (0, p1)))
  /\ Lmasm.max_addr conf < Lmasm.cur_addr p1
  /\ Lmasm.main 101 Sample.asm_argv (Sample.source (replicate 100 " HLT"%string))
     = Some (Ok (Lmasm.mk_exit 1 [Lmasm.banner conf]
                   [Lmasm.too_long (Lmasm.max_addr conf + 1) (Lmasm.max_addr conf)] None)).
Proof.
  intros src p1 conf.
  assert (H1 : (101 <= 101)%nat) by constructor.
  assert (H2 : Lmasm.fopen_r (Sample.source (replicate 100 " HLT"%string)) "prog.asm"
               = Some src) by reflexivity.
  assert (H3 : loop Lmasm.pass1_body 101 (Lmasm.pass1_start src) = Some (Ok (0, p1)))
    by (vm_compute; reflexivity).
  split; [auto|].
  destruct (hundred_mailboxes_refused 101 "lmasm" "prog.asm" "prog.lmc" []
              (Sample.source (replicate 100 " HLT"%string)) src p1 H1 H2 H3)
    as (_ & _ & Hrun & _).
  split; [vm_compute; reflexivity|exact Hrun].
Defined.

Lemma scenario_load_out_halt_witness :
  (6 <= 6)%nat
  /\ Lmasm.main 6 Sample.asm_argv
       (Sample.source [" LDA FIVE"; " OUT"; " HLT"; "FIVE DAT 5"]%string)
     = Some (Ok (Lmasm.mk_exit 0 (Sample.progress 4) []
                   (Some [5; 0; 3; 9; 0; 2; 0; 0; 0; 0; 0; 5]))).
Proof.
  assert (H : (6 <= 6)%nat) by constructor.
  split; [exact H|].
  exact (proj1 (scenario_load_out_halt 6 H)).
Defined.

(** * Further properties of the emulator *)

Lemma mailbox_set_in (m : list Z) (i v : Z) :
  0 <= i < Lmc.NUM_MAILBOXES -> Lmc.mailbox_set m i v = Ok (<[Z.to_nat i := v]> m).
Proof.
  intros Hi. unfold Lmc.mailbox_set.
  replace ((0 <=? i) && (i <? Lmc.NUM_MAILBOXES)) with true; [reflexivity|].
  symmetry. apply andb_true_iff. split; [apply Z.leb_le|apply Z.ltb_lt]; lia.
Qed.

(** X1. [lmc_store] writes the accumulator into the addressed mailbox and
    into no other, leaving registers and console alone; whatever the
    accumulator is overwritten with afterwards, [lmc_load] from the same
    address brings the stored value back. *)
Theorem store_then_load (w : Lmc.world) :
  let c := Lmc.cpu (Lmc.machine w) in
  let mem := Lmc.mailboxes (Lmc.machine w) in
  0 <= Lmc.addr c < Lmc.NUM_MAILBOXES ->
  length mem = Z.to_nat Lmc.NUM_MAILBOXES ->
  exists w1,
    Lmc.lmc_store w = Ok w1
    /\ Lmc.cpu (Lmc.machine w1) = c
    /\ Lmc.tty w1 = Lmc.tty w
    /\ length (Lmc.mailboxes (Lmc.machine w1)) = length mem
    /\ Lmc.mailboxes (Lmc.machine w1) !! Z.to_nat (Lmc.addr c) = Some (Lmc.a c)
    /\ (forall j : nat, j <> Z.to_nat (Lmc.addr c) ->
        Lmc.mailboxes (Lmc.machine w1) !! j = mem !! j)
    /\ (forall v, Lmc.lmc_load (Lmc.set_cpu (Lmc.set_a v) w1) = Ok w1).
Proof.
  intros c mem Haddr Hlen.
  exists (Lmc.set_mailboxes (<[Z.to_nat (Lmc.addr c) := Lmc.a c]> mem) w).
  assert (Hget : (<[Z.to_nat (Lmc.addr c) := Lmc.a c]> mem) !! Z.to_nat (Lmc.addr c)
                 = Some (Lmc.a c)).
  { apply list_lookup_insert_eq. rewrite Hlen. lia. }
  split.
  { unfold Lmc.lmc_store. fold c. fold mem. rewrite mailbox_set_in by exact Haddr.
    reflexivity. }
  destruct w as [[m0 [ac p ins op adr ng hl er]] t]. cbn in *.
  repeat split.
  - apply length_insert.
  - exact Hget.
  - intros j Hj. apply list_lookup_insert_ne. congruence.
  - intros v. unfold Lmc.lmc_load. cbn.
    rewrite (mailbox_get_in _ _ _ Haddr Hget). reflexivity.
Qed.

(** X2. With accumulator and mailbox in [0, MAX_VALUE], subtracting a
    mailbox after adding it, or adding it after subtracting it, gives the
    accumulator back and leaves the memory as it was; the negative flag
    after the second operation is the one the first had set. *)
Theorem add_sub_cancel (w : Lmc.world) (m : Z) :
  let c := Lmc.cpu (Lmc.machine w) in
  0 <= Lmc.addr c < Lmc.NUM_MAILBOXES ->
  Lmc.mailboxes (Lmc.machine w) !! Z.to_nat (Lmc.addr c) = Some m ->
  0 <= Lmc.a c <= Lmc.MAX_VALUE ->
  0 <= m <= Lmc.MAX_VALUE ->
  (exists w1 w2,
      Lmc.lmc_add w = Ok w1 /\ Lmc.lmc_sub w1 = Ok w2
      /\ Lmc.a (Lmc.cpu (Lmc.machine w2)) = Lmc.a c
      /\ Lmc.neg (Lmc.cpu (Lmc.machine w2)) = Lmc.neg (Lmc.cpu (Lmc.machine w1))
      /\ Lmc.mailboxes (Lmc.machine w2) = Lmc.mailboxes (Lmc.machine w))
  /\
  (exists w1 w2,
      Lmc.lmc_sub w = Ok w1 /\ Lmc.lmc_add w1 = Ok w2
      /\ Lmc.a (Lmc.cpu (Lmc.machine w2)) = Lmc.a c
      /\ Lmc.neg (Lmc.cpu (Lmc.machine w2)) = Lmc.neg (Lmc.cpu (Lmc.machine w1))
      /\ Lmc.mailboxes (Lmc.machine w2) = Lmc.mailboxes (Lmc.machine w)).
Proof.
  intros c Haddr Hm Ha Hv.
  destruct w as [[mem [ac p ins op adr ng hl er]] t]. cbn in *.
  unfold Lmc.MAX_VALUE in *.
  assert (Hadd : forall x ng', 0 <= x <= 999 ->
            Lmc.lmc_add (Lmc.mk_world (Lmc.mk_lmc mem (Lmc.mk_cpu x p ins op adr ng' hl er)) t)
            = Ok (Lmc.mk_world (Lmc.mk_lmc mem
                    (Lmc.mk_cpu (if x + m >? 999 then x + m - (999 + 1) else x + m)
                       p ins op adr (x + m >? 999) hl er)) t)).
  { intros x ng' Hx. unfold Lmc.lmc_add. cbn.
    rewrite (mailbox_get_in _ _ _ Haddr Hm). cbn.
    rewrite int_checked_small by (unfold INT_MIN, INT_MAX; lia). reflexivity. }
  assert (Hsub : forall x ng', 0 <= x <= 999 ->
            Lmc.lmc_sub (Lmc.mk_world (Lmc.mk_lmc mem (Lmc.mk_cpu x p ins op adr ng' hl er)) t)
            = Ok (Lmc.mk_world (Lmc.mk_lmc mem
                    (Lmc.mk_cpu (if x - m <? 0 then x - m + (999 + 1) else x - m)
                       p ins op adr (x - m <? 0) hl er)) t)).
  { intros x ng' Hx. unfold Lmc.lmc_sub. cbn.
    rewrite (mailbox_get_in _ _ _ Haddr Hm). cbn.
    rewrite int_checked_small by (unfold INT_MIN, INT_MAX; lia). reflexivity. }
  split.
  - eexists. eexists. split; [apply Hadd; lia|].
    split; [apply Hsub; destruct (Z.gtb_spec (ac + m) 999); lia|]. cbn.
    destruct (Z.gtb_spec (ac + m) 999);
      [destruct (Z.ltb_spec (ac + m - (999 + 1) - m) 0)
      |destruct (Z.ltb_spec (ac + m - m) 0)]; repeat split; lia.
  - eexists. eexists. split; [apply Hsub; lia|].
    split; [apply Hadd; destruct (Z.ltb_spec (ac - m) 0); lia|]. cbn.
    destruct (Z.ltb_spec (ac - m) 0);
      [destruct (Z.gtb_spec (ac - m + (999 + 1) + m) 999)
      |destruct (Z.gtb_spec (ac - m + m) 999)]; repeat split; lia.
Qed.

(** X3. Comparing by subtraction: after [lmc_sub] of a mailbox [m] from an
    accumulator [a], both in [0, MAX_VALUE], the branch on "positive" to a
    target [t] is taken exactly when [m <= a] and the branch on zero exactly
    when [a = m]; a branch not taken changes nothing. *)
Theorem compare_by_subtraction (w : Lmc.world) (m i o t : Z) :
  let c := Lmc.cpu (Lmc.machine w) in
  0 <= Lmc.addr c < Lmc.NUM_MAILBOXES ->
  Lmc.mailboxes (Lmc.machine w) !! Z.to_nat (Lmc.addr c) = Some m ->
  0 <= Lmc.a c <= Lmc.MAX_VALUE ->
  0 <= m <= Lmc.MAX_VALUE ->
  exists w1,
    Lmc.lmc_sub w = Ok w1
    /\ let w2 := Lmc.set_cpu (Lmc.set_decoded i o t) w1 in
       let jump := Lmc.set_cpu (Lmc.set_pc t) w2 in
       (m <= Lmc.a c -> Lmc.lmc_branch_positive w2 = Ok jump)
       /\ (Lmc.a c < m -> Lmc.lmc_branch_positive w2 = Ok w2)
       /\ (Lmc.a c = m -> Lmc.lmc_branch_zero w2 = Ok jump)
       /\ (Lmc.a c <> m -> Lmc.lmc_branch_zero w2 = Ok w2).
Proof.
  intros c Haddr Hm Ha Hv.
  destruct w as [[mem [ac p ins op adr ng hl er]] tt0]. cbn in *.
  unfold Lmc.MAX_VALUE in *.
  eexists. split.
  { unfold Lmc.lmc_sub. cbn. rewrite (mailbox_get_in _ _ _ Haddr Hm). cbn.
    rewrite int_checked_small by (unfold INT_MIN, INT_MAX; lia). reflexivity. }
  cbn. unfold Lmc.lmc_branch_positive, Lmc.lmc_branch_zero, Lmc.MAX_VALUE. cbn.
  destruct (Z.ltb_spec (ac - m) 0) as [Hlt|Hge]; cbn.
  - repeat split; intros; try lia.
    destruct (Z.eqb_spec (ac - m + (999 + 1)) 0); [lia|reflexivity].
  - repeat split; intros; try lia; try reflexivity.
    + destruct (Z.eqb_spec (ac - m) 0); [reflexivity|lia].
    + destruct (Z.eqb_spec (ac - m) 0); [lia|reflexivity].
Qed.

Lemma word_fields (i : Z) :
  word_ok i ->
  0 <= i `quot` Lmc.NUM_MAILBOXES <= 9 /\ 0 <= i `rem` Lmc.NUM_MAILBOXES < Lmc.NUM_MAILBOXES.
Proof.
  unfold word_ok, Lmc.MAX_VALUE, Lmc.NUM_MAILBOXES. intros H.
  rewrite Z.quot_div_nonneg, Z.rem_mod_nonneg by lia.
  pose proof (Z.mod_pos_bound i 100).
  assert (0 <= i / 100) by (apply Z.div_pos; lia).
  assert (i / 100 < 10) by (apply Z.div_lt_upper_bound; lia).
  lia.
Qed.

Lemma tidy_lookup (mem : list Z) (j : Z) :
  length mem = Z.to_nat Lmc.NUM_MAILBOXES -> Forall word_ok mem ->
  0 <= j < Lmc.NUM_MAILBOXES ->
  exists v, mem !! Z.to_nat j = Some v /\ word_ok v.
Proof.
  intros Hlen Hall Hj.
  destruct (lookup_lt_is_Some_2 mem (Z.to_nat j)) as [v Hv]; [rewrite Hlen; lia|].
  exists v. split; [exact Hv|]. exact (proj1 (Forall_lookup _ _) Hall _ _ Hv).
Qed.

Lemma cycle_tidy (w : Lmc.world) :
  tidy w ->
  Lmc.pc (Lmc.cpu (Lmc.machine w)) < Lmc.NUM_MAILBOXES ->
  match Lmc.cycle w with
  | Ok (inl w') => tidy w'
  | Ok (inr w') => tidy w' /\ Lmc.halted (Lmc.cpu (Lmc.machine w')) = true
  | Diverges => Lmc.stdin (Lmc.tty w) = []
  | Undefined _ => False
  end.
Proof.
  intros (Hlen & Hall & Ha & Hpc & Hin) Hlt.
  destruct (tidy_lookup _ (Lmc.pc (Lmc.cpu (Lmc.machine w))) Hlen Hall) as (i & Hi & Hiok);
    [lia|].
  destruct (word_fields i Hiok) as [Ho Had].
  unfold Lmc.cycle. rewrite (fetch_in w i) by (try exact Hi; lia).
  destruct (tidy_lookup _ (i `rem` Lmc.NUM_MAILBOXES) Hlen Hall Had) as (m & Hm & Hmok).
  destruct w as [[mem [ac p ins op adr ng hl er]] [sin sout serr]]. cbn in *.
  set (o := i `quot` Lmc.NUM_MAILBOXES) in *.
  set (ad := i `rem` Lmc.NUM_MAILBOXES) in *.
  unfold Lmc.dispatch. cbn [Lmc.opcode Lmc.cpu Lmc.machine].
  assert (Hcases : o = 0 \/ o = 1 \/ o = 2 \/ o = 3 \/ o = 4 \/ o = 5 \/ o = 6 \/ o = 7
                   \/ o = 8 \/ o = 9) by lia.
  unfold word_ok, Lmc.MAX_VALUE, Lmc.NUM_MAILBOXES in *.
  assert (Hp1 : 0 <= p + 1 <= 100) by lia.
  assert (Hadr : 0 <= ad <= 100) by lia.
  destruct Hcases as [E|[E|[E|[E|[E|[E|[E|[E|[E|E]]]]]]]]]; rewrite E;
    match goal with
    | |- context [?k >? 9] => change (k >? 9) with false; change (k <? 0) with false
    end;
    match goal with
    | |- context [Lmc.OPS !! ?n] =>
        let r := eval cbv [Lmc.OPS lookup list_lookup Z.to_nat Pos.to_nat Pos.iter_op
                           Nat.add]
                 in (Lmc.OPS !! n) in
        change (Lmc.OPS !! n) with r
    end; cbv beta iota.
  - cbn. unfold tidy, word_ok, Lmc.MAX_VALUE, Lmc.NUM_MAILBOXES. cbn. auto.
  - unfold Lmc.lmc_add. cbn. rewrite (mailbox_get_in _ _ _ Had Hm). cbn.
    rewrite int_checked_small by (unfold INT_MIN, INT_MAX; lia). cbn.
    unfold tidy, word_ok, Lmc.MAX_VALUE, Lmc.NUM_MAILBOXES. cbn.
    destruct (Z.gtb_spec (ac + m) 999); repeat split; try assumption; lia.
  - unfold Lmc.lmc_sub. cbn. rewrite (mailbox_get_in _ _ _ Had Hm). cbn.
    rewrite int_checked_small by (unfold INT_MIN, INT_MAX; lia). cbn.
    unfold tidy, word_ok, Lmc.MAX_VALUE, Lmc.NUM_MAILBOXES. cbn.
    destruct (Z.ltb_spec (ac - m) 0); repeat split; try assumption; lia.
  - unfold Lmc.lmc_store. cbn. rewrite (mailbox_set_in _ _ _ Had). cbn.
    unfold tidy, word_ok, Lmc.MAX_VALUE, Lmc.NUM_MAILBOXES. cbn.
    repeat split; try assumption; try lia.
    + rewrite length_insert. exact Hlen.
    + apply Forall_insert; [exact Hall|exact Ha].
  - cbn. unfold tidy, word_ok, Lmc.MAX_VALUE, Lmc.NUM_MAILBOXES. cbn. repeat split; try assumption; lia.
  - unfold Lmc.lmc_load. cbn. rewrite (mailbox_get_in _ _ _ Had Hm). cbn.
    unfold tidy, word_ok, Lmc.MAX_VALUE, Lmc.NUM_MAILBOXES. cbn. repeat split; try assumption; lia.
  - cbn. unfold tidy, word_ok, Lmc.MAX_VALUE, Lmc.NUM_MAILBOXES. cbn. repeat split; try assumption; lia.
  - unfold Lmc.lmc_branch_zero. cbn.
    destruct (ac =? 0); cbn; unfold tidy, word_ok, Lmc.MAX_VALUE, Lmc.NUM_MAILBOXES; cbn;
      repeat split; try assumption; lia.
  - unfold Lmc.lmc_branch_positive. cbn.
    destruct ng; cbn; unfold tidy, word_ok, Lmc.MAX_VALUE, Lmc.NUM_MAILBOXES; cbn;
      repeat split; try assumption; lia.
  - unfold Lmc.lmc_io. cbn.
    destruct (ad =? 1).
    + destruct sin as [|n rest]; [reflexivity|]. cbn.
      inversion Hin as [|? ? Hn Hrest]; subst.
      unfold tidy, word_ok, Lmc.MAX_VALUE, Lmc.NUM_MAILBOXES. cbn. repeat split; try assumption; lia.
    + destruct (ad =? 2); cbn; unfold tidy, word_ok, Lmc.MAX_VALUE, Lmc.NUM_MAILBOXES; cbn;
        repeat split; try assumption; lia.
Qed.

(** X4. One turn of the loop keeps a machine well formed.  From a state
    whose memory has its hundred cells, whose cells, accumulator and
    pending input are in [0, MAX_VALUE] and whose program counter is inside
    the memory, the fetch, the decoding and the handler never index outside
    [mailboxes] or [OPS] and never overflow; the state that results is well
    formed again, and the loop is left by [break] only with [halted] set.
    The one other outcome is the input instruction waiting for a number
    that never comes. *)
Theorem cycle_keeps_tidy (w : Lmc.world) :
  tidy w ->
  Lmc.pc (Lmc.cpu (Lmc.machine w)) < Lmc.NUM_MAILBOXES ->
  match Lmc.cycle w with
  | Ok (inl w') => tidy w'
  | Ok (inr w') => tidy w' /\ Lmc.halted (Lmc.cpu (Lmc.machine w')) = true
  | Diverges => Lmc.stdin (Lmc.tty w) = []
  | Undefined _ => False
  end.
Proof.
  exact (cycle_tidy w).
Qed.

Lemma run_body_tidy (w : Lmc.world) :
  tidy w ->
  match Lmc.run_body w with
  | inl w' => tidy w'
  | inr (Ok w') => tidy w' /\ Lmc.halted (Lmc.cpu (Lmc.machine w')) = true
  | inr Diverges => Lmc.stdin (Lmc.tty w) = []
  | inr (Undefined u) =>
      u = MailboxIndex Lmc.NUM_MAILBOXES
      /\ Lmc.pc (Lmc.cpu (Lmc.machine w)) = Lmc.NUM_MAILBOXES
  end.
Proof.
  intros Hw. unfold Lmc.run_body.
  destruct (Lmc.halted (Lmc.cpu (Lmc.machine w))) eqn:Hh; [split; assumption|].
  destruct (Z.eq_dec (Lmc.pc (Lmc.cpu (Lmc.machine w))) Lmc.NUM_MAILBOXES) as [Hend|Hin].
  - unfold Lmc.cycle. rewrite fetch_out by (right; lia). cbn. rewrite Hend.
    split; reflexivity.
  - assert (Hlt : Lmc.pc (Lmc.cpu (Lmc.machine w)) < Lmc.NUM_MAILBOXES).
    { destruct Hw as (_ & _ & _ & Hpc & _). lia. }
    pose proof (cycle_tidy w Hw Hlt) as Hc.
    destruct (Lmc.cycle w) as [[w'|w']|u|]; try exact Hc. contradiction.
Qed.

Lemma reach_tidy (n : nat) : forall w w' : Lmc.world,
  tidy w -> reach Lmc.run_body n w = Some w' -> tidy w'.
Proof.
  induction n as [|n IH]; intros w w' Hw Hr.
  - injection Hr as <-. exact Hw.
  - cbn [reach] in Hr. pose proof (run_body_tidy w Hw) as Hb.
    destruct (Lmc.run_body w) as [w1|r]; [|discriminate Hr].
    exact (IH w1 w' Hb Hr).
Qed.

Lemma run_outcomes (fuel : nat) : forall w : Lmc.world,
  tidy w ->
  match Lmc.run fuel w with
  | None => exists w', reach Lmc.run_body fuel w = Some w' /\ tidy w'
  | Some (Ok w') => tidy w' /\ Lmc.halted (Lmc.cpu (Lmc.machine w')) = true
  | Some Diverges =>
      exists n w', reach Lmc.run_body n w = Some w' /\ tidy w'
                   /\ Lmc.stdin (Lmc.tty w') = []
  | Some (Undefined u) =>
      u = MailboxIndex Lmc.NUM_MAILBOXES
      /\ exists n w', reach Lmc.run_body n w = Some w' /\ tidy w'
                      /\ Lmc.pc (Lmc.cpu (Lmc.machine w')) = Lmc.NUM_MAILBOXES
  end.
Proof.
  unfold Lmc.run. induction fuel as [|fuel IH]; intros w Hw.
  - exists w. split; [reflexivity|exact Hw].
  - cbn [loop reach]. pose proof (run_body_tidy w Hw) as Hb.
    destruct (Lmc.run_body w) as [w1|[w1|u|]] eqn:E.
    + specialize (IH w1 Hb).
      destruct (loop Lmc.run_body fuel w1) as [[w2|u|]|].
      * exact IH.
      * destruct IH as (Hu & n & w' & Hr & Ht & Hpc). split; [exact Hu|].
        exists (S n), w'. cbn [reach]. rewrite E.
        split; [exact Hr|]. split; [exact Ht|exact Hpc].
      * destruct IH as (n & w' & Hr & Ht & Hin).
        exists (S n), w'. cbn [reach]. rewrite E.
        split; [exact Hr|]. split; [exact Ht|exact Hin].
      * exact IH.
    + exact Hb.
    + destruct Hb as [Hu Hpc]. split; [exact Hu|].
      exists O, w. split; [reflexivity|]. split; [exact Hw|exact Hpc].
    + exists O, w. split; [reflexivity|]. split; [exact Hw|exact Hb].
Qed.

(** X5. A well-formed machine stays well formed for as long as it runs.
    The state in which the loop starts any of its turns is well formed.
    After [fuel] turns the loop is either still going, in such a state (it
    need not ever end), or it has ended in one of three ways: halted, in a
    well-formed state; inside the input instruction, in a well-formed
    state whose input is used up, waiting for a number that never comes;
    or, as the only undefined behaviour there is, with a fetch at the
    program counter [NUM_MAILBOXES], one past the last mailbox, reached in
    a well-formed state. *)
Theorem tidy_run (fuel : nat) : forall w : Lmc.world,
  tidy w ->
  (forall n w', reach Lmc.run_body n w = Some w' -> tidy w')
  /\ match Lmc.run fuel w with
     | None => exists w', reach Lmc.run_body fuel w = Some w' /\ tidy w'
     | Some (Ok w') => tidy w' /\ Lmc.halted (Lmc.cpu (Lmc.machine w')) = true
     | Some Diverges =>
         exists n w', reach Lmc.run_body n w = Some w' /\ tidy w'
                      /\ Lmc.stdin (Lmc.tty w') = []
     | Some (Undefined u) =>
         u = MailboxIndex Lmc.NUM_MAILBOXES
         /\ exists n w', reach Lmc.run_body n w = Some w' /\ tidy w'
                         /\ Lmc.pc (Lmc.cpu (Lmc.machine w')) = Lmc.NUM_MAILBOXES
     end.
Proof.
  intros w Hw. split.
  - intros n w' Hr. exact (reach_tidy n w w' Hw Hr).
  - exact (run_outcomes fuel w Hw).
Qed.

Lemma load_three (m : list Z) (j : nat) (b0 b1 b2 : Z) (rest : list Z) :
  (j < Z.to_nat Lmc.NUM_MAILBOXES)%nat ->
  m !! j = Some 0 ->
  Lmc.load (b0 :: b1 :: b2 :: rest) (3 * Z.of_nat j) m
  = Lmc.load rest (3 * Z.of_nat j + 3) (<[j := denotes [b0; b1; b2]]> m).
Proof.
  intros Hj Hm.
  assert (Hlen : (j < length m)%nat) by (eapply lookup_lt_Some; exact Hm).
  assert (Hr : 0 <= Z.of_nat j < Lmc.NUM_MAILBOXES) by lia.
  assert (Q0 : (3 * Z.of_nat j) `quot` Lmc.NUM_DIGITS = Z.of_nat j).
  { unfold Lmc.NUM_DIGITS. rewrite Z.quot_div_nonneg by lia.
    rewrite Z.mul_comm. apply Z.div_mul. lia. }
  assert (Q1 : (3 * Z.of_nat j + 1) `quot` Lmc.NUM_DIGITS = Z.of_nat j).
  { unfold Lmc.NUM_DIGITS. rewrite Z.quot_div_nonneg by lia.
    rewrite Z.mul_comm, Z.div_add_l by lia. change (1 / 3) with 0. lia. }
  assert (Q2 : (3 * Z.of_nat j + 1 + 1) `quot` Lmc.NUM_DIGITS = Z.of_nat j).
  { unfold Lmc.NUM_DIGITS. rewrite Z.quot_div_nonneg by lia.
    rewrite <- Z.add_assoc, Z.mul_comm, Z.div_add_l by lia. change ((1 + 1) / 3) with 0. lia. }
  cbn [Lmc.load]. rewrite Q0, Q1, Q2.
  rewrite (mailbox_get_in m _ 0 Hr) by (rewrite Nat2Z.id; exact Hm).
  cbn [mbind outcome_bind]. rewrite (mailbox_set_in _ _ _ Hr). cbn [mbind outcome_bind].
  rewrite Nat2Z.id.
  rewrite (mailbox_get_in _ _ (0 * 10 + b0) Hr)
    by (rewrite Nat2Z.id; apply list_lookup_insert_eq; exact Hlen).
  cbn [mbind outcome_bind]. rewrite (mailbox_set_in _ _ _ Hr). cbn [mbind outcome_bind].
  rewrite Nat2Z.id, list_insert_insert_eq.
  rewrite (mailbox_get_in _ _ ((0 * 10 + b0) * 10 + b1) Hr)
    by (rewrite Nat2Z.id; apply list_lookup_insert_eq; exact Hlen).
  cbn [mbind outcome_bind]. rewrite (mailbox_set_in _ _ _ Hr). cbn [mbind outcome_bind].
  rewrite Nat2Z.id, list_insert_insert_eq.
  f_equal. lia.
Qed.

Lemma decimal_three (v : Z) :
  word_ok v ->
  exists b0 b1 b2, decimal 3 v = [b0; b1; b2] /\ denotes [b0; b1; b2] = v.
Proof.
  intros Hv. unfold word_ok, Lmc.MAX_VALUE in Hv.
  pose proof (denotes_decimal 3 v (proj1 Hv)) as Hd.
  pose proof (decimal_length 3 v) as Hl.
  destruct (decimal 3 v) as [|b0 [|b1 [|b2 [|? ?]]]]; try discriminate Hl.
  exists b0, b1, b2. split; [reflexivity|].
  rewrite Hd. apply Z.mod_small. change (10 ^ Z.of_nat 3) with 1000. lia.
Qed.

Lemma load_words_from (vs : list Z) : forall pre : list Z,
  (length pre + length vs <= Z.to_nat Lmc.NUM_MAILBOXES)%nat ->
  Forall word_ok vs ->
  Lmc.load (concat (map (decimal 3) vs)) (3 * Z.of_nat (length pre))
    (pre ++ replicate (Z.to_nat Lmc.NUM_MAILBOXES - length pre) 0)
  = Ok (pre ++ vs ++ replicate (Z.to_nat Lmc.NUM_MAILBOXES - length pre - length vs) 0,
        3 * Z.of_nat (length pre + length vs)).
Proof.
  induction vs as [|v vs IH]; intros pre Hlen Hall.
  - cbn. rewrite Nat.sub_0_r, Nat.add_0_r. reflexivity.
  - inversion Hall as [|? ? Hv Hrest]; subst.
    destruct (decimal_three v Hv) as (b0 & b1 & b2 & E & Hden).
    cbn [map concat]. rewrite E. cbn [app].
    cbn [length] in Hlen.
    rewrite load_three;
      [|lia|rewrite lookup_app_r, Nat.sub_diag by lia; apply lookup_replicate_2; lia].
    rewrite Hden.
    replace (Z.to_nat Lmc.NUM_MAILBOXES - length pre)%nat
      with (S (Z.to_nat Lmc.NUM_MAILBOXES - length pre - 1)) by lia.
    cbn [replicate].
    replace (length pre) with (length pre + 0)%nat at 2 by lia.
    rewrite insert_app_r. cbn [insert list_insert].
    specialize (IH (pre ++ [v])). rewrite length_app in IH. cbn [length] in IH.
    replace (3 * Z.of_nat (length pre) + 3) with (3 * Z.of_nat (length pre + 1)) by lia.
    rewrite <- !app_assoc in IH. cbn [app] in IH.
    replace (Z.to_nat Lmc.NUM_MAILBOXES - length pre - 1)%nat
      with (Z.to_nat Lmc.NUM_MAILBOXES - (length pre + 1))%nat by lia.
    rewrite IH; [|lia|exact Hrest].
    cbn [length]. do 4 f_equal; lia.
Qed.

Lemma load_words_zeroed (vs : list Z) :
  (length vs <= Z.to_nat Lmc.NUM_MAILBOXES)%nat ->
  Forall word_ok vs ->
  Lmc.load (concat (map (decimal 3) vs)) 0 (Lmc.mailboxes Lmc.zeroed)
  = Ok (vs ++ replicate (Z.to_nat Lmc.NUM_MAILBOXES - length vs) 0,
        3 * Z.of_nat (length vs)).
Proof.
  intros Hlen Hall. exact (load_words_from vs [] Hlen Hall).
Qed.

(** X6. The image format round trip.  An image that is the three decimal
    digits, most significant first, of each of at most [NUM_MAILBOXES]
    values in [0, MAX_VALUE] loads without error into a memory that holds
    those values in order, followed by zeros; the loop counts three bytes
    per value. *)
Theorem load_words (vs : list Z) :
  (length vs <= Z.to_nat Lmc.NUM_MAILBOXES)%nat ->
  Forall word_ok vs ->
  Lmc.load (concat (map (decimal 3) vs)) 0 (Lmc.mailboxes Lmc.zeroed)
  = Ok (vs ++ replicate (Z.to_nat Lmc.NUM_MAILBOXES - length vs) 0,
        3 * Z.of_nat (length vs)).
Proof.
  exact (load_words_zeroed vs).
Qed.

Lemma loaded_tidy (path : string) (vs input : list Z) :
  (length vs <= Z.to_nat Lmc.NUM_MAILBOXES)%nat ->
  Forall word_ok vs ->
  Forall word_ok input ->
  tidy (loaded path vs input).
Proof.
  intros Hlen Hvs Hin. unfold tidy, loaded. cbn. repeat split.
  - rewrite length_app, length_replicate. lia.
  - apply Forall_app. split; [exact Hvs|].
    apply Forall_replicate. unfold word_ok, Lmc.MAX_VALUE. lia.
  - lia.
  - unfold Lmc.MAX_VALUE. lia.
  - lia.
  - unfold Lmc.NUM_MAILBOXES. lia.
  - exact Hin.
Qed.

Lemma run_word_image (prog path : string) (fs : string -> option Lmc.rfile)
    (vs input : list Z) (fuel : nat) :
  fs path = Some (Lmc.mk_rfile (concat (map (decimal 3) vs)) false) ->
  (length vs <= Z.to_nat Lmc.NUM_MAILBOXES)%nat ->
  Forall word_ok vs ->
  Forall word_ok input ->
  let w0 := loaded path vs input in
  tidy w0
  /\ (forall n w', reach Lmc.run_body n w0 = Some w' -> tidy w')
  /\ match Lmc.main fuel [prog; path] fs input with
     | None => exists w', reach Lmc.run_body fuel w0 = Some w' /\ tidy w'
     | Some Diverges =>
         exists n w', reach Lmc.run_body n w0 = Some w' /\ tidy w'
                      /\ Lmc.stdin (Lmc.tty w') = []
     | Some (Ok e) =>
         tidy (Lmc.final e)
         /\ Lmc.halted (Lmc.cpu (Lmc.machine (Lmc.final e))) = true
         /\ Lmc.status e = Lmc.bool_int (Lmc.error (Lmc.cpu (Lmc.machine (Lmc.final e))))
     | Some (Undefined u) =>
         u = MailboxIndex Lmc.NUM_MAILBOXES
         /\ exists n w', reach Lmc.run_body n w0 = Some w' /\ tidy w'
                         /\ Lmc.pc (Lmc.cpu (Lmc.machine w')) = Lmc.NUM_MAILBOXES
     end.
Proof.
  intros Hfs Hlen Hvs Hin w0.
  pose proof (loaded_tidy path vs input Hlen Hvs Hin) as Hw. fold w0 in Hw.
  split; [exact Hw|].
  split; [intros n w' Hr; exact (reach_tidy n w0 w' Hw Hr)|].
  unfold Lmc.main. rewrite Hfs.
  cbn [Lmc.delivered Lmc.ferror Lmc.boot Lmc.machine].
  rewrite (load_words_zeroed vs Hlen Hvs).
  replace (3 * Z.of_nat (length vs)) with (Z.of_nat (length vs) * 3) by lia.
  unfold Lmc.NUM_DIGITS. rewrite Z.rem_mul by lia. cbn [negb Z.eqb].
  rewrite Z.quot_mul by lia.
  change (Lmc.print_out _ _) with w0.
  pose proof (run_outcomes fuel w0 Hw) as Hrun. unfold Lmc.execute.
  destruct (Lmc.run fuel w0) as [[w'| |]|]; try exact Hrun.
  destruct Hrun as [Ht Hh]. repeat split; try assumption; apply Ht.
Qed.

(** X7. Running an image of three-digit words.  When the image file is
    the digits of at most [NUM_MAILBOXES] values in [0, MAX_VALUE] and the
    numbers typed in are in that range too, the emulator enters its loop
    in a well-formed state and every state in which the loop starts a turn
    is well formed.  After [fuel] turns it is either still running in such
    a state (a program may loop for ever), or it has exited, halted, well
    formed and with a status that is 1 exactly when [error] is set, or it
    waits for ever for input that is used up, or it has run off the end of
    the memory with a fetch at [NUM_MAILBOXES]; no other undefined
    behaviour occurs. *)
Theorem word_image_runs (prog path : string) (fs : string -> option Lmc.rfile)
    (vs input : list Z) (fuel : nat) :
  fs path = Some (Lmc.mk_rfile (concat (map (decimal 3) vs)) false) ->
  (length vs <= Z.to_nat Lmc.NUM_MAILBOXES)%nat ->
  Forall word_ok vs ->
  Forall word_ok input ->
  let w0 := loaded path vs input in
  tidy w0
  /\ (forall n w', reach Lmc.run_body n w0 = Some w' -> tidy w')
  /\ match Lmc.main fuel [prog; path] fs input with
     | None => exists w', reach Lmc.run_body fuel w0 = Some w' /\ tidy w'
     | Some Diverges =>
         exists n w', reach Lmc.run_body n w0 = Some w' /\ tidy w'
                      /\ Lmc.stdin (Lmc.tty w') = []
     | Some (Ok e) =>
         tidy (Lmc.final e)
         /\ Lmc.halted (Lmc.cpu (Lmc.machine (Lmc.final e))) = true
         /\ Lmc.status e = Lmc.bool_int (Lmc.error (Lmc.cpu (Lmc.machine (Lmc.final e))))
     | Some (Undefined u) =>
         u = MailboxIndex Lmc.NUM_MAILBOXES
         /\ exists n w', reach Lmc.run_body n w0 = Some w' /\ tidy w'
                         /\ Lmc.pc (Lmc.cpu (Lmc.machine w')) = Lmc.NUM_MAILBOXES
     end.
Proof.
  exact (run_word_image prog path fs vs input fuel).
Qed.

(** * Further properties of the assembler *)

(** ** The scanner *)

Lemma blank_inline (c : ascii) :
  blank c -> Lmasm.is_char Lmasm.NL c = false /\ Lmasm.is_char Lmasm.SLASH c = false.
Proof.
  unfold blank, Lmasm.isblank, Lmasm.is_char, Lmasm.NL, Lmasm.SLASH. intros H.
  apply orb_true_iff in H.
  destruct H as [H|H]; apply Z.eqb_eq in H; rewrite H; split; reflexivity.
Qed.

Lemma finish_line_comment (pre post : Lmasm.stream) (line : Z) :
  Forall inline pre ->
  Lmasm.finish_line (pre ++ newline :: post) true line = (0, post, [])
  /\ Lmasm.finish_line pre true line = (0, [], []).
Proof.
  intros Hpre. induction Hpre as [|c pre Hc _ [IH1 IH2]]; [split; reflexivity|].
  cbn [app Lmasm.finish_line]. unfold inline in Hc. rewrite Hc, andb_false_r.
  split; assumption.
Qed.

(** X8. In comment mode [finish_line] cannot fail: it prints nothing,
    returns 0 and consumes the rest of the line, whatever it holds, up to
    and including the first newline, or up to the end of the input when
    there is no newline. *)
Theorem finish_line_in_comment (pre post : Lmasm.stream) (line : Z) :
  Forall inline pre ->
  Lmasm.finish_line (pre ++ newline :: post) true line = (0, post, [])
  /\ Lmasm.finish_line pre true line = (0, [], []).
Proof.
  exact (finish_line_comment pre post line).
Qed.

(** X9. Outside a comment [finish_line] accepts a line that has only
    blanks left, and one that after blanks has a comment opened by two
    slashes: it returns 0 without a message, having consumed the line with
    its newline, or the whole input when the line is the last and has no
    newline. *)
Theorem finish_line_accepts (blanks body post : Lmasm.stream) (line : Z) :
  Forall blank blanks ->
  Forall inline body ->
  Lmasm.finish_line (blanks ++ newline :: post) false line = (0, post, [])
  /\ Lmasm.finish_line blanks false line = (0, [], [])
  /\ Lmasm.finish_line (blanks ++ slash :: slash :: body ++ newline :: post) false line
     = (0, post, [])
  /\ Lmasm.finish_line (blanks ++ slash :: slash :: body) false line = (0, [], []).
Proof.
  intros Hblanks Hbody.
  destruct (finish_line_comment body post line Hbody) as [C1 C2].
  induction Hblanks as [|c blanks Hc _ (IH1 & IH2 & IH3 & IH4)].
  - cbn [app Lmasm.finish_line]. repeat split; try reflexivity; cbn; assumption.
  - cbn [app Lmasm.finish_line]. destruct (blank_inline c Hc) as [Hn _].
    unfold blank in Hc. rewrite Hn, Hc. cbn [negb andb].
    repeat split; assumption.
Qed.

(** X10. Outside a comment [finish_line] rejects anything else after the
    blanks.  A character that is neither blank, newline nor slash gives
    "Expected end-of-line"; a slash that is not followed by a second slash,
    be it by any other character, a blank or a newline included, or by
    the end of the input, gives "Unexpected '/'".  Either way the return
    value is 1, the message carries the line number and the offending
    character is consumed. *)
Theorem finish_line_rejects (blanks rest : Lmasm.stream) (line : Z) :
  Forall blank blanks ->
  (forall c, Lmasm.isblank c = false ->
             Lmasm.is_char Lmasm.NL c = false ->
             Lmasm.is_char Lmasm.SLASH c = false ->
             Lmasm.finish_line (blanks ++ c :: rest) false line
             = (1, rest, [Lmasm.syntax "Expected end-of-line" line]))
  /\ (forall c, Lmasm.is_char Lmasm.SLASH c = false ->
                Lmasm.finish_line (blanks ++ slash :: c :: rest) false line
                = (1, rest, [Lmasm.syntax "Unexpected '/'" line]))
  /\ Lmasm.finish_line (blanks ++ slash :: newline :: rest) false line
     = (1, rest, [Lmasm.syntax "Unexpected '/'" line])
  /\ Lmasm.finish_line (blanks ++ [slash]) false line
     = (1, [], [Lmasm.syntax "Unexpected '/'" line]).
Proof.
  intros Hblanks.
  induction Hblanks as [|b blanks Hb _ (IH1 & IH2 & IH3 & IH4)].
  - cbn [app Lmasm.finish_line].
    change (Lmasm.is_char Lmasm.NL slash) with false.
    change (Lmasm.is_char Lmasm.SLASH slash) with true.
    change (Lmasm.isblank slash) with false. cbn [negb andb].
    split; [intros c Hc Hn Hs; rewrite Hn, Hc, Hs; reflexivity|].
    split; [intros c Hs; rewrite Hs; reflexivity|].
    split; reflexivity.
  - cbn [app Lmasm.finish_line]. destruct (blank_inline b Hb) as [Hbn _].
    unfold blank in Hb. rewrite Hbn, Hb. cbn [negb andb].
    repeat split; assumption.
Qed.

(** ** Labels and literals *)

Lemma label_chars_fills (nm : string) : forall (ch : ascii) (rest : Lmasm.stream),
  Lmasm.islabel ch = true ->
  Forall (fun c => Lmasm.islabel c = true) (list_ascii_of_string nm) ->
  Lmasm.label_chars (S (String.length nm)) (Some ch) (list_ascii_of_string nm ++ rest)
  = (String ch nm, fst (Lmasm.fgetc rest), snd (Lmasm.fgetc rest)).
Proof.
  induction nm as [|ch' nm IH]; intros ch rest Hch Hnm; cbn [Lmasm.label_chars];
    rewrite Hch.
  - cbn [list_ascii_of_string app String.length Lmasm.label_chars].
    destruct (Lmasm.fgetc rest) as [c1 s1]. reflexivity.
  - cbn [list_ascii_of_string app Lmasm.fgetc String.length].
    inversion Hnm as [|? ? Hch' Hnm']; subst.
    rewrite (IH ch' rest Hch' Hnm'). reflexivity.
Qed.

(** X11. The length limit of labels.  A label of exactly [MAX_LABEL_LEN]
    label characters, not starting with a digit, is read whole when the
    next character is not a label character; when one more label character
    follows, [parse_label] fails with "Label on line %d exceeds max length
    of %d", whatever comes after; and a token that starts with a digit is
    refused with "Label begins with digit". *)
Theorem label_length_limit (ch extra : ascii) (nm : string) (rest : Lmasm.stream)
    (line : Z) :
  String.length (String ch nm) = Lmasm.MAX_LABEL_LEN ->
  Lmasm.islabel ch = true ->
  Lmasm.isdigit ch = false ->
  Forall (fun c => Lmasm.islabel c = true) (list_ascii_of_string nm) ->
  (Lmasm.at_char Lmasm.islabel (fst (Lmasm.fgetc rest)) = false ->
   Lmasm.parse_label (ch :: list_ascii_of_string nm ++ rest) line
   = (0, String ch nm, rest, []))
  /\ (Lmasm.islabel extra = true ->
      Lmasm.parse_label (ch :: list_ascii_of_string nm ++ extra :: rest) line
      = (1, String ch nm, rest,
         [Fprintf "Label on line %d exceeds max length of %d\n"
            [ArgInt line; ArgInt (Z.of_nat Lmasm.MAX_LABEL_LEN)]]))
  /\ (forall d, Lmasm.isdigit d = true ->
      Lmasm.parse_label (d :: rest) line
      = (1, EmptyString, rest, [Lmasm.syntax "Label begins with digit" line])).
Proof.
  intros Hlen Hch Hdig Hnm. split; [|split].
  - intros Hrest. apply parse_label_reads; try assumption. rewrite Hlen. constructor.
  - intros Hextra. unfold Lmasm.parse_label. cbn [Lmasm.fgetc Lmasm.at_char].
    rewrite Hdig. cbn [String.length] in Hlen. rewrite <- Hlen.
    rewrite (label_chars_fills nm ch (extra :: rest) Hch Hnm).
    cbn [Lmasm.fgetc fst snd Lmasm.at_char String.length].
    rewrite Nat.eqb_refl, Hextra. reflexivity.
  - intros d Hd. unfold Lmasm.parse_label. cbn [Lmasm.fgetc Lmasm.at_char].
    rewrite Hd. reflexivity.
Qed.

Lemma digit_char_spec (d : Z) :
  is_digit d ->
  Lmasm.isdigit (digit_char d) = true /\ Lmasm.int_of_char (digit_char d) - 48 = d.
Proof.
  unfold is_digit. intros Hd.
  assert (H : d = 0 \/ d = 1 \/ d = 2 \/ d = 3 \/ d = 4 \/ d = 5 \/ d = 6 \/ d = 7
              \/ d = 8 \/ d = 9) by lia.
  destruct H as [->|[->|[->|[->|[->|[->|[->|[->|[->| ->]]]]]]]]]; split; reflexivity.
Qed.

Lemma digits_grow (ds : list Z) : forall acc,
  Forall is_digit ds -> 0 <= acc -> acc <= fold_left (fun v d => v * 10 + d) ds acc.
Proof.
  induction ds as [|d ds IH]; intros acc Hds Hacc; [simpl; lia|].
  inversion Hds as [|? ? Hd Hrest]; subst. cbn [fold_left]. unfold is_digit in Hd.
  specialize (IH (acc * 10 + d) Hrest). lia.
Qed.

Lemma more_digits_reads (ds : list Z) : forall (acc : Z) (rest : Lmasm.stream),
  Forall is_digit ds ->
  0 <= acc ->
  fold_left (fun v d => v * 10 + d) ds acc <= INT_MAX ->
  Lmasm.at_char Lmasm.isdigit (fst (Lmasm.fgetc rest)) = false ->
  Lmasm.more_digits (map digit_char ds ++ rest) acc
  = Ok (fold_left (fun v d => v * 10 + d) ds acc,
        fst (Lmasm.fgetc rest), snd (Lmasm.fgetc rest)).
Proof.
  induction ds as [|d ds IH]; intros acc rest Hds Hacc Hmax Hrest.
  - cbn [map app fold_left]. destruct rest as [|c r]; [reflexivity|].
    cbn [Lmasm.more_digits Lmasm.fgetc fst snd Lmasm.at_char] in *.
    rewrite Hrest. reflexivity.
  - inversion Hds as [|? ? Hd Hrest']; subst.
    destruct (digit_char_spec d Hd) as [Hisd Hval].
    cbn [map app Lmasm.more_digits fold_left] in *. rewrite Hisd, Hval.
    pose proof (digits_grow ds (acc * 10 + d) Hrest') as Hgrow.
    unfold is_digit in Hd.
    rewrite int_checked_small by (unfold INT_MIN, INT_MAX in *; lia).
    cbn [mbind outcome_bind].
    rewrite int_checked_small by (unfold INT_MIN, INT_MAX in *; lia).
    cbn [mbind outcome_bind].
    apply IH; try assumption. lia.
Qed.

Lemma int_checked_big (z : Z) : INT_MAX < z -> int_checked z = Undefined SignedOverflow.
Proof.
  intros H. unfold int_checked.
  replace (z <=? INT_MAX) with false by (symmetry; apply Z.leb_gt; exact H).
  rewrite andb_false_r. reflexivity.
Qed.

Lemma more_digits_overflows (ds : list Z) : forall (acc : Z) (rest : Lmasm.stream),
  Forall is_digit ds ->
  0 <= acc <= INT_MAX ->
  INT_MAX < fold_left (fun v d => v * 10 + d) ds acc ->
  Lmasm.more_digits (map digit_char ds ++ rest) acc = Undefined SignedOverflow.
Proof.
  induction ds as [|d ds IH]; intros acc rest Hds Hacc Hbig.
  - cbn [fold_left] in Hbig. lia.
  - inversion Hds as [|? ? Hd Hrest']; subst.
    destruct (digit_char_spec d Hd) as [Hisd Hval].
    cbn [map app Lmasm.more_digits fold_left] in *. rewrite Hisd, Hval.
    unfold is_digit in Hd.
    destruct (Z_le_gt_dec (acc * 10) INT_MAX) as [H1|H1];
      [|rewrite int_checked_big by lia; reflexivity].
    rewrite int_checked_small by (unfold INT_MIN, INT_MAX in *; lia).
    cbn [mbind outcome_bind].
    destruct (Z_le_gt_dec (acc * 10 + d) INT_MAX) as [H2|H2];
      [|rewrite int_checked_big by lia; reflexivity].
    rewrite int_checked_small by (unfold INT_MIN, INT_MAX in *; lia).
    cbn [mbind outcome_bind]. apply IH; try assumption. lia.
Qed.

(** X12. A decimal literal is read as the number it writes.  For a
    non-empty run of digit characters, leading zeros included, writing a
    value that fits an [int]: [parse_addr] returns that value, with the
    line consumed, when the run is followed by a newline or by the end of
    the input; it fails with "Label begins with digit" when a letter or an
    underscore follows the digits.  The label table plays no part. *)
Theorem literal_is_read (d0 : Z) (ds : list Z) (c : ascii) (post : Lmasm.stream)
    (labels : list Lmasm.lmasm_label) (line : Z) :
  let text := map digit_char (d0 :: ds) in
  Forall is_digit (d0 :: ds) ->
  denotes (d0 :: ds) <= INT_MAX ->
  Lmasm.parse_addr (text ++ newline :: post) labels line = Ok (denotes (d0 :: ds), post, [])
  /\ Lmasm.parse_addr text labels line = Ok (denotes (d0 :: ds), [], [])
  /\ (Lmasm.islabel c = true -> Lmasm.isdigit c = false ->
      Lmasm.parse_addr (text ++ c :: post) labels line
      = Ok (-1, post, [Lmasm.syntax "Label begins with digit" line])).
Proof.
  intros text Hds Hmax. subst text.
  inversion Hds as [|? ? Hd0 Hrest]; subst.
  destruct (digit_char_spec d0 Hd0) as [Hisd Hval].
  assert (Hden : denotes (d0 :: ds) = fold_left (fun v d => v * 10 + d) ds d0)
    by reflexivity.
  rewrite Hden in *. unfold is_digit in Hd0.
  assert (Hparse : forall rest, Lmasm.at_char Lmasm.isdigit (fst (Lmasm.fgetc rest)) = false ->
            Lmasm.more_digits (map digit_char ds ++ rest) (Lmasm.int_of_char (digit_char d0) - 48)
            = Ok (fold_left (fun v d => v * 10 + d) ds d0,
                  fst (Lmasm.fgetc rest), snd (Lmasm.fgetc rest))).
  { intros rest Hr. rewrite Hval. apply more_digits_reads; try assumption. lia. }
  split; [|split].
  - unfold Lmasm.parse_addr. cbn [map app Lmasm.fgetc]. rewrite Hisd.
    rewrite Hparse by reflexivity. reflexivity.
  - unfold Lmasm.parse_addr. cbn [map app Lmasm.fgetc]. rewrite Hisd.
    rewrite <- (app_nil_r (map digit_char ds)). rewrite Hparse by reflexivity. reflexivity.
  - intros Hc Hcd. unfold Lmasm.parse_addr. cbn [map app Lmasm.fgetc]. rewrite Hisd.
    rewrite Hparse by exact Hcd. cbn [mbind outcome_bind fst snd Lmasm.fgetc Lmasm.at_char].
    rewrite Hc. reflexivity.
Qed.

(** X13. A decimal literal too large for an [int] overflows it: for a run
    of digit characters that writes a value above [INT_MAX], the
    accumulation [addr *= 10; addr += c - '0'] of [parse_addr] leaves the
    range of [int], which is undefined, whatever follows the digits. *)
Theorem literal_overflows (d0 : Z) (ds : list Z) (rest : Lmasm.stream)
    (labels : list Lmasm.lmasm_label) (line : Z) :
  Forall is_digit (d0 :: ds) ->
  INT_MAX < denotes (d0 :: ds) ->
  Lmasm.parse_addr (map digit_char (d0 :: ds) ++ rest) labels line
  = Undefined SignedOverflow.
Proof.
  intros Hds Hbig. inversion Hds as [|? ? Hd0 Hrest]; subst.
  destruct (digit_char_spec d0 Hd0) as [Hisd Hval].
  unfold Lmasm.parse_addr. cbn [map app Lmasm.fgetc]. rewrite Hisd, Hval.
  rewrite more_digits_overflows; [reflexivity|exact Hrest| |exact Hbig].
  unfold is_digit in Hd0. unfold INT_MAX. lia.
Qed.

(** ** The catalog of mnemonics *)

Lemma tolower_idem (c : ascii) : Lmasm.tolower (Lmasm.tolower c) = Lmasm.tolower c.
Proof. destruct c as [[] [] [] [] [] [] [] []]; reflexivity. Qed.

Lemma tolower_nul (c : ascii) :
  Lmasm.is_char 0 (Lmasm.tolower c) = Lmasm.is_char 0 c.
Proof. destruct c as [[] [] [] [] [] [] [] []]; reflexivity. Qed.

Lemma lowered_c_str (s : string) :
  Lmasm.lowered (Lmasm.c_str s) = Lmasm.c_str (Lmasm.lowered s).
Proof.
  induction s as [|c s IH]; [reflexivity|].
  cbn [Lmasm.c_str Lmasm.lowered]. rewrite tolower_nul.
  destruct (Lmasm.is_char 0 c); [reflexivity|].
  cbn [Lmasm.lowered]. rewrite IH. reflexivity.
Qed.

Lemma lowered_idem (s : string) : Lmasm.lowered (Lmasm.lowered s) = Lmasm.lowered s.
Proof.
  induction s as [|c s IH]; [reflexivity|].
  cbn [Lmasm.lowered]. rewrite tolower_idem, IH. reflexivity.
Qed.

Lemma strcasecmp0_case (a b nm : string) :
  Lmasm.lowered a = Lmasm.lowered b -> Lmasm.strcasecmp0 nm a = Lmasm.strcasecmp0 nm b.
Proof.
  intros Hab. unfold Lmasm.strcasecmp0.
  rewrite (lowered_c_str a), (lowered_c_str b), Hab. reflexivity.
Qed.

Lemma find_opcode_case (a b : string) (table : list Lmasm.lmasm_opcode) :
  Lmasm.lowered a = Lmasm.lowered b ->
  Lmasm.find_opcode a table = Lmasm.find_opcode b table.
Proof.
  intros Hab. induction table as [|o table IH]; [reflexivity|].
  cbn [Lmasm.find_opcode]. destruct (Lmasm.name o) as [nm|]; [|exact IH].
  rewrite (strcasecmp0_case a b nm Hab), IH. reflexivity.
Qed.

Lemma find_opcode_sound (x : string) (table : list Lmasm.lmasm_opcode)
    (o : Lmasm.lmasm_opcode) :
  Lmasm.find_opcode x table = Some o ->
  In o table
  /\ exists nm, Lmasm.name o = Some nm
                /\ Lmasm.lowered (Lmasm.c_str nm) = Lmasm.lowered (Lmasm.c_str x).
Proof.
  induction table as [|o' table IH]; intros Ho; [discriminate|].
  cbn [Lmasm.find_opcode] in Ho.
  destruct (Lmasm.name o') as [nm|] eqn:Hname.
  - destruct (Lmasm.strcasecmp0 nm x) eqn:Hcmp.
    + injection Ho as <-. split; [left; reflexivity|]. exists nm. split; [exact Hname|].
      unfold Lmasm.strcasecmp0 in Hcmp. apply String.eqb_eq in Hcmp. exact Hcmp.
    + destruct (IH Ho) as [Hin Hnm]. split; [right; exact Hin|exact Hnm].
  - destruct (IH Ho) as [Hin Hnm]. split; [right; exact Hin|exact Hnm].
Qed.

(** X14. The lookup of a mnemonic does not see the case of letters: two
    spellings that differ only in case find the same entry of any table,
    or both none, and the entry found is an entry of the table whose name
    is the spelling up to case.  So [lda], [Lda] and [LDA] are the same
    instruction. *)
Theorem mnemonic_case (x y : string) (table : list Lmasm.lmasm_opcode) :
  Lmasm.lowered x = Lmasm.lowered y ->
  Lmasm.find_opcode x table = Lmasm.find_opcode y table
  /\ Lmasm.find_opcode (Lmasm.lowered x) table = Lmasm.find_opcode x table
  /\ (forall o, Lmasm.find_opcode x table = Some o ->
      In o table
      /\ exists nm, Lmasm.name o = Some nm
                    /\ Lmasm.lowered (Lmasm.c_str nm) = Lmasm.lowered (Lmasm.c_str x)).
Proof.
  intros Hxy. split; [exact (find_opcode_case x y table Hxy)|].
  split; [apply find_opcode_case, lowered_idem|].
  intros o. apply find_opcode_sound.
Qed.

(** ** More on the encoders *)

(** X15. [main] computes the limits as powers of ten.  For one to nine
    digits per mailbox no product of the loop leaves the range of [int],
    the largest address is [10 ^ (num_digits - 1) - 1] and the largest
    datum [10 ^ num_digits - 1], so that a datum has one digit more than
    an address: [max_dat = 10 * max_addr + 9].  From ten digits on the
    multiplication overflows [int], which is undefined. *)
Theorem configure_limits (digits : Z) :
  (1 <= digits <= 9 ->
   Lmasm.times_ten_checked (Z.to_nat digits) 1
   = Ok (Lmasm.times_ten (Z.to_nat digits) 1)
   /\ let conf := Lmasm.configure digits in
      Lmasm.num_digits conf = digits
      /\ Lmasm.max_addr conf = 10 ^ (digits - 1) - 1
      /\ Lmasm.max_dat conf = 10 ^ digits - 1
      /\ Lmasm.max_dat conf = 10 * Lmasm.max_addr conf + 9
      /\ Lmasm.max_dat conf <= INT_MAX)
  /\ (10 <= digits ->
      Lmasm.times_ten_checked (Z.to_nat digits) 1 = Undefined SignedOverflow).
Proof.
  split.
  - intros Hd.
    assert (H : digits = 1 \/ digits = 2 \/ digits = 3 \/ digits = 4 \/ digits = 5
                \/ digits = 6 \/ digits = 7 \/ digits = 8 \/ digits = 9) by lia.
    destruct H as [->|[->|[->|[->|[->|[->|[->|[->| ->]]]]]]]];
      repeat split; try reflexivity; vm_compute; congruence.
  - intros Hd.
    replace (Z.to_nat digits) with (10 + (Z.to_nat digits - 10))%nat by lia.
    reflexivity.
Qed.

(** X16. [encode_decimal] fills [buf[0 .. num_digits - 1]] with decimal
    digits and touches nothing behind them; read most significant first
    the digits write [n] modulo [10 ^ num_digits]: a number with more
    digits than asked for loses its high-order digits without notice. *)
Theorem encode_decimal_effect (buf : list Z) (n digits : Z) :
  0 <= digits <= Z.of_nat (length buf) ->
  0 <= n ->
  let r := Lmasm.encode_decimal buf n digits in
  length r = length buf
  /\ drop (Z.to_nat digits) r = drop (Z.to_nat digits) buf
  /\ Forall is_digit (take (Z.to_nat digits) r)
  /\ denotes (take (Z.to_nat digits) r) = n `mod` 10 ^ digits.
Proof.
  intros Hd Hn r. subst r. unfold Lmasm.encode_decimal.
  rewrite encode_decimal_from_spec by lia.
  assert (Hl : length (decimal (Z.to_nat digits) n) = Z.to_nat digits)
    by apply decimal_length.
  split; [rewrite length_app, length_drop, Hl; lia|].
  split; [rewrite drop_app_length' by (symmetry; exact Hl); reflexivity|].
  rewrite take_app_length' by (symmetry; exact Hl).
  split; [apply decimal_digits|].
  rewrite denotes_decimal, Z2Nat.id by lia. reflexivity.
Qed.

(** X17. A datum survives the trip through the image.  [lmasm_write_dat],
    for a value in [0, max_dat], appends exactly [num_digits] bytes, all
    decimal digits, that read most significant first write the value; and
    with three digits per mailbox the loader of the emulator puts the very
    value into the mailbox. *)
Theorem dat_round_trip (self : Lmasm.lmasm_opcode) (digits v : Z) (f : Lmasm.wfile) :
  let conf := Lmasm.configure digits in
  1 <= digits <= Z.of_nat Lmasm.MAX_NUM_DIGITS ->
  Lmasm.room f = None ->
  0 <= v <= Lmasm.max_dat conf ->
  exists ds,
    Lmasm.lmasm_write_dat self conf v f = (0, Lmasm.mk_wfile (Lmasm.written f ++ ds) None, [])
    /\ length ds = Z.to_nat digits
    /\ Forall is_digit ds
    /\ denotes ds = v
    /\ (digits = 3 ->
        Lmc.load ds 0 (Lmc.mailboxes Lmc.zeroed)
        = Ok (<[0%nat := v]> (Lmc.mailboxes Lmc.zeroed), 3)).
Proof.
  intros conf Hd Hr Hv. subst conf. rewrite configure_spec in * by lia.
  cbn [Lmasm.max_dat] in Hv.
  assert (Hden : denotes (decimal (Z.to_nat digits) v) = v).
  { rewrite denotes_decimal, Z2Nat.id by lia. apply Z.mod_small. lia. }
  exists (decimal (Z.to_nat digits) v).
  split; [rewrite write_dat_ok; [reflexivity|cbn; lia|exact Hr|cbn; lia]|].
  split; [apply decimal_length|]. split; [apply decimal_digits|].
  split; [exact Hden|].
  intros ->. pose proof (decimal_length (Z.to_nat 3) v) as Hl.
  destruct (decimal (Z.to_nat 3) v) as [|b0 [|b1 [|b2 [|? ?]]]]; try discriminate Hl.
  rewrite load_word, Hden. reflexivity.
Qed.

Lemma fput_all_room (ds : list Z) : forall (f : Lmasm.wfile) (k : nat),
  Lmasm.room f = Some k ->
  Forall is_digit ds ->
  Lmasm.fput_all ds f
  = if (length ds <=? k)%nat
    then (0, Lmasm.mk_wfile (Lmasm.written f ++ ds) (Some (k - length ds)%nat))
    else (Lmasm.EOF, Lmasm.mk_wfile (Lmasm.written f ++ take k ds) (Some O)).
Proof.
  induction ds as [|d ds IH]; intros [w r] k Hr Hds; cbn [Lmasm.room] in Hr; subst r.
  - cbn. rewrite app_nil_r, Nat.sub_0_r. reflexivity.
  - inversion Hds as [|? ? Hd Hrest]; subst. cbn [Lmasm.fput_all length].
    unfold Lmasm.fputc. cbn [Lmasm.room Lmasm.written].
    destruct k as [|k].
    + cbn. rewrite app_nil_r. reflexivity.
    + cbn [fmap option_fmap option_map Nat.pred]. unfold is_digit in Hd.
      rewrite (Z.mod_small d 256) by lia.
      destruct (Z.eqb_spec d Lmasm.EOF) as [E|_]; [unfold Lmasm.EOF in E; lia|].
      rewrite (IH (Lmasm.mk_wfile (w ++ [d]) (Some k)) k eq_refl Hrest). cbn [Lmasm.written].
      change (S (length ds) <=? S k)%nat with (length ds <=? k)%nat.
      rewrite <- !app_assoc. reflexivity.
Qed.

(** X18. Writing to a file that fills up.  When the output file accepts
    only [k] more bytes and a mailbox needs more, [lmasm_write_dat] and
    [lmasm_write_op] leave the first [k] bytes of the mailbox in the file,
    print nothing and return [EOF]; as [EOF] is -1 that is the value they
    return for an operand out of range. *)
Theorem write_to_full_file (self : Lmasm.lmasm_opcode) (conf : Lmasm.lmasm_conf)
    (v : Z) (f : Lmasm.wfile) (k : nat) :
  let nd := Z.to_nat (Lmasm.num_digits conf) in
  1 <= Lmasm.num_digits conf <= Z.of_nat Lmasm.MAX_NUM_DIGITS ->
  Lmasm.room f = Some k ->
  (k < nd)%nat ->
  is_digit (Lmasm.code self) ->
  (0 <= v <= Lmasm.max_dat conf ->
   Lmasm.lmasm_write_dat self conf v f
   = (-1, Lmasm.mk_wfile (Lmasm.written f ++ take k (decimal nd v)) (Some O), []))
  /\ (0 <= v <= Lmasm.max_addr conf ->
      Lmasm.lmasm_write_op self conf v f
      = (-1, Lmasm.mk_wfile
               (Lmasm.written f ++ take k (Lmasm.code self :: decimal (nd - 1) v))
               (Some O), [])).
Proof.
  intros nd Hnd Hr Hk Hcode. subst nd. split; intros Hv.
  - unfold Lmasm.lmasm_write_dat. rewrite (in_range 0 _ v Hv), slice_encoded by lia.
    rewrite drop_0, (fput_all_room _ f k Hr) by apply decimal_digits.
    rewrite decimal_length.
    destruct (Nat.leb_spec (Z.to_nat (Lmasm.num_digits conf)) k); [lia|reflexivity].
  - unfold Lmasm.lmasm_write_op. rewrite (in_range 0 _ v Hv).
    unfold Lmasm.fputc. rewrite Hr. destruct k as [|k].
    + cbn. destruct f as [w r]. cbn in *. rewrite app_nil_r, Hr. reflexivity.
    + cbn [fmap option_fmap option_map Nat.pred]. unfold is_digit in Hcode.
      rewrite (Z.mod_small _ 256) by lia.
      destruct (Z.eqb_spec (Lmasm.code self) Lmasm.EOF) as [E|_];
        [unfold Lmasm.EOF in E; lia|].
      rewrite slice_encoded by lia.
      replace (Z.to_nat (Lmasm.num_digits conf))
        with (S (Z.to_nat (Lmasm.num_digits conf) - 1)) at 1 by lia.
      rewrite decimal_tail.
      rewrite (fput_all_room _ (Lmasm.mk_wfile (Lmasm.written f ++ [Lmasm.code self]) (Some k))
                 k eq_refl) by apply decimal_digits.
      rewrite decimal_length. cbn [Lmasm.written].
      destruct (Nat.leb_spec (Z.to_nat (Lmasm.num_digits conf) - 1) k); [lia|].
      cbn [take]. rewrite <- app_assoc. reflexivity.
Qed.


(** ** Pass 1 *)

Lemma loop_step {St R : Type} (body : St -> St + R) (n : nat) (s s' : St) :
  body s = inl s' -> loop body (S n) s = loop body n s'.
Proof.
  intros H. cbn [loop]. rewrite H. reflexivity.
Qed.

Lemma label_char_plain (c : ascii) :
  Lmasm.islabel c = true ->
  Lmasm.isblank c = false /\ Lmasm.is_char Lmasm.NL c = false
  /\ Lmasm.is_char Lmasm.SLASH c = false.
Proof.
  destruct c as [[] [] [] [] [] [] [] []]; cbv; intros H;
    try discriminate H; repeat split.
Qed.

Lemma scan_rest_blank (bs rest : Lmasm.stream) (line : Z) :
  Forall blank bs ->
  Lmasm.scan_rest (bs ++ newline :: rest) line = (0, rest, [], false).
Proof.
  intros Hbs. induction Hbs as [|b bs Hb _ IH]; [reflexivity|].
  cbn [app Lmasm.scan_rest]. destruct (blank_inline b Hb) as [Hn Hs].
  unfold blank in Hb. rewrite Hn, Hs, Hb. exact IH.
Qed.

Lemma scan_rest_statement (bs text rest : Lmasm.stream) (line : Z) :
  Forall blank bs -> text_ok text ->
  Lmasm.scan_rest (bs ++ text ++ newline :: rest) line = (0, rest, [], true).
Proof.
  intros Hbs (c & t & -> & Hb & Hn & Hs & Ht).
  induction Hbs as [|b bs Hb' _ IH].
  - cbn [app Lmasm.scan_rest]. rewrite Hn, Hs, Hb. cbn [negb].
    rewrite (proj1 (finish_line_comment t rest line Ht)). reflexivity.
  - cbn [app Lmasm.scan_rest]. destruct (blank_inline b Hb') as [Hn' Hs'].
    unfold blank in Hb'. rewrite Hn', Hs', Hb'. exact IH.
Qed.

Lemma pass1_empty_step (ind rest : Lmasm.stream) (a ln : Z)
    (labs : list Lmasm.lmasm_label) (err : list event) :
  Forall blank ind ->
  Lmasm.pass1_body (between_lines (ind ++ newline :: rest) a ln labs err)
  = inl (between_lines rest a (ln + 1) labs err).
Proof.
  intros Hind. destruct Hind as [|b bs Hb Hbs]; [reflexivity|].
  unfold Lmasm.pass1_body, between_lines.
  cbn [app Lmasm.p1_input Lmasm.p1_line Lmasm.cur_addr Lmasm.labels_of
       Lmasm.label_buf_size Lmasm.label_block Lmasm.p1_err].
  destruct (blank_inline b Hb) as [Hn Hs]. unfold blank in Hb.
  rewrite Hn, Hs, Hb. cbn [negb].
  rewrite (scan_rest_blank bs rest _ Hbs). cbn. rewrite app_nil_r. reflexivity.
Qed.

Lemma pass1_statement_step (ind text rest : Lmasm.stream) (a ln : Z)
    (labs : list Lmasm.lmasm_label) (err : list event) :
  ind <> [] -> Forall blank ind -> text_ok text ->
  Lmasm.pass1_body (between_lines (ind ++ text ++ newline :: rest) a ln labs err)
  = inl (between_lines rest (a + 1) (ln + 1) labs err).
Proof.
  intros Hne Hind Ht. destruct Hind as [|b bs Hb Hbs]; [congruence|].
  unfold Lmasm.pass1_body, between_lines.
  cbn [app Lmasm.p1_input Lmasm.p1_line Lmasm.cur_addr Lmasm.labels_of
       Lmasm.label_buf_size Lmasm.label_block Lmasm.p1_err].
  destruct (blank_inline b Hb) as [Hn Hs]. unfold blank in Hb.
  rewrite Hn, Hs, Hb. cbn [negb].
  rewrite (scan_rest_statement bs text rest _ Hbs Ht). cbn. rewrite app_nil_r. reflexivity.
Qed.

Lemma pass1_comment_step (text rest : Lmasm.stream) (a ln : Z)
    (labs : list Lmasm.lmasm_label) (err : list event) :
  Forall inline text ->
  Lmasm.pass1_body (between_lines (slash :: slash :: text ++ newline :: rest) a ln labs err)
  = inl (between_lines rest a (ln + 1) labs err).
Proof.
  intros Ht. unfold Lmasm.pass1_body, between_lines.
  cbn [app Lmasm.p1_input Lmasm.p1_line Lmasm.cur_addr Lmasm.labels_of
       Lmasm.label_buf_size Lmasm.label_block Lmasm.p1_err].
  change (Lmasm.is_char Lmasm.NL slash) with false.
  change (Lmasm.is_char Lmasm.SLASH slash) with true. cbv beta iota.
  cbn [Lmasm.finish_line].
  change (Lmasm.is_char Lmasm.NL slash) with false.
  change (Lmasm.is_char Lmasm.SLASH slash) with true.
  change (Lmasm.isblank slash) with false. cbn [negb andb].
  rewrite (proj1 (finish_line_comment text rest _ Ht)). cbn. rewrite app_nil_r. reflexivity.
Qed.

Lemma pass1_label_step (x : ascii * string) (rest : Lmasm.stream) (a ln : Z)
    (labs : list Lmasm.lmasm_label) (err : list event) :
  label_ok x ->
  Lmasm.at_char Lmasm.islabel (fst (Lmasm.fgetc rest)) = false ->
  (length labs < 31)%nat ->
  Lmasm.pass1_body (between_lines (label_text x ++ rest) a ln labs err)
  = inl (between_lines rest a (ln + 1) (labs ++ [Lmasm.mk_label (label_string x) a]) err).
Proof.
  intros (Hch & Hdig & Hnm & Hlen) Hrest Hroom. destruct x as [ch nm].
  unfold label_text, label_string in *. cbn [fst snd] in *.
  unfold Lmasm.pass1_body, between_lines.
  cbn [app Lmasm.p1_input Lmasm.p1_line Lmasm.cur_addr Lmasm.labels_of
       Lmasm.label_buf_size Lmasm.label_block Lmasm.p1_err].
  destruct (label_char_plain ch Hch) as (Hb & Hn & Hs). rewrite Hn, Hs, Hb. cbn [negb].
  replace (Z.of_nat (length labs) + 1 >=? 32) with false
    by (symmetry; rewrite Z.geb_leb; apply Z.leb_gt; lia).
  replace ((Z.of_nat (length labs) + 1) * Lmasm.sizeof_label >? 32 * Lmasm.sizeof_label)
    with false
    by (symmetry; rewrite Z.gtb_ltb; apply Z.ltb_ge; unfold Lmasm.sizeof_label; lia).
  rewrite (parse_label_reads ch nm rest _ Hlen Hch Hdig Hnm Hrest).
  cbn. rewrite app_nil_r. reflexivity.
Qed.

Lemma blank_not_label (b : ascii) (s : Lmasm.stream) :
  blank b -> Lmasm.at_char Lmasm.islabel (fst (Lmasm.fgetc (b :: s))) = false.
Proof.
  intros Hb. cbn. destruct (Lmasm.islabel b) eqn:E; [|reflexivity].
  destruct (label_char_plain b E) as [Hn _]. unfold blank in Hb. congruence.
Qed.

Lemma pass1_line (l : src_line) (rest : Lmasm.stream) (a ln : Z)
    (labs : list Lmasm.lmasm_label) (err : list event) (n : nat) :
  line_ok l ->
  (length labs + labels_in [l] <= 31)%nat ->
  loop Lmasm.pass1_body (Z.to_nat (turns l) + n)
    (between_lines (render l ++ rest) a ln labs err)
  = loop Lmasm.pass1_body n
      (between_lines rest (a + allocates l) (ln + turns l)
         (labs ++ table_from a [l]) err).
Proof.
  intros Hok Hroom.
  destruct l as [[x|] ind text|x|ind|text]; cbn [render allocates turns defines table_from app];
    cbn [labels_in defines] in Hroom; cbn [line_ok] in Hok;
    rewrite ?app_nil_r, ?Z.add_0_r.
  - destruct Hok as (Hx & Hne & Hind & Ht).
    change (Z.to_nat 2 + n)%nat with (S (S n)).
    rewrite <- !app_assoc. cbn [app].
    assert (Hnext : Lmasm.at_char Lmasm.islabel
                      (fst (Lmasm.fgetc (ind ++ text ++ newline :: rest))) = false).
    { destruct Hind as [|b bs Hb Hbs]; [congruence|]. cbn [app].
      apply blank_not_label. exact Hb. }
    rewrite (loop_step _ _ _ _ (pass1_label_step x _ a ln labs err Hx Hnext ltac:(lia))).
    rewrite (loop_step _ _ _ _ (pass1_statement_step ind text rest a _ _ err Hne Hind Ht)).
    replace (ln + 1 + 1) with (ln + 2) by lia. reflexivity.
  - destruct Hok as (_ & Hne & Hind & Ht).
    change (Z.to_nat 1 + n)%nat with (S n).
    rewrite <- !app_assoc. cbn [app].
    rewrite (loop_step _ _ _ _ (pass1_statement_step ind text rest a ln labs err Hne Hind Ht)).
    reflexivity.
  - change (Z.to_nat 2 + n)%nat with (S (S n)).
    rewrite <- !app_assoc. cbn [app].
    assert (Hnext : Lmasm.at_char Lmasm.islabel (fst (Lmasm.fgetc (newline :: rest))) = false)
      by reflexivity.
    rewrite (loop_step _ _ _ _ (pass1_label_step x _ a ln labs err Hok Hnext ltac:(lia))).
    rewrite (loop_step _ _ _ _ (pass1_empty_step [] rest a _ _ err (Forall_nil _))).
    replace (ln + 1 + 1) with (ln + 2) by lia. reflexivity.
  - change (Z.to_nat 1 + n)%nat with (S n).
    rewrite <- !app_assoc. cbn [app].
    rewrite (loop_step _ _ _ _ (pass1_empty_step ind rest a ln labs err Hok)).
    reflexivity.
  - change (Z.to_nat 1 + n)%nat with (S n).
    cbn [app]. rewrite <- !app_assoc. cbn [app].
    rewrite (loop_step _ _ _ _ (pass1_comment_step text rest a ln labs err Hok)).
    reflexivity.
Qed.

Lemma turned_nonneg (ls : list src_line) : 0 <= turned ls.
Proof.
  induction ls as [|l ls IH]; [cbn; lia|].
  cbn [turned]. unfold turns. destruct (defines l); lia.
Qed.

Lemma pass1_lines (ls : list src_line) : forall (rest : Lmasm.stream) (a ln : Z)
    (labs : list Lmasm.lmasm_label) (err : list event) (n : nat),
  Forall line_ok ls ->
  (length labs + labels_in ls <= 31)%nat ->
  loop Lmasm.pass1_body (Z.to_nat (turned ls) + n)
    (between_lines (source_text ls ++ rest) a ln labs err)
  = loop Lmasm.pass1_body n
      (between_lines rest (a + allocated ls) (ln + turned ls) (labs ++ table_from a ls) err).
Proof.
  induction ls as [|l ls IH]; intros rest a ln labs err n Hok Hroom.
  - cbn. rewrite app_nil_r, !Z.add_0_r. reflexivity.
  - inversion Hok as [|? ? Hl Hls]; subst.
    unfold source_text. cbn [map concat]. fold (source_text ls).
    cbn [turned allocated table_from labels_in] in *.
    pose proof (turned_nonneg ls) as Hpos.
    assert (Ht : 0 <= turns l) by (unfold turns; destruct (defines l); lia).
    rewrite Z2Nat.inj_add by lia. rewrite <- Nat.add_assoc, <- app_assoc.
    rewrite (pass1_line l (source_text ls ++ rest) a ln labs err _ Hl)
      by (cbn [labels_in]; lia).
    cbn [table_from]. rewrite app_nil_r.
    rewrite IH; [|exact Hls|rewrite length_app; destruct (defines l); cbn [length] in *; lia].
    rewrite <- app_assoc, !Z.add_assoc. reflexivity.
Qed.

Lemma table_length (ls : list src_line) : forall a, length (table_from a ls) = labels_in ls.
Proof.
  induction ls as [|l ls IH]; intros a; [reflexivity|].
  cbn [table_from labels_in]. rewrite length_app, IH. destruct (defines l); reflexivity.
Qed.

Lemma pass1_full_table (c : ascii) (r : Lmasm.stream) (a ln : Z)
    (labs : list Lmasm.lmasm_label) (err : list event) :
  Lmasm.is_char Lmasm.NL c = false ->
  Lmasm.is_char Lmasm.SLASH c = false ->
  Lmasm.isblank c = false ->
  length labs = 31%nat ->
  Lmasm.pass1_body (between_lines (c :: r) a ln labs err)
  = inr (Undefined (LabelStore 32)).
Proof.
  intros Hn Hs Hb Hlen. unfold Lmasm.pass1_body, between_lines.
  cbn [Lmasm.p1_input Lmasm.p1_line Lmasm.cur_addr Lmasm.labels_of
       Lmasm.label_buf_size Lmasm.label_block Lmasm.p1_err].
  rewrite Hn, Hs, Hb, Hlen. reflexivity.
Qed.

Lemma pass1_stray_step (c : ascii) (r : Lmasm.stream) (a ln : Z)
    (labs : list Lmasm.lmasm_label) (err : list event) :
  Lmasm.is_char Lmasm.NL c = false ->
  Lmasm.is_char Lmasm.SLASH c = false ->
  Lmasm.isblank c = false ->
  Lmasm.islabel c = false ->
  (length labs < 31)%nat ->
  Lmasm.pass1_body (between_lines (c :: r) a ln labs err)
  = inl (between_lines (c :: r) a (ln + 1) (labs ++ [Lmasm.mk_label EmptyString a]) err).
Proof.
  intros Hn Hs Hb Hl Hlen. unfold Lmasm.pass1_body, between_lines.
  cbn [Lmasm.p1_input Lmasm.p1_line Lmasm.cur_addr Lmasm.labels_of
       Lmasm.label_buf_size Lmasm.label_block Lmasm.p1_err].
  rewrite Hn, Hs, Hb. cbn [negb].
  replace (Z.of_nat (length labs) + 1 >=? 32) with false
    by (symmetry; rewrite Z.geb_leb; apply Z.leb_gt; lia).
  replace ((Z.of_nat (length labs) + 1) * Lmasm.sizeof_label >? 32 * Lmasm.sizeof_label)
    with false
    by (symmetry; rewrite Z.gtb_ltb; apply Z.ltb_ge; unfold Lmasm.sizeof_label; lia).
  assert (Hd : Lmasm.isdigit c = false).
  { unfold Lmasm.islabel in Hl. apply orb_false_iff in Hl. destruct Hl as [Hl _].
    apply orb_false_iff in Hl. apply Hl. }
  unfold Lmasm.parse_label. cbn [Lmasm.fgetc Lmasm.at_char]. rewrite Hd.
  unfold Lmasm.MAX_LABEL_LEN. cbn [Lmasm.label_chars]. rewrite Hl.
  cbn. rewrite app_nil_r. reflexivity.
Qed.

Lemma pass1_stray_loop (c : ascii) (r : Lmasm.stream) (a : Z) (err : list event) (k : nat) :
  Lmasm.is_char Lmasm.NL c = false ->
  Lmasm.is_char Lmasm.SLASH c = false ->
  Lmasm.isblank c = false ->
  Lmasm.islabel c = false ->
  forall (labs : list Lmasm.lmasm_label) (ln : Z) (n : nat),
    (length labs + k = 31)%nat ->
    loop Lmasm.pass1_body (S k + n) (between_lines (c :: r) a ln labs err)
    = Some (Undefined (LabelStore 32)).
Proof.
  intros Hn Hs Hb Hl. induction k as [|k IH]; intros labs ln n Hlen.
  - cbn [Nat.add loop]. rewrite pass1_full_table by (try assumption; lia). reflexivity.
  - change (S (S k) + n)%nat with (S (S k + n)).
    rewrite (loop_step _ _ _ _ (pass1_stray_step c r a ln labs err Hn Hs Hb Hl ltac:(lia))).
    apply IH. rewrite length_app. cbn [length]. lia.
Qed.

Lemma pass1_whole (ls : list src_line) (fuel : nat) :
  Forall line_ok ls ->
  (labels_in ls <= 31)%nat ->
  turned ls < Z.of_nat fuel ->
  loop Lmasm.pass1_body fuel (Lmasm.pass1_start (source_text ls))
  = Some (Ok (0, between_lines [] (allocated ls) (turned ls) (table_from 0 ls) [])).
Proof.
  intros Hok Hroom Hfuel.
  pose proof (turned_nonneg ls) as Hpos.
  replace fuel with (Z.to_nat (turned ls) + S (fuel - Z.to_nat (turned ls) - 1))%nat by lia.
  change (Lmasm.pass1_start (source_text ls)) with (between_lines (source_text ls) 0 0 [] []).
  rewrite <- (app_nil_r (source_text ls)).
  rewrite (pass1_lines ls [] 0 0 [] [] _ Hok) by (cbn [length]; lia).
  reflexivity.
Qed.

(** X19. What pass 1 makes of a well-formed source.  When every line is a
    statement after at least one blank, with or without a label in front,
    a label alone, a line of blanks or a comment, each closed by a newline,
    and at most 31 labels are defined, pass 1 reads the whole source
    without a message and without touching the size of the table.  It
    counts one mailbox per statement, whatever the text of the statement,
    and enters each label, in order, with the number of statements before
    it.  The line counter ends at the number of turns of the loop, which is
    two, not one, for a line that starts with a label. *)
Theorem pass1_allocates (ls : list src_line) (fuel : nat) :
  Forall line_ok ls ->
  (labels_in ls <= 31)%nat ->
  turned ls < Z.of_nat fuel ->
  loop Lmasm.pass1_body fuel (Lmasm.pass1_start (source_text ls))
  = Some (Ok (0, between_lines [] (allocated ls) (turned ls) (table_from 0 ls) [])).
Proof.
  exact (pass1_whole ls fuel).
Qed.


(** X20. The table of labels has room for 31.  [main] allocates the table
    for 32 entries of [sizeof (struct lmasm_label)] bytes and, when the
    count reaches 32, resizes it to 64 times the size of a pointer, which is
    less than it had.  So in a source whose first lines are well formed
    and define 31 labels, the next line that starts in the first column
    with anything but a blank, a newline or a slash makes pass 1 write the
    32nd entry past the end of the block, and the run of the program is
    undefined from there, before any output file is opened. *)
Theorem thirty_second_label (ls : list src_line) (c : ascii) (r : Lmasm.stream)
    (prog inp outp : string) (fs : Lmasm.files) (fuel : nat) :
  Forall line_ok ls ->
  labels_in ls = 31%nat ->
  Lmasm.is_char Lmasm.NL c = false ->
  Lmasm.is_char Lmasm.SLASH c = false ->
  Lmasm.isblank c = false ->
  Lmasm.fopen_r fs inp = Some (source_text ls ++ c :: r) ->
  turned ls < Z.of_nat fuel ->
  Lmasm.main fuel [prog; inp; outp] fs = Some (Undefined (LabelStore 32)).
Proof.
  intros Hok Hlabs Hn Hs Hb Hfs Hfuel.
  pose proof (turned_nonneg ls) as Hpos.
  unfold Lmasm.main. rewrite Hfs. unfold Lmasm.pass1_run.
  replace fuel with (Z.to_nat (turned ls) + S (fuel - Z.to_nat (turned ls) - 1))%nat by lia.
  change (Lmasm.pass1_start (source_text ls ++ c :: r))
    with (between_lines (source_text ls ++ c :: r) 0 0 [] []).
  rewrite (pass1_lines ls (c :: r) 0 0 [] [] _ Hok) by (cbn [length]; lia).
  cbn [loop app]. rewrite pass1_full_table; try assumption; [reflexivity|].
  rewrite table_length. exact Hlabs.
Qed.

(** X21. A stray character in the first column.  Pass 1 takes any
    character in the first column that is not a blank, a newline or a
    slash for the start of a label.  When that character cannot be part of
    a label ([:], [;], [#], a carriage return ...), [parse_label] reads an
    empty name, pushes the character back and reports success, so the loop
    meets the same character again on its next turn.  After a well-formed
    part with at most 31 labels, each turn adds an empty label at the
    current address and counts a line, and nothing is consumed, until the
    32nd entry is written past the end of the table. *)
Theorem stray_character_loops (ls : list src_line) (c : ascii) (r : Lmasm.stream)
    (prog inp outp : string) (fs : Lmasm.files) (fuel : nat) :
  Forall line_ok ls ->
  (labels_in ls <= 31)%nat ->
  Lmasm.is_char Lmasm.NL c = false ->
  Lmasm.is_char Lmasm.SLASH c = false ->
  Lmasm.isblank c = false ->
  Lmasm.islabel c = false ->
  Lmasm.fopen_r fs inp = Some (source_text ls ++ c :: r) ->
  turned ls + 32 - Z.of_nat (labels_in ls) <= Z.of_nat fuel ->
  (forall labs a ln err, (length labs < 31)%nat ->
     Lmasm.pass1_body (between_lines (c :: r) a ln labs err)
     = inl (between_lines (c :: r) a (ln + 1) (labs ++ [Lmasm.mk_label EmptyString a]) err))
  /\ Lmasm.main fuel [prog; inp; outp] fs = Some (Undefined (LabelStore 32)).
Proof.
  intros Hok Hlabs Hn Hs Hb Hl Hfs Hfuel.
  split; [intros labs a ln err Hlen; apply pass1_stray_step; assumption|].
  pose proof (turned_nonneg ls) as Hpos.
  unfold Lmasm.main. rewrite Hfs. unfold Lmasm.pass1_run.
  replace fuel
    with (Z.to_nat (turned ls)
          + (S (31 - labels_in ls) + (fuel - Z.to_nat (turned ls) - (32 - labels_in ls))))%nat
    by lia.
  change (Lmasm.pass1_start (source_text ls ++ c :: r))
    with (between_lines (source_text ls ++ c :: r) 0 0 [] []).
  rewrite (pass1_lines ls (c :: r) 0 0 [] [] _ Hok) by (cbn [length]; lia).
  rewrite (pass1_stray_loop c r _ [] (31 - labels_in ls) Hn Hs Hb Hl);
    [reflexivity|].
  cbn [app]. rewrite table_length. lia.
Qed.


(** ** Pass 2 *)

Lemma skip_while_stop (p : ascii -> bool) (b : ascii) (s : Lmasm.stream) :
  p b = false -> Lmasm.skip_while p s (Some b) = (Some b, s).
Proof.
  intros H. destruct s; cbn; rewrite H; reflexivity.
Qed.

Lemma skip_while_run (p : ascii -> bool) (cs : list ascii) :
  forall (c0 b : ascii) (s : Lmasm.stream),
    p c0 = true -> Forall (fun c => p c = true) cs -> p b = false ->
    Lmasm.skip_while p (cs ++ b :: s) (Some c0) = (Some b, s).
Proof.
  induction cs as [|c cs IH]; intros c0 b s H0 Hcs Hb.
  - cbn [app Lmasm.skip_while Lmasm.at_char]. rewrite H0. apply skip_while_stop. exact Hb.
  - inversion Hcs; subst. cbn [app Lmasm.skip_while Lmasm.at_char]. rewrite H0.
    apply IH; assumption.
Qed.

Lemma next_non_blank_skips (bs : list ascii) (c : ascii) (s : Lmasm.stream) :
  Forall blank bs -> Lmasm.isblank c = false ->
  Lmasm.next_non_blank (bs ++ c :: s) = (Some c, s).
Proof.
  intros Hbs Hc. induction Hbs as [|b bs Hb _ IH].
  - cbn [app Lmasm.next_non_blank]. rewrite Hc. reflexivity.
  - cbn [app Lmasm.next_non_blank]. unfold blank in Hb. rewrite Hb. exact IH.
Qed.

Lemma finish_line_closing (blanks : list ascii) (rem : option (list ascii))
    (rest : Lmasm.stream) (ln : Z) :
  Forall blank blanks ->
  match rem with Some body => Forall inline body | None => True end ->
  Lmasm.finish_line (blanks ++ remark_chars rem ++ newline :: rest) false ln
  = (0, rest, []).
Proof.
  intros Hbs Hrem. induction Hbs as [|b bs Hb _ IH].
  - destruct rem as [body|]; [|reflexivity].
    cbn [app remark_chars Lmasm.finish_line].
    change (Lmasm.is_char Lmasm.NL slash) with false.
    change (Lmasm.is_char Lmasm.SLASH slash) with true.
    change (Lmasm.isblank slash) with false. cbn [negb andb].
    exact (proj1 (finish_line_comment body rest ln Hrem)).
  - cbn [app Lmasm.finish_line]. destruct (blank_inline b Hb) as [Hn _].
    unfold blank in Hb. rewrite Hn, Hb. cbn [negb andb]. exact IH.
Qed.

(** What follows an operand is the end of the line, or starts with a
    blank or a slash. *)
Lemma closing_head (blanks : list ascii) (rem : option (list ascii)) (rest : Lmasm.stream) :
  Forall blank blanks ->
  (blanks = [] /\ rem = None)
  \/ exists z Z, blanks ++ remark_chars rem ++ newline :: rest = z :: Z
                 /\ Lmasm.is_char Lmasm.NL z = false
                 /\ Lmasm.islabel z = false
                 /\ (blank z \/ z = slash).
Proof.
  intros Hbs. destruct Hbs as [|b bs Hb Hbs].
  - destruct rem as [body|]; [right|left; split; reflexivity].
    exists slash, (slash :: body ++ newline :: rest). repeat split. right. reflexivity.
  - right. exists b, (bs ++ remark_chars rem ++ newline :: rest).
    destruct (blank_inline b Hb) as [Hn _]. repeat split; try assumption.
    + destruct (Lmasm.islabel b) eqn:E; [|reflexivity].
      destruct (label_char_plain b E) as [Hnb _]. unfold blank in Hb. congruence.
    + left. exact Hb.
Qed.

Lemma not_label_not_digit (c : ascii) : Lmasm.islabel c = false -> Lmasm.isdigit c = false.
Proof.
  unfold Lmasm.islabel. intros H. apply orb_false_iff in H. destruct H as [H _].
  apply orb_false_iff in H. apply H.
Qed.

Lemma digit_is_label (d : Z) :
  is_digit d -> Lmasm.islabel (digit_char d) = true /\ Lmasm.isblank (digit_char d) = false.
Proof.
  intros Hd. destruct (digit_char_spec d Hd) as [Hisd _].
  assert (Hl : Lmasm.islabel (digit_char d) = true).
  { unfold Lmasm.islabel. rewrite Hisd, orb_true_r. reflexivity. }
  split; [exact Hl|]. apply label_char_plain. exact Hl.
Qed.

Lemma parse_addr_literal (d0 : Z) (ds : list Z) (blanks : list ascii)
    (rem : option (list ascii)) (rest : Lmasm.stream)
    (labels : list Lmasm.lmasm_label) (ln : Z) :
  Forall is_digit (d0 :: ds) ->
  denotes (d0 :: ds) <= INT_MAX ->
  Forall blank blanks ->
  match rem with Some body => Forall inline body | None => True end ->
  Lmasm.parse_addr
    (map digit_char (d0 :: ds) ++ blanks ++ remark_chars rem ++ newline :: rest) labels ln
  = Ok (denotes (d0 :: ds), rest, []).
Proof.
  intros Hds Hmax Hbs Hrem.
  inversion Hds as [|? ? Hd0 Hrest]; subst.
  destruct (digit_char_spec d0 Hd0) as [Hisd Hval].
  assert (Hden : denotes (d0 :: ds) = fold_left (fun v d => v * 10 + d) ds d0)
    by reflexivity.
  rewrite Hden in *. unfold is_digit in Hd0.
  unfold Lmasm.parse_addr. cbn [map app Lmasm.fgetc]. rewrite Hisd, Hval.
  destruct (closing_head blanks rem rest Hbs) as [[-> ->]|(z & Z & E & Hn & Hl & _)].
  - cbn [app remark_chars].
    rewrite more_digits_reads; [reflexivity|assumption|lia|assumption|reflexivity].
  - pose proof (finish_line_closing blanks rem rest ln Hbs Hrem) as Hfin.
    rewrite E in *.
    rewrite more_digits_reads;
      [|assumption|lia|assumption|cbn; apply not_label_not_digit; exact Hl].
    cbn [mbind outcome_bind fst snd Lmasm.fgetc Lmasm.at_char Lmasm.ungetc].
    rewrite Hl, Hn, Hfin. reflexivity.
Qed.

Lemma parse_addr_reference (x : ascii * string) (blanks : list ascii)
    (rem : option (list ascii)) (rest : Lmasm.stream)
    (labels : list Lmasm.lmasm_label) (ln v : Z) :
  label_ok x ->
  Lmasm.find_label (label_string x) labels = Some v ->
  Forall blank blanks ->
  match rem with Some body => Forall inline body | None => True end ->
  Lmasm.parse_addr (label_text x ++ blanks ++ remark_chars rem ++ newline :: rest) labels ln
  = Ok (v, rest, []).
Proof.
  intros (Hch & Hdig & Hnm & Hlen) Hfind Hbs Hrem. destruct x as [ch nm].
  unfold label_text, label_string in *. cbn [fst snd app] in *.
  rewrite parse_addr_label; try assumption.
  - rewrite Hfind, (finish_line_closing blanks rem rest ln Hbs Hrem). reflexivity.
  - destruct (closing_head blanks rem rest Hbs) as [[-> ->]|(z & Z & E & _ & Hl & _)].
    + reflexivity.
    + rewrite E. cbn. exact Hl.
Qed.


Lemma operand_head (i : instr) (rest : Lmasm.stream) :
  instr_ok i ->
  exists y Y,
    operand_chars (operand_of i) ++ pad i ++ remark_chars (remark i) ++ newline :: rest
    = y :: Y
    /\ Lmasm.isblank y = false
    /\ (gap i = [] -> y = newline).
Proof.
  intros (_ & _ & _ & Hshape).
  destruct (operand_of i) as [|d0 ds|[ch nm]]; cbn [operand_chars map app label_text fst snd].
  - destruct Hshape as [-> Hgap]. destruct (remark i) as [body|]; cbn [remark_chars app].
    + eexists _, _. split; [reflexivity|]. split; [reflexivity|].
      intros E. specialize (Hgap E). discriminate Hgap.
    + eexists _, _. split; [reflexivity|]. split; reflexivity.
  - destruct Hshape as (Hgap & Hds & _). inversion Hds; subst.
    eexists _, _. split; [reflexivity|]. split; [apply digit_is_label; assumption|].
    intros E. contradiction.
  - destruct Hshape as (Hgap & Hch & _). cbn [fst] in Hch.
    eexists _, _. split; [reflexivity|]. split; [apply label_char_plain; exact Hch|].
    intros E. contradiction.
Qed.

Lemma operand_reads (af : Lmasm.lmasm_arg_format) (i : instr) (rest : Lmasm.stream)
    (labels : list Lmasm.lmasm_label) (ln v : Z) (y : ascii) (Y : Lmasm.stream) :
  instr_ok i ->
  takes af (operand_of i) = true ->
  value labels (operand_of i) = Some v ->
  v <> -1 ->
  operand_chars (operand_of i) ++ pad i ++ remark_chars (remark i) ++ newline :: rest
  = y :: Y ->
  Lmasm.operand af (Some y) (y :: Y) labels ln = Ok (Some v, rest, []).
Proof.
  intros (_ & Hpad & Hrem & Hshape) Htakes Hval Hv E.
  assert (Hv' : (v =? -1) = false) by (apply Z.eqb_neq; exact Hv).
  unfold Lmasm.operand. cbv zeta.
  destruct (operand_of i) as [|d0 ds|x];
    cbn [operand_chars value app] in *.
  - destruct Hshape as [Hp _]. rewrite Hp in *. injection Hval as <-.
    pose proof (finish_line_closing [] (remark i) rest ln (Forall_nil _) Hrem) as Hfin.
    cbn [app] in *. rewrite E in Hfin.
    assert (Hy : negb (Lmasm.islabel y) = true).
    { destruct (remark i); cbn [remark_chars app] in E; injection E as <- _; reflexivity. }
    destruct af; try discriminate Htakes; rewrite ?Hy, Hfin; reflexivity.
  - destruct Hshape as (_ & Hds & Hmax).
    pose proof (parse_addr_literal d0 ds (pad i) (remark i) rest labels ln Hds Hmax Hpad Hrem)
      as Hparse.
    rewrite E in Hparse. cbn [map app] in E. injection E as <- _.
    inversion Hds as [|? ? Hd0 _]; subst.
    destruct (digit_is_label d0 Hd0) as [Hl _].
    injection Hval as <-.
    destruct af; try discriminate Htakes; rewrite ?Hl; cbn [negb]; rewrite Hparse;
      cbn [mbind outcome_bind]; rewrite Hv'; reflexivity.
  - destruct Hshape as (_ & Hx).
    pose proof (parse_addr_reference x (pad i) (remark i) rest labels ln v Hx Hval Hpad Hrem)
      as Hparse.
    rewrite E in Hparse. destruct x as [ch nm]. destruct Hx as (Hl & _).
    cbn [label_text fst snd app] in *. injection E as <- _.
    destruct af; try discriminate Htakes; rewrite ?Hl; cbn [negb]; rewrite Hparse;
      cbn [mbind outcome_bind]; rewrite Hv'; reflexivity.
Qed.


Lemma decimal_word (c v : Z) :
  0 <= c <= 9 -> 0 <= v <= 99 -> decimal 3 (c * 100 + v) = c :: decimal 2 v.
Proof.
  intros Hc Hv. cbn [decimal app].
  assert (E1 : (c * 100 + v) `mod` 10 = v `mod` 10).
  { replace (c * 100 + v) with (v + c * 10 * 10) by lia. apply Z.mod_add. lia. }
  assert (E2 : (c * 100 + v) / 10 = c * 10 + v / 10).
  { replace (c * 100 + v) with (c * 10 * 10 + v) by lia. apply Z.div_add_l. lia. }
  assert (E3 : (c * 10 + v / 10) `mod` 10 = (v / 10) `mod` 10).
  { rewrite Z.add_comm. apply Z.mod_add. lia. }
  assert (E4 : (c * 10 + v / 10) / 10 = c).
  { rewrite Z.div_add_l by lia. rewrite (Z.div_small (v / 10) 10); [lia|].
    split; [apply Z.div_pos; lia|apply Z.div_lt_upper_bound; lia]. }
  rewrite E1, E2, E3, E4. rewrite (Z.mod_small c 10) by lia. reflexivity.
Qed.

Lemma call_write_word (o : Lmasm.lmasm_opcode) (v : Z) (f : Lmasm.wfile) :
  In o Lmasm.OPCODES ->
  fits o v = true ->
  Lmasm.room f = None ->
  Lmasm.call_write o (Lmasm.configure 3) v f
  = Ok (0, Lmasm.mk_wfile (Lmasm.written f ++ decimal 3 (word o v)) None, []).
Proof.
  intros Hin Hfits Hr.
  change (Lmasm.configure 3) with (Lmasm.mk_conf 3 99 999).
  assert (Hop : forall self a, is_digit (Lmasm.code self) -> 0 <= a <= 99 ->
            Lmasm.lmasm_write_op self (Lmasm.mk_conf 3 99 999) a f
            = (0, Lmasm.mk_wfile (Lmasm.written f ++ decimal 3 (Lmasm.code self * 100 + a))
                    None, [])).
  { intros self a Hc Ha.
    rewrite write_op_ok;
      [|unfold Lmasm.MAX_NUM_DIGITS; cbn; lia|exact Hr|exact Hc|cbn; lia].
    rewrite decimal_word by assumption. reflexivity. }
  unfold Lmasm.OPCODES in Hin. cbn [In] in Hin.
  repeat (destruct Hin as [<-|Hin]); try contradiction;
    unfold fits, word, Lmasm.call_write in *; cbn [Lmasm.write Lmasm.code] in *;
    try (apply andb_true_iff in Hfits; destruct Hfits as [H0 H1];
         apply Z.leb_le in H0; apply Z.leb_le in H1).
  1: { rewrite write_dat_ok;
         [reflexivity|unfold Lmasm.MAX_NUM_DIGITS; cbn; lia|exact Hr|cbn; lia]. }
  all: try (rewrite Hop; [reflexivity|unfold is_digit; cbn; lia|lia]).
  all: unfold Lmasm.lmasm_write_io; cbn [Lmasm.code];
    rewrite Hop; [reflexivity|unfold is_digit; cbn; lia|lia].
Qed.

Lemma blank_is_space (b : ascii) : blank b -> Lmasm.isspace b = true.
Proof.
  unfold blank, Lmasm.isblank, Lmasm.isspace, Lmasm.is_char. intros H.
  apply orb_true_iff in H. destruct H as [H|H]; apply Z.eqb_eq in H; rewrite H; reflexivity.
Qed.

Lemma after_mnemonic (i : instr) (rest : Lmasm.stream) (y : ascii) (Y : Lmasm.stream) :
  instr_ok i ->
  Lmasm.isblank y = false ->
  (gap i = [] -> y = newline) ->
  exists c3 s3,
    gap i ++ y :: Y = c3 :: s3
    /\ Lmasm.isspace c3 = true
    /\ Lmasm.next_non_blank (c3 :: s3) = (Some y, Y).
Proof.
  intros (Hgap & _) Hy Hnl. destruct (gap i) as [|b bs] eqn:E.
  - rewrite (Hnl eq_refl) in *. exists newline, Y. repeat split.
  - exists b, (bs ++ y :: Y). split; [reflexivity|].
    split; [apply blank_is_space; inversion Hgap; assumption|].
    exact (next_non_blank_skips (b :: bs) y Y Hgap Hy).
Qed.

Lemma pass2_front (lbl : option (ascii * string)) (ind : list ascii) (m : ascii)
    (X : Lmasm.stream) :
  match lbl with Some x => label_ok x | None => True end ->
  ind <> [] -> Forall blank ind -> Lmasm.isblank m = false ->
  exists c r,
    match lbl with Some x => label_text x | None => [] end ++ ind ++ m :: X = c :: r
    /\ Lmasm.is_char Lmasm.NL c = false
    /\ Lmasm.is_char Lmasm.SLASH c = false
    /\ (let (c1, s1) := Lmasm.skip_while Lmasm.islabel r (Some c) in
        Lmasm.skip_while Lmasm.isblank s1 c1) = (Some m, X).
Proof.
  intros Hlbl Hne Hind Hm. destruct Hind as [|b bs Hb Hbs]; [congruence|].
  assert (Hbl : Lmasm.islabel b = false).
  { destruct (Lmasm.islabel b) eqn:E; [|reflexivity].
    destruct (label_char_plain b E) as [Hnb _]. unfold blank in Hb. congruence. }
  destruct (blank_inline b Hb) as [Hbn Hbs'].
  destruct lbl as [[ch nm]|].
  - destruct Hlbl as (Hch & _ & Hnm & _). cbn [fst snd] in *.
    destruct (label_char_plain ch Hch) as (_ & Hn & Hs).
    exists ch, (list_ascii_of_string nm ++ b :: bs ++ m :: X).
    split; [reflexivity|]. split; [exact Hn|]. split; [exact Hs|].
    rewrite (skip_while_run Lmasm.islabel _ ch b _ Hch Hnm Hbl).
    apply skip_while_run; assumption.
  - exists b, (bs ++ m :: X).
    split; [reflexivity|]. split; [exact Hbn|]. split; [exact Hbs'|].
    rewrite (skip_while_stop Lmasm.islabel b _ Hbl).
    apply skip_while_run; assumption.
Qed.


Lemma fits_not_minus_one (o : Lmasm.lmasm_opcode) (i : instr)
    (labels : list Lmasm.lmasm_label) (v : Z) :
  In o Lmasm.OPCODES ->
  takes (Lmasm.arg_format o) (operand_of i) = true ->
  value labels (operand_of i) = Some v ->
  fits o v = true ->
  v <> -1.
Proof.
  intros Hin Htakes Hval Hfits.
  unfold Lmasm.OPCODES in Hin. cbn [In] in Hin.
  repeat (destruct Hin as [<-|Hin]); try contradiction;
    unfold fits in Hfits; cbn [Lmasm.write Lmasm.arg_format] in *;
    try (apply andb_true_iff in Hfits; destruct Hfits as [H0 _]; apply Z.leb_le in H0; lia);
    destruct (operand_of i); try discriminate Htakes;
    cbn [value] in Hval; injection Hval as <-; lia.
Qed.

Lemma pass2_instr_writes (lbl : option (ascii * string)) (ind : list ascii) (i : instr)
    (rest : Lmasm.stream) (labels : list Lmasm.lmasm_label) (out : string)
    (ln w : Z) (f : Lmasm.wfile) (err : list event) :
  line_ok (Statement lbl ind (instr_text i)) ->
  instr_ok i ->
  assemble labels i = Some w ->
  exists o v,
    In o Lmasm.OPCODES /\ fits o v = true /\ w = word o v
    /\ Lmasm.pass2_body (Lmasm.configure 3) labels out
         (Lmasm.mk_pass2 (render (Statement lbl ind (instr_text i)) ++ rest) ln f err)
       = match Lmasm.call_write o (Lmasm.configure 3) v f with
         | Undefined u => inr (Undefined u)
         | Diverges => inr Diverges
         | Ok (rc, f1, ev1) =>
             if rc =? -1 then Lmasm.stop2 1 rest (ln + 1) f1 (err ++ ev1)
             else if rc =? Lmasm.EOF then
               Lmasm.stop2 1 rest (ln + 1) f1
                 ((err ++ ev1) ++ [Fprintf "Error writing to %s: %s\n"
                                     [ArgStr out; ArgErrno]])
             else inl (Lmasm.mk_pass2 rest (ln + 1) f1 (err ++ ev1))
         end.
Proof.
  intros (Hlbl & Hne & Hind & Htext) Hi Hasm.
  unfold assemble in Hasm.
  destruct (Lmasm.find_opcode (mnemonic i) Lmasm.OPCODES) as [o|] eqn:Hfind;
    [|discriminate Hasm].
  destruct (value labels (operand_of i)) as [v|] eqn:Hval; [|discriminate Hasm].
  destruct (takes _ _ && fits o v) eqn:Hchecks; [|discriminate Hasm].
  injection Hasm as <-. apply andb_true_iff in Hchecks. destruct Hchecks as [Htakes Hfits].
  destruct (find_opcode_sound _ _ _ Hfind) as [Hin _].
  exists o, v. split; [exact Hin|]. split; [exact Hfits|]. split; [reflexivity|].
  pose proof (fits_not_minus_one o i labels v Hin Htakes Hval Hfits) as Hv.
  destruct Htext as (c0 & t0 & Et & Hm0b & Hm0n & _ & _).
  unfold instr_text in Et. injection Et as Ec0 _. subst c0.
  destruct (operand_head i rest Hi) as (y & Y & Etail & Hy & Hgapy).
  destruct (after_mnemonic i rest y Y Hi Hy Hgapy) as (c3 & s3 & Egap & Hspace & Hnext).
  destruct (pass2_front lbl ind (m0 i) (m1 i :: m2 i :: c3 :: s3) Hlbl Hne Hind Hm0b)
    as (c & r & Efront & Hn & Hs & Hskip).
  assert (Estream : render (Statement lbl ind (instr_text i)) ++ rest = c :: r).
  { rewrite <- Efront, <- Egap, <- Etail. cbn [render]. unfold instr_text.
    rewrite <- !app_assoc. cbn [app]. rewrite <- !app_assoc. reflexivity. }
  unfold Lmasm.pass2_body.
  cbn [Lmasm.p2_input Lmasm.p2_line Lmasm.p2_output Lmasm.p2_err].
  rewrite Estream, Hn, Hs.
  destruct (Lmasm.skip_while Lmasm.islabel r (Some c)) as [c1 s1].
  rewrite Hskip, Hm0n.
  unfold Lmasm.MAX_OPCODE_LEN. cbn [Lmasm.read_opcode Lmasm.fgetc Lmasm.at_char].
  rewrite Hspace. cbn [negb]. fold (mnemonic i). rewrite Hfind.
  cbn [Lmasm.ungetc]. rewrite Hnext. cbn [Lmasm.ungetc].
  rewrite (operand_reads (Lmasm.arg_format o) i rest labels (ln + 1) v y Y
             Hi Htakes Hval Hv Etail).
  destruct (Lmasm.call_write o (Lmasm.configure 3) v f) as [[[rc f1] ev1]| |];
    reflexivity.
Qed.

Lemma pass2_instr (lbl : option (ascii * string)) (ind : list ascii) (i : instr)
    (rest : Lmasm.stream) (labels : list Lmasm.lmasm_label) (out : string)
    (ln w : Z) (f : Lmasm.wfile) (err : list event) :
  line_ok (Statement lbl ind (instr_text i)) ->
  instr_ok i ->
  assemble labels i = Some w ->
  Lmasm.room f = None ->
  Lmasm.pass2_body (Lmasm.configure 3) labels out
    (Lmasm.mk_pass2 (render (Statement lbl ind (instr_text i)) ++ rest) ln f err)
  = inl (Lmasm.mk_pass2 rest (ln + 1)
           (Lmasm.mk_wfile (Lmasm.written f ++ decimal 3 w) None) err).
Proof.
  intros Hline Hi Hasm Hr.
  destruct (pass2_instr_writes lbl ind i rest labels out ln w f err Hline Hi Hasm)
    as (o & v & Hin & Hfits & -> & ->).
  rewrite (call_write_word o v f Hin Hfits Hr).
  cbn. rewrite !app_nil_r. reflexivity.
Qed.

Lemma pass2_plain (l : src_line) (rest : Lmasm.stream) (conf : Lmasm.lmasm_conf)
    (labels : list Lmasm.lmasm_label) (out : string)
    (ln : Z) (f : Lmasm.wfile) (err : list event) :
  line_ok l -> allocates l = 0 ->
  Lmasm.pass2_body conf labels out (Lmasm.mk_pass2 (render l ++ rest) ln f err)
  = inl (Lmasm.mk_pass2 rest (ln + 1) f err).
Proof.
  intros Hok Hnone. destruct l as [lbl ind text|[ch nm]|ind|text];
    [discriminate Hnone| | |]; cbn [line_ok] in Hok; unfold Lmasm.pass2_body;
    cbn [Lmasm.p2_input Lmasm.p2_line Lmasm.p2_output Lmasm.p2_err render].
  - destruct Hok as (Hch & _ & Hnm & _). cbn [fst snd] in *.
    rewrite <- app_assoc. unfold label_text. cbn [app fst snd].
    destruct (label_char_plain ch Hch) as (_ & Hn & Hs). rewrite Hn, Hs.
    rewrite (skip_while_run Lmasm.islabel _ ch newline rest Hch Hnm eq_refl).
    rewrite (skip_while_stop Lmasm.isblank newline rest eq_refl). reflexivity.
  - rewrite <- app_assoc. cbn [app]. destruct Hok as [|b bs Hb Hbs]; [reflexivity|].
    cbn [app]. destruct (blank_inline b Hb) as [Hn Hs]. rewrite Hn, Hs.
    assert (Hbl : Lmasm.islabel b = false).
    { destruct (Lmasm.islabel b) eqn:E; [|reflexivity].
      destruct (label_char_plain b E) as [Hnb _]. unfold blank in Hb. congruence. }
    rewrite (skip_while_stop Lmasm.islabel b _ Hbl).
    rewrite (skip_while_run Lmasm.isblank bs b newline rest Hb Hbs eq_refl). reflexivity.
  - cbn [app]. rewrite <- app_assoc. cbn [app].
    change (Lmasm.is_char Lmasm.NL slash) with false.
    change (Lmasm.is_char Lmasm.SLASH slash) with true. cbv beta iota.
    pose proof (finish_line_closing [] (Some text) rest (ln + 1) (Forall_nil _) Hok)
      as Hfin.
    cbn [app remark_chars] in Hfin. rewrite Hfin.
    cbn. rewrite app_nil_r. reflexivity.
Qed.


Lemma pass2_lines (labels : list Lmasm.lmasm_label) (out : string) (ls : list asm_line) :
  forall (ws : list Z) (rest : Lmasm.stream) (ln : Z) (f : Lmasm.wfile)
         (err : list event) (n : nat),
    Forall asm_ok ls ->
    image labels ls = Some ws ->
    Lmasm.room f = None ->
    loop (Lmasm.pass2_body (Lmasm.configure 3) labels out) (length ls + n)
      (Lmasm.mk_pass2 (source_text (map raw ls) ++ rest) ln f err)
    = loop (Lmasm.pass2_body (Lmasm.configure 3) labels out) n
        (Lmasm.mk_pass2 rest (ln + Z.of_nat (length ls))
           (Lmasm.mk_wfile (Lmasm.written f ++ concat (map (decimal 3) ws)) None) err).
Proof.
  induction ls as [|l ls IH]; intros ws rest ln f err n Hok Himg Hr.
  - injection Himg as <-. destruct f as [w r]. cbn in Hr. subst r.
    cbn. rewrite app_nil_r, Z.add_0_r. reflexivity.
  - inversion Hok as [|? ? Hl Hls]; subst.
    unfold source_text. cbn [map concat length]. fold (source_text (map raw ls)).
    rewrite <- app_assoc. change (S (length ls) + n)%nat with (S (length ls + n)).
    replace (ln + Z.of_nat (S (length ls))) with (ln + 1 + Z.of_nat (length ls)) by lia.
    destruct l as [lbl ind i|l]; cbn [image raw asm_ok] in *.
    + destruct Hl as [Hline Hi].
      destruct (assemble labels i) as [w|] eqn:Hw; [|discriminate Himg].
      destruct (image labels ls) as [ws'|] eqn:Hws; [|discriminate Himg].
      injection Himg as <-.
      rewrite (loop_step _ _ _ _
                 (pass2_instr lbl ind i _ labels out ln w f err Hline Hi Hw Hr)).
      rewrite (IH ws' rest _ (Lmasm.mk_wfile (Lmasm.written f ++ decimal 3 w) None)
                 err n Hls eq_refl eq_refl).
      cbn [Lmasm.written map concat]. rewrite <- app_assoc. reflexivity.
    + destruct Hl as [Hline Hnone].
      rewrite (loop_step _ _ _ _
                 (pass2_plain l _ (Lmasm.configure 3) labels out ln f err Hline Hnone)).
      apply IH; assumption.
Qed.

Lemma image_length (labels : list Lmasm.lmasm_label) (ls : list asm_line) :
  forall ws, Forall asm_ok ls -> image labels ls = Some ws ->
             allocated (map raw ls) = Z.of_nat (length ws).
Proof.
  induction ls as [|l ls IH]; intros ws Hok Himg.
  - injection Himg as <-. reflexivity.
  - inversion Hok as [|? ? Hl Hls]; subst.
    destruct l as [lbl ind i|l]; cbn [image raw asm_ok map allocated allocates] in *.
    + destruct (assemble labels i) as [w|]; [|discriminate Himg].
      destruct (image labels ls) as [ws'|]; [|discriminate Himg].
      injection Himg as <-. rewrite (IH ws' Hls eq_refl). cbn [length]. lia.
    + destruct Hl as [_ ->]. rewrite (IH ws Hls Himg). lia.
Qed.

Lemma image_words (labels : list Lmasm.lmasm_label) (ls : list asm_line) :
  forall ws, image labels ls = Some ws -> Forall word_ok ws.
Proof.
  induction ls as [|l ls IH]; intros ws Himg.
  - injection Himg as <-. constructor.
  - destruct l as [lbl ind i|l]; cbn [image] in Himg; [|apply IH; exact Himg].
    destruct (assemble labels i) as [w|] eqn:Hw; [|discriminate Himg].
    destruct (image labels ls) as [ws'|]; [|discriminate Himg].
    injection Himg as <-. constructor; [|apply IH; reflexivity].
    unfold assemble in Hw.
    destruct (Lmasm.find_opcode (mnemonic i) Lmasm.OPCODES) as [o|] eqn:Hfind;
      [|discriminate Hw].
    destruct (value labels (operand_of i)) as [v|]; [|discriminate Hw].
    destruct (takes _ _ && fits o v) eqn:Hchecks; [|discriminate Hw].
    injection Hw as <-. apply andb_true_iff in Hchecks. destruct Hchecks as [_ Hfits].
    destruct (find_opcode_sound _ _ _ Hfind) as [Hin _].
    unfold Lmasm.OPCODES in Hin. cbn [In] in Hin.
    repeat (destruct Hin as [<-|Hin]); try contradiction;
      unfold fits, word, word_ok, Lmc.MAX_VALUE in *; cbn [Lmasm.write Lmasm.code] in *;
      try (apply andb_true_iff in Hfits; destruct Hfits as [H0 H1];
           apply Z.leb_le in H0; apply Z.leb_le in H1); lia.
Qed.

Lemma raw_lines_ok (ls : list asm_line) : Forall asm_ok ls -> Forall line_ok (map raw ls).
Proof.
  intros H. induction H as [|l ls Hl _ IH]; [constructor|].
  cbn [map]. constructor; [|exact IH]. destruct l; cbn [asm_ok raw] in *; apply Hl.
Qed.

Lemma turned_length (ls : list src_line) : Z.of_nat (length ls) <= turned ls.
Proof.
  induction ls as [|l ls IH]; [cbn; lia|].
  cbn [turned length]. unfold turns. destruct (defines l); lia.
Qed.

Lemma assemble_whole (ls : list asm_line) (ws : list Z)
    (prog inp outp : string) (fs : Lmasm.files) (fuel : nat) :
  Forall asm_ok ls ->
  (labels_in (map raw ls) <= 31)%nat ->
  image (table_from 0 (map raw ls)) ls = Some ws ->
  (length ws <= 99)%nat ->
  Lmasm.fopen_r fs inp = Some (source_text (map raw ls)) ->
  Lmasm.fopen_w fs outp = Some None ->
  turned (map raw ls) < Z.of_nat fuel ->
  Lmasm.main fuel [prog; inp; outp] fs
  = Some (Ok (Lmasm.mk_exit 0
                [Lmasm.banner (Lmasm.configure 3);
                 Lmasm.announce outp (Z.of_nat (length ws))]
                []
                (Some (concat (map (decimal 3) ws)))))
  /\ Lmc.load (concat (map (decimal 3) ws)) 0 (Lmc.mailboxes Lmc.zeroed)
     = Ok (ws ++ replicate (Z.to_nat Lmc.NUM_MAILBOXES - length ws) 0,
           3 * Z.of_nat (length ws)).
Proof.
  intros Hok Hlabs Himg Hlen Hfr Hfw Hfuel.
  split.
  - pose proof (turned_length (map raw ls)) as Hturn. rewrite length_map in Hturn.
    unfold Lmasm.main. rewrite Hfr. unfold Lmasm.pass1_run.
    rewrite (pass1_whole (map raw ls) fuel (raw_lines_ok ls Hok) Hlabs Hfuel).
    unfold between_lines.
    cbn [negb Z.eqb Lmasm.cur_addr Lmasm.p1_err Lmasm.labels_of app].
    rewrite (image_length _ ls ws Hok Himg).
    change (Lmasm.configure 3) with (Lmasm.mk_conf 3 99 999). cbn [Lmasm.max_addr].
    replace (Z.of_nat (length ws) >? 99) with false
      by (symmetry; rewrite Z.gtb_ltb; apply Z.ltb_ge; lia).
    rewrite Hfw.
    replace fuel with (length ls + S (fuel - length ls - 1))%nat by lia.
    rewrite <- (app_nil_r (source_text (map raw ls))).
    change (Lmasm.mk_conf 3 99 999) with (Lmasm.configure 3).
    rewrite (pass2_lines _ outp ls ws [] 0 (Lmasm.mk_wfile [] None) [] _ Hok Himg eq_refl).
    reflexivity.
  - apply load_words_zeroed; [unfold Lmc.NUM_MAILBOXES; lia|].
    exact (image_words _ ls ws Himg).
Qed.

(** X22. The assembler is correct on well-formed programs.  Take a source
    all of whose lines are statements written as the language asks
    (mnemonic, operand and comment separated as they should be, indented,
    with or without a label in front), labels alone on their line, blank
    lines or comments; with at most 31 labels and at most 99 statements;
    and such that each statement has a meaning, given the addresses pass 1
    gives the labels: a known mnemonic in any case, the operand its format
    asks for, a literal or a defined label, in range.  Then the assembler
    exits with status 0, prints its two messages and no error, and the
    image is, mailbox by mailbox, the three decimal digits of the word
    each statement means: the value for [DAT], a hundred times the opcode
    plus the address for the others, 901 and 902 for [INP] and [OUT].
    Loaded by the emulator the image gives a memory that holds these words
    in order, followed by zeros. *)
Theorem assembler_correct (ls : list asm_line) (ws : list Z)
    (prog inp outp : string) (fs : Lmasm.files) (fuel : nat) :
  Forall asm_ok ls ->
  (labels_in (map raw ls) <= 31)%nat ->
  image (table_from 0 (map raw ls)) ls = Some ws ->
  (length ws <= 99)%nat ->
  Lmasm.fopen_r fs inp = Some (source_text (map raw ls)) ->
  Lmasm.fopen_w fs outp = Some None ->
  turned (map raw ls) < Z.of_nat fuel ->
  Lmasm.main fuel [prog; inp; outp] fs
  = Some (Ok (Lmasm.mk_exit 0
                [Lmasm.banner (Lmasm.configure 3);
                 Lmasm.announce outp (Z.of_nat (length ws))]
                []
                (Some (concat (map (decimal 3) ws)))))
  /\ Lmc.load (concat (map (decimal 3) ws)) 0 (Lmc.mailboxes Lmc.zeroed)
     = Ok (ws ++ replicate (Z.to_nat Lmc.NUM_MAILBOXES - length ws) 0,
           3 * Z.of_nat (length ws)).
Proof.
  exact (assemble_whole ls ws prog inp outp fs fuel).
Qed.


(** ** A stream on which [fputc] fails *)

Lemma call_write_room (o : Lmasm.lmasm_opcode) (v : Z) (f : Lmasm.wfile) (k : nat) :
  In o Lmasm.OPCODES ->
  fits o v = true ->
  Lmasm.room f = Some k ->
  Lmasm.call_write o (Lmasm.configure 3) v f
  = Ok (if (3 <=? k)%nat
        then (0, Lmasm.mk_wfile (Lmasm.written f ++ decimal 3 (word o v)) (Some (k - 3)%nat),
              [])
        else (-1, Lmasm.mk_wfile (Lmasm.written f ++ take k (decimal 3 (word o v))) (Some O),
              [])).
Proof.
  intros Hin Hfits Hr.
  change (Lmasm.configure 3) with (Lmasm.mk_conf 3 99 999).
  assert (Hdat : forall self a, 0 <= a <= 999 ->
            Lmasm.lmasm_write_dat self (Lmasm.mk_conf 3 99 999) a f
            = if (3 <=? k)%nat
              then (0, Lmasm.mk_wfile (Lmasm.written f ++ decimal 3 a) (Some (k - 3)%nat), [])
              else (-1, Lmasm.mk_wfile (Lmasm.written f ++ take k (decimal 3 a)) (Some O),
                    [])).
  { intros self a Ha. unfold Lmasm.lmasm_write_dat.
    cbn [Lmasm.max_dat Lmasm.max_addr Lmasm.num_digits].
    rewrite (in_range 0 _ a Ha), slice_encoded by (unfold Lmasm.MAX_NUM_DIGITS; cbn; lia).
    rewrite drop_0, (fput_all_room _ f k Hr) by apply decimal_digits.
    rewrite decimal_length. cbn [Lmasm.num_digits].
    change (Z.to_nat 3) with 3%nat. destruct (3 <=? k)%nat; reflexivity. }
  assert (Hop : forall self a, is_digit (Lmasm.code self) -> 0 <= a <= 99 ->
            Lmasm.lmasm_write_op self (Lmasm.mk_conf 3 99 999) a f
            = if (3 <=? k)%nat
              then (0, Lmasm.mk_wfile
                         (Lmasm.written f ++ decimal 3 (Lmasm.code self * 100 + a))
                         (Some (k - 3)%nat), [])
              else (-1, Lmasm.mk_wfile
                          (Lmasm.written f ++ take k (decimal 3 (Lmasm.code self * 100 + a)))
                          (Some O), [])).
  { intros self a Hc Ha. rewrite decimal_word by assumption.
    unfold Lmasm.lmasm_write_op. cbn [Lmasm.max_dat Lmasm.max_addr Lmasm.num_digits].
    rewrite (in_range 0 _ a Ha).
    unfold Lmasm.fputc. rewrite Hr. destruct k as [|k].
    - cbn. destruct f as [wr r]. cbn in *. rewrite app_nil_r, Hr. reflexivity.
    - cbn [fmap option_fmap option_map Nat.pred]. unfold is_digit in Hc.
      rewrite (Z.mod_small _ 256) by lia.
      destruct (Z.eqb_spec (Lmasm.code self) Lmasm.EOF) as [E|_];
        [unfold Lmasm.EOF in E; lia|].
      rewrite slice_encoded by (unfold Lmasm.MAX_NUM_DIGITS; cbn; lia).
      cbn [Lmasm.num_digits]. change (Z.to_nat 3) with 3%nat.
      rewrite decimal_tail.
      rewrite (fput_all_room _ (Lmasm.mk_wfile (Lmasm.written f ++ [Lmasm.code self]) (Some k))
                 k eq_refl) by apply decimal_digits.
      rewrite decimal_length. cbn [Lmasm.written].
      change (3 <=? S k)%nat with (2 <=? k)%nat.
      destruct (2 <=? k)%nat; cbn [take]; rewrite <- app_assoc; reflexivity. }
  unfold Lmasm.OPCODES in Hin. cbn [In] in Hin.
  repeat (destruct Hin as [<-|Hin]); try contradiction;
    unfold fits, word, Lmasm.call_write in *; cbn [Lmasm.write Lmasm.code] in *;
    try (apply andb_true_iff in Hfits; destruct Hfits as [H0 H1];
         apply Z.leb_le in H0; apply Z.leb_le in H1).
  1: { rewrite Hdat by lia. reflexivity. }
  all: try (rewrite Hop; [reflexivity|unfold is_digit; cbn; lia|lia]).
  all: unfold Lmasm.lmasm_write_io; cbn [Lmasm.code];
    rewrite Hop; [reflexivity|unfold is_digit; cbn; lia|lia].
Qed.


Lemma pass2_lines_full (labels : list Lmasm.lmasm_label) (out : string)
    (ls : list asm_line) :
  forall (ws : list Z) (rest : Lmasm.stream) (ln : Z) (f : Lmasm.wfile)
         (err : list event) (n k : nat),
    Forall asm_ok ls ->
    image labels ls = Some ws ->
    Lmasm.room f = Some k ->
    (k < 3 * length ws)%nat ->
    exists st,
      loop (Lmasm.pass2_body (Lmasm.configure 3) labels out) (length ls + n)
        (Lmasm.mk_pass2 (source_text (map raw ls) ++ rest) ln f err)
      = Some (Ok (1, st))
      /\ Lmasm.p2_err st = err
      /\ Lmasm.written (Lmasm.p2_output st)
         = Lmasm.written f ++ take k (concat (map (decimal 3) ws)).
Proof.
  induction ls as [|l ls IH]; intros ws rest ln f err n k Hok Himg Hr Hk.
  - injection Himg as <-. cbn [length] in Hk. lia.
  - inversion Hok as [|? ? Hl Hls]; subst.
    unfold source_text. cbn [map concat length]. fold (source_text (map raw ls)).
    rewrite <- app_assoc. change (S (length ls) + n)%nat with (S (length ls + n)).
    destruct l as [lbl ind i|l]; cbn [image raw asm_ok] in *.
    + destruct Hl as [Hline Hi].
      destruct (assemble labels i) as [w|] eqn:Hw; [|discriminate Himg].
      destruct (image labels ls) as [ws'|] eqn:Hws; [|discriminate Himg].
      injection Himg as <-.
      destruct (pass2_instr_writes lbl ind i (source_text (map raw ls) ++ rest)
                  labels out ln w f err Hline Hi Hw)
        as (o & v & Hin & Hfits & -> & E).
      rewrite (call_write_room o v f k Hin Hfits Hr) in E.
      cbn [map concat]. pose proof (decimal_length 3 (word o v)) as Hlen.
      revert E. destruct (Nat.leb_spec 3 k) as [Hge|Hlt]; intros E;
        cbn [Z.eqb Pos.eqb Lmasm.EOF Lmasm.stop2] in E; rewrite app_nil_r in E.
      * rewrite (loop_step _ _ _ _ E).
        destruct (IH ws' rest (ln + 1)
                    (Lmasm.mk_wfile (Lmasm.written f ++ decimal 3 (word o v))
                       (Some (k - 3)%nat))
                    err n (k - 3)%nat Hls eq_refl eq_refl)
          as (st & Hst & Herr & Hwr); [cbn [length] in Hk; lia|].
        exists st. split; [exact Hst|]. split; [exact Herr|].
        rewrite Hwr. cbn [Lmasm.written]. rewrite <- app_assoc. f_equal.
        rewrite take_app_ge by lia. rewrite Hlen. reflexivity.
      * cbn [loop]. rewrite E.
        eexists. split; [reflexivity|]. split; [reflexivity|].
        cbn [Lmasm.p2_output Lmasm.written]. f_equal.
        rewrite take_app_le by lia. reflexivity.
    + destruct Hl as [Hline Hnone].
      rewrite (loop_step _ _ _ _
                 (pass2_plain l _ (Lmasm.configure 3) labels out ln f err Hline Hnone)).
      apply IH; assumption.
Qed.

(** X23. Pass 2 and an [fputc] that fails.  Take an output stream on
    which [fputc] fails once [k] more bytes are written, as an unbuffered
    stream on a full device does (the stream [main] opens is buffered: it
    holds a whole image, and a failure would show only when it is closed,
    where [main] does not look).  When the image of a well-formed program
    needs more than [k] bytes, the loop of pass 2 stops with [rc = 1],
    adds nothing to the error stream and leaves the first [k] bytes of the
    image in the stream: the writers return [EOF], and [EOF] is the -1
    that the loop takes for "operand out of range, message already
    printed", so the branch that prints "Error writing to" is not
    reached. *)
Theorem failing_fputc_is_silent (labels : list Lmasm.lmasm_label) (out : string)
    (ls : list asm_line) (ws : list Z) (f : Lmasm.wfile) (err : list event)
    (k fuel : nat) :
  Forall asm_ok ls ->
  image labels ls = Some ws ->
  Lmasm.room f = Some k ->
  (k < 3 * length ws)%nat ->
  (length ls <= fuel)%nat ->
  exists st,
    loop (Lmasm.pass2_body (Lmasm.configure 3) labels out) fuel
      (Lmasm.mk_pass2 (source_text (map raw ls)) 0 f err)
    = Some (Ok (1, st))
    /\ Lmasm.p2_err st = err
    /\ Lmasm.written (Lmasm.p2_output st)
       = Lmasm.written f ++ take k (concat (map (decimal 3) ws)).
Proof.
  intros Hok Himg Hr Hk Hfuel.
  replace fuel with (length ls + (fuel - length ls))%nat by lia.
  rewrite <- (app_nil_r (source_text (map raw ls))).
  exact (pass2_lines_full labels out ls ws [] 0 f err (fuel - length ls) k Hok Himg Hr Hk).
Qed.


(** ** Errors and the line they are reported on *)

Lemma turned_count (ls : list src_line) :
  turned ls = Z.of_nat (length ls) + Z.of_nat (labels_in ls).
Proof.
  induction ls as [|l ls IH]; [reflexivity|].
  cbn [turned length labels_in]. unfold turns. rewrite IH. destruct (defines l); lia.
Qed.

Lemma pass1_digit_step (d : ascii) (r : Lmasm.stream) (a ln : Z)
    (labs : list Lmasm.lmasm_label) (err : list event) :
  Lmasm.isdigit d = true ->
  (length labs < 31)%nat ->
  Lmasm.pass1_body (between_lines (d :: r) a ln labs err)
  = inr (Ok (1, between_lines r a (ln + 1) labs
                  (err ++ [Lmasm.syntax "Label begins with digit" (ln + 1)]))).
Proof.
  intros Hd Hlen.
  assert (Hl : Lmasm.islabel d = true).
  { unfold Lmasm.islabel. rewrite Hd, orb_true_r. reflexivity. }
  destruct (label_char_plain d Hl) as (Hb & Hn & Hs).
  unfold Lmasm.pass1_body, between_lines.
  cbn [Lmasm.p1_input Lmasm.p1_line Lmasm.cur_addr Lmasm.labels_of
       Lmasm.label_buf_size Lmasm.label_block Lmasm.p1_err].
  rewrite Hn, Hs, Hb. cbn [negb].
  replace (Z.of_nat (length labs) + 1 >=? 32) with false
    by (symmetry; rewrite Z.geb_leb; apply Z.leb_gt; lia).
  replace ((Z.of_nat (length labs) + 1) * Lmasm.sizeof_label >? 32 * Lmasm.sizeof_label)
    with false
    by (symmetry; rewrite Z.gtb_ltb; apply Z.ltb_ge; unfold Lmasm.sizeof_label; lia).
  unfold Lmasm.parse_label. cbn [Lmasm.fgetc Lmasm.at_char]. rewrite Hd. reflexivity.
Qed.

(** X24. Pass 1 reports its errors on the wrong line.  The loop of pass 1
    counts a line at each of its turns, and a line that starts with a label
    takes two.  So when, after well-formed lines, a line starts with a
    digit, the message "Label begins with digit" does not carry the number
    of that line but that number plus the number of labels defined above
    it.  The run ends with status 1 before the output file is opened. *)
Theorem pass1_error_line (ls : list src_line) (d : ascii) (r : Lmasm.stream)
    (prog inp outp : string) (fs : Lmasm.files) (fuel : nat) :
  Forall line_ok ls ->
  (labels_in ls <= 30)%nat ->
  Lmasm.isdigit d = true ->
  Lmasm.fopen_r fs inp = Some (source_text ls ++ d :: r) ->
  turned ls < Z.of_nat fuel ->
  Lmasm.main fuel [prog; inp; outp] fs
  = Some (Ok (Lmasm.mk_exit 1 [Lmasm.banner (Lmasm.configure 3)]
                [Lmasm.syntax "Label begins with digit"
                   (Z.of_nat (length ls) + 1 + Z.of_nat (labels_in ls))]
                None)).
Proof.
  intros Hok Hlabs Hd Hfs Hfuel.
  pose proof (turned_nonneg ls) as Hpos.
  unfold Lmasm.main. rewrite Hfs. unfold Lmasm.pass1_run.
  replace fuel with (Z.to_nat (turned ls) + S (fuel - Z.to_nat (turned ls) - 1))%nat by lia.
  change (Lmasm.pass1_start (source_text ls ++ d :: r))
    with (between_lines (source_text ls ++ d :: r) 0 0 [] []).
  rewrite (pass1_lines ls (d :: r) 0 0 [] [] _ Hok) by (cbn [length]; lia).
  cbn [loop app]. rewrite pass1_digit_step; [|exact Hd|rewrite table_length; lia].
  cbn. rewrite turned_count. do 5 f_equal. lia.
Qed.


Lemma source_text_app (xs ys : list src_line) :
  source_text (xs ++ ys) = source_text xs ++ source_text ys.
Proof.
  unfold source_text. rewrite map_app, concat_app. reflexivity.
Qed.

Lemma pass2_unknown (lbl : option (ascii * string)) (ind : list ascii)
    (n0 n1 n2 : ascii) (t rest : Lmasm.stream) (conf : Lmasm.lmasm_conf)
    (labels : list Lmasm.lmasm_label) (out : string)
    (ln : Z) (f : Lmasm.wfile) (err : list event) :
  let name := String n0 (String n1 (String n2 EmptyString)) in
  line_ok (Statement lbl ind (n0 :: n1 :: n2 :: t)) ->
  (t = [] \/ exists b t', t = b :: t' /\ blank b) ->
  Lmasm.find_opcode name Lmasm.OPCODES = None ->
  exists s,
    Lmasm.pass2_body conf labels out
      (Lmasm.mk_pass2 (render (Statement lbl ind (n0 :: n1 :: n2 :: t)) ++ rest) ln f err)
    = inr (Ok (1, Lmasm.mk_pass2 s (ln + 1) f
                    (err ++ [Fprintf "Error on line %d: No such instruction %s\n"
                               [ArgInt (ln + 1); ArgStr (Lmasm.c_str name)]]))).
Proof.
  intros name (Hlbl & Hne & Hind & Htext) Ht Hfind.
  destruct Htext as (c0 & t0 & Et & Hb & Hnl & _ & _). injection Et as <- _.
  assert (Hafter : exists c3 s3, t ++ newline :: rest = c3 :: s3
                                 /\ Lmasm.isspace c3 = true).
  { destruct Ht as [->|(b & t' & -> & Hbl)].
    - exists newline, rest. split; reflexivity.
    - exists b, (t' ++ newline :: rest). split; [reflexivity|].
      apply blank_is_space. exact Hbl. }
  destruct Hafter as (c3 & s3 & Eafter & Hspace).
  destruct (pass2_front lbl ind n0 (n1 :: n2 :: c3 :: s3) Hlbl Hne Hind Hb)
    as (c & r & Efront & Hn & Hs & Hskip).
  assert (Estream : render (Statement lbl ind (n0 :: n1 :: n2 :: t)) ++ rest = c :: r).
  { rewrite <- Efront, <- Eafter. cbn [render].
    rewrite <- !app_assoc. cbn [app]. rewrite <- ?app_assoc. reflexivity. }
  exists s3. unfold Lmasm.pass2_body.
  cbn [Lmasm.p2_input Lmasm.p2_line Lmasm.p2_output Lmasm.p2_err].
  rewrite Estream, Hn, Hs.
  destruct (Lmasm.skip_while Lmasm.islabel r (Some c)) as [c1 s1].
  rewrite Hskip, Hnl.
  unfold Lmasm.MAX_OPCODE_LEN. cbn [Lmasm.read_opcode Lmasm.fgetc Lmasm.at_char].
  rewrite Hspace. cbn [negb]. fold name. rewrite Hfind. reflexivity.
Qed.

(** X25. An unknown mnemonic is found in pass 2, on its line, with the
    image half written.  Take a well-formed program, then a statement
    whose three-letter mnemonic is in no entry of the catalog, then any
    lines that pass 1 accepts.  Pass 1 does not look at mnemonics; the
    output file is opened and the words of the statements above the
    faulty one are written to it; the assembler then prints "No such
    instruction" with the number of the faulty line, counted correctly
    this time, and exits with status 1, leaving the partial image. *)
Theorem unknown_mnemonic (ls : list asm_line) (ws : list Z)
    (lbl : option (ascii * string)) (ind : list ascii) (n0 n1 n2 : ascii)
    (t : list ascii) (after : list src_line)
    (prog inp outp : string) (fs : Lmasm.files) (fuel : nat) :
  let name := String n0 (String n1 (String n2 EmptyString)) in
  let faulty := Statement lbl ind (n0 :: n1 :: n2 :: t) in
  let all := map raw ls ++ faulty :: after in
  Forall asm_ok ls ->
  line_ok faulty ->
  (t = [] \/ exists b t', t = b :: t' /\ blank b) ->
  Lmasm.find_opcode name Lmasm.OPCODES = None ->
  Forall line_ok after ->
  (labels_in all <= 31)%nat ->
  allocated all <= 99 ->
  image (table_from 0 all) ls = Some ws ->
  Lmasm.fopen_r fs inp = Some (source_text all) ->
  Lmasm.fopen_w fs outp = Some None ->
  turned all < Z.of_nat fuel ->
  Lmasm.main fuel [prog; inp; outp] fs
  = Some (Ok (Lmasm.mk_exit 1
                [Lmasm.banner (Lmasm.configure 3); Lmasm.announce outp (allocated all)]
                [Fprintf "Error on line %d: No such instruction %s\n"
                   [ArgInt (Z.of_nat (length ls) + 1); ArgStr (Lmasm.c_str name)]]
                (Some (concat (map (decimal 3) ws))))).
Proof.
  intros name faulty all Hok Hfaulty Ht Hfind Hafter Hlabs Halloc Himg Hfr Hfw Hfuel.
  assert (Hall : Forall line_ok all).
  { apply Forall_app. split; [apply raw_lines_ok; exact Hok|].
    constructor; assumption. }
  pose proof (turned_length all) as Hturn.
  assert (Hlen : (length ls < length all)%nat).
  { unfold all. rewrite length_app, length_map. cbn [length]. lia. }
  unfold Lmasm.main. rewrite Hfr. unfold Lmasm.pass1_run.
  rewrite (pass1_whole all fuel Hall Hlabs Hfuel).
  unfold between_lines.
  cbn [negb Z.eqb Lmasm.cur_addr Lmasm.p1_err Lmasm.labels_of app].
  change (Lmasm.configure 3) with (Lmasm.mk_conf 3 99 999). cbn [Lmasm.max_addr].
  replace (allocated all >? 99) with false
    by (symmetry; rewrite Z.gtb_ltb; apply Z.ltb_ge; lia).
  rewrite Hfw.
  replace fuel with (length ls + S (fuel - length ls - 1))%nat by lia.
  change (Lmasm.mk_conf 3 99 999) with (Lmasm.configure 3).
  unfold all at 2. rewrite source_text_app.
  rewrite (pass2_lines _ outp ls ws _ 0 (Lmasm.mk_wfile [] None) [] _ Hok Himg eq_refl).
  change (source_text (faulty :: after)) with (render faulty ++ source_text after).
  destruct (pass2_unknown lbl ind n0 n1 n2 t (source_text after) (Lmasm.configure 3)
              (table_from 0 all) outp (0 + Z.of_nat (length ls))
              (Lmasm.mk_wfile (concat (map (decimal 3) ws)) None) []
              Hfaulty Ht Hfind) as (s & E).
  cbn [loop Lmasm.written app]. fold faulty in E. rewrite E. reflexivity.
Qed.


(** ** From source to run *)

(** X26. What the assembler makes of a well-formed program the emulator
    runs safely.  Under the conditions of correctness the assembler
    writes the image of the program's words; and whenever the emulator is
    started on a file that holds that image, with numbers in
    [0, MAX_VALUE] typed in, every state in which its loop starts a turn
    is well formed, and after any number of turns it is either still
    running (the program may loop for ever), or has exited, halted, in a
    well-formed state and with status 1 exactly when [error] is set, or
    waits for ever for input that is used up, or has run off the end of
    the memory with a fetch at [NUM_MAILBOXES]: assembling and loading
    cannot by themselves bring about any other undefined behaviour. *)
Theorem assembled_program_runs (ls : list asm_line) (ws : list Z)
    (prog inp outp : string) (fs : Lmasm.files) (fuel : nat) :
  Forall asm_ok ls ->
  (labels_in (map raw ls) <= 31)%nat ->
  image (table_from 0 (map raw ls)) ls = Some ws ->
  (length ws <= 99)%nat ->
  Lmasm.fopen_r fs inp = Some (source_text (map raw ls)) ->
  Lmasm.fopen_w fs outp = Some None ->
  turned (map raw ls) < Z.of_nat fuel ->
  exists out,
    Lmasm.main fuel [prog; inp; outp] fs
    = Some (Ok (Lmasm.mk_exit 0 out [] (Some (concat (map (decimal 3) ws)))))
    /\ forall (emulator path : string) (disk : string -> option Lmc.rfile)
              (input : list Z) (steps : nat),
         disk path = Some (Lmc.mk_rfile (concat (map (decimal 3) ws)) false) ->
         Forall word_ok input ->
         let w0 := loaded path ws input in
         tidy w0
         /\ (forall n w', reach Lmc.run_body n w0 = Some w' -> tidy w')
         /\ match Lmc.main steps [emulator; path] disk input with
            | None => exists w', reach Lmc.run_body steps w0 = Some w' /\ tidy w'
            | Some Diverges =>
                exists n w', reach Lmc.run_body n w0 = Some w' /\ tidy w'
                             /\ Lmc.stdin (Lmc.tty w') = []
            | Some (Ok e) =>
                tidy (Lmc.final e)
                /\ Lmc.halted (Lmc.cpu (Lmc.machine (Lmc.final e))) = true
                /\ Lmc.status e = Lmc.bool_int (Lmc.error (Lmc.cpu (Lmc.machine (Lmc.final e))))
            | Some (Undefined u) =>
                u = MailboxIndex Lmc.NUM_MAILBOXES
                /\ exists n w', reach Lmc.run_body n w0 = Some w' /\ tidy w'
                                /\ Lmc.pc (Lmc.cpu (Lmc.machine w')) = Lmc.NUM_MAILBOXES
            end.
Proof.
  intros Hok Hlabs Himg Hlen Hfr Hfw Hfuel.
  destruct (assemble_whole ls ws prog inp outp fs fuel Hok Hlabs Himg Hlen Hfr Hfw Hfuel)
    as [Hmain _].
  eexists. split; [exact Hmain|].
  intros emulator path disk input steps Hdisk Hin.
  apply (run_word_image emulator path disk ws input steps Hdisk).
  - unfold Lmc.NUM_MAILBOXES. lia.
  - exact (image_words _ ls ws Himg).
  - exact Hin.
Qed.

(** ** Numbers typed in *)

(** X27. The emulator does not check what is typed in.  The input
    instruction prompts for a number between 0 and [MAX_VALUE] and puts
    whatever [int] it reads into the accumulator, out of that range or
    not, touching nothing else but the console.  An addition that follows
    computes [a + mailboxes[addr]] in [int]: when the number typed in and
    the mailbox add up to more than [INT_MAX] the behaviour is
    undefined. *)
Theorem input_is_not_checked (w : Lmc.world) (n m : Z) (rest : list Z) :
  Lmc.addr (Lmc.cpu (Lmc.machine w)) = 1 ->
  Lmc.stdin (Lmc.tty w) = n :: rest ->
  exists w1,
    Lmc.lmc_io w = Ok w1
    /\ Lmc.a (Lmc.cpu (Lmc.machine w1)) = n
    /\ Lmc.mailboxes (Lmc.machine w1) = Lmc.mailboxes (Lmc.machine w)
    /\ Lmc.tty w1
       = Lmc.mk_console rest (Lmc.stdout (Lmc.tty w) ++ [Lmc.prompt]) (Lmc.stderr (Lmc.tty w))
    /\ (forall i o ad,
          0 <= ad < Lmc.NUM_MAILBOXES ->
          Lmc.mailboxes (Lmc.machine w) !! Z.to_nat ad = Some m ->
          INT_MAX < n + m ->
          Lmc.lmc_add (Lmc.set_cpu (Lmc.set_decoded i o ad) w1)
          = Undefined SignedOverflow).
Proof.
  intros Haddr Hin.
  destruct w as [[mem [ac p ins op adr ng hl er]] [sin sout serr]]. cbn in *. subst.
  eexists. split; [reflexivity|]. cbn. repeat split.
  intros i o ad Had Hm Hbig. unfold Lmc.lmc_add. cbn.
  rewrite (mailbox_get_in _ _ _ Had Hm). cbn.
  rewrite int_checked_big by exact Hbig. reflexivity.
Qed.


(** * The further theorems at concrete inputs *)

Lemma at_work_tidy (a pc addr v : Z) :
  word_ok a -> 0 <= pc <= Lmc.NUM_MAILBOXES -> word_ok v ->
  tidy (Sample.at_work a pc addr v).
Proof.
  intros Ha Hpc Hv. unfold tidy, Sample.at_work. cbn. repeat split; try apply Ha; try apply Hpc.
  - apply (Forall_insert _ (replicate 100 0) 7 v); [|exact Hv].
    apply Forall_replicate. unfold word_ok, Lmc.MAX_VALUE. lia.
  - constructor.
Qed.

(** Goals about the shape of a given source text. *)
Ltac leaf :=
  vm_compute; first [ lia | reflexivity | (intro; discriminate) ].

Ltac shape :=
  cbv [Demo.program Demo.lines Demo.mul asm_ok raw line_ok instr_ok label_ok text_ok
       blank inline is_digit word_ok map
       m0 m1 m2 gap operand_of pad remark allocates];
  repeat first
    [ exact I | reflexivity | split | apply Forall_cons | apply Forall_nil | eexists
    | (intro; first [discriminate | reflexivity]) | leaf ].

Lemma store_then_load_witness :
  let w := Sample.at_work 42 0 7 600 in
  (0 <= Lmc.addr (Lmc.cpu (Lmc.machine w)) < Lmc.NUM_MAILBOXES
   /\ length (Lmc.mailboxes (Lmc.machine w)) = Z.to_nat Lmc.NUM_MAILBOXES)
  /\ exists w1, Lmc.lmc_store w = Ok w1
                /\ Lmc.mailboxes (Lmc.machine w1) !! 7%nat = Some 42.
Proof.
  intros w.
  assert (H1 : 0 <= Lmc.addr (Lmc.cpu (Lmc.machine w)) < Lmc.NUM_MAILBOXES)
    by (vm_compute; split; congruence).
  assert (H2 : length (Lmc.mailboxes (Lmc.machine w)) = Z.to_nat Lmc.NUM_MAILBOXES)
    by reflexivity.
  split; [split; assumption|].
  destruct (store_then_load w H1 H2) as (w1 & E & _ & _ & _ & Hget & _).
  exists w1. split; [exact E|exact Hget].
Defined.

Lemma add_sub_cancel_witness :
  let w := Sample.at_work 500 0 7 600 in
  let c := Lmc.cpu (Lmc.machine w) in
  (0 <= Lmc.addr c < Lmc.NUM_MAILBOXES
   /\ Lmc.mailboxes (Lmc.machine w) !! Z.to_nat (Lmc.addr c) = Some 600
   /\ 0 <= Lmc.a c <= Lmc.MAX_VALUE
   /\ 0 <= 600 <= Lmc.MAX_VALUE)
  /\ exists w1 w2, Lmc.lmc_add w = Ok w1 /\ Lmc.lmc_sub w1 = Ok w2
                   /\ Lmc.a (Lmc.cpu (Lmc.machine w2)) = 500.
Proof.
  intros w c.
  assert (H1 : 0 <= Lmc.addr c < Lmc.NUM_MAILBOXES) by (vm_compute; split; congruence).
  assert (H2 : Lmc.mailboxes (Lmc.machine w) !! Z.to_nat (Lmc.addr c) = Some 600)
    by reflexivity.
  assert (H3 : 0 <= Lmc.a c <= Lmc.MAX_VALUE) by (vm_compute; split; congruence).
  assert (H4 : 0 <= 600 <= Lmc.MAX_VALUE) by (vm_compute; split; congruence).
  split; [auto|].
  destruct (add_sub_cancel w 600 H1 H2 H3 H4) as [(w1 & w2 & E1 & E2 & Ha & _) _].
  exists w1, w2. split; [exact E1|]. split; [exact E2|exact Ha].
Defined.

Lemma compare_by_subtraction_witness :
  let w := Sample.at_work 500 0 7 600 in
  let c := Lmc.cpu (Lmc.machine w) in
  (0 <= Lmc.addr c < Lmc.NUM_MAILBOXES
   /\ Lmc.mailboxes (Lmc.machine w) !! Z.to_nat (Lmc.addr c) = Some 600
   /\ 0 <= Lmc.a c <= Lmc.MAX_VALUE
   /\ 0 <= 600 <= Lmc.MAX_VALUE)
  /\ exists w1, Lmc.lmc_sub w = Ok w1
                /\ Lmc.lmc_branch_positive (Lmc.set_cpu (Lmc.set_decoded 815 8 15) w1)
                   = Ok (Lmc.set_cpu (Lmc.set_decoded 815 8 15) w1).
Proof.
  intros w c.
  assert (H1 : 0 <= Lmc.addr c < Lmc.NUM_MAILBOXES) by (vm_compute; split; congruence).
  assert (H2 : Lmc.mailboxes (Lmc.machine w) !! Z.to_nat (Lmc.addr c) = Some 600)
    by reflexivity.
  assert (H3 : 0 <= Lmc.a c <= Lmc.MAX_VALUE) by (vm_compute; split; congruence).
  assert (H4 : 0 <= 600 <= Lmc.MAX_VALUE) by (vm_compute; split; congruence).
  split; [auto|].
  destruct (compare_by_subtraction w 600 815 8 15 H1 H2 H3 H4) as (w1 & E & _ & Hnot & _).
  exists w1. split; [exact E|]. apply Hnot. reflexivity.
Defined.

Lemma cycle_keeps_tidy_witness :
  let w := Sample.at_work 500 0 7 600 in
  (tidy w /\ Lmc.pc (Lmc.cpu (Lmc.machine w)) < Lmc.NUM_MAILBOXES)
  /\ exists w', Lmc.cycle w = Ok (inl w') /\ tidy w'.
Proof.
  intros w.
  assert (H1 : tidy w)
    by (apply at_work_tidy; unfold word_ok, Lmc.MAX_VALUE, Lmc.NUM_MAILBOXES; lia).
  assert (H2 : Lmc.pc (Lmc.cpu (Lmc.machine w)) < Lmc.NUM_MAILBOXES) by reflexivity.
  split; [split; assumption|].
  eexists. split; [vm_compute; reflexivity|].
  exact (cycle_keeps_tidy w H1 H2).
Defined.

Lemma tidy_run_witness :
  let w := Sample.at_work 500 0 7 600 in
  let l := Sample.at_work 0 7 0 607 in
  (tidy w /\ tidy l)
  /\ (exists w', Lmc.run 5 w = Some (Ok w')
                 /\ tidy w' /\ Lmc.halted (Lmc.cpu (Lmc.machine w')) = true)
  /\ (Lmc.run 5 l = None
      /\ exists w', reach Lmc.run_body 5 l = Some w' /\ tidy w').
Proof.
  intros w l.
  assert (H1 : tidy w)
    by (apply at_work_tidy; unfold word_ok, Lmc.MAX_VALUE, Lmc.NUM_MAILBOXES; lia).
  assert (H2 : tidy l)
    by (apply at_work_tidy; unfold word_ok, Lmc.MAX_VALUE, Lmc.NUM_MAILBOXES; lia).
  split; [split; assumption|].
  destruct (tidy_run 5 w H1) as [_ Hw]. destruct (tidy_run 5 l H2) as [_ Hl].
  split.
  - eexists. split; [vm_compute; reflexivity|exact Hw].
  - split; [vm_compute; reflexivity|exact Hl].
Defined.

Lemma load_words_witness :
  let vs := [901; 902; 0] in
  ((length vs <= Z.to_nat Lmc.NUM_MAILBOXES)%nat /\ Forall word_ok vs)
  /\ Lmc.load (concat (map (decimal 3) vs)) 0 (Lmc.mailboxes Lmc.zeroed)
     = Ok (vs ++ replicate (Z.to_nat Lmc.NUM_MAILBOXES - length vs) 0,
           3 * Z.of_nat (length vs)).
Proof.
  intros vs.
  assert (H1 : (length vs <= Z.to_nat Lmc.NUM_MAILBOXES)%nat) by (vm_compute; lia).
  assert (H2 : Forall word_ok vs) by shape.
  split; [split; assumption|].
  exact (load_words vs H1 H2).
Defined.

Lemma word_image_runs_witness :
  let vs := [901; 902; 0] in
  let fs := Sample.holding (concat (map (decimal 3) vs)) in
  (fs "prog.lmc"%string = Some (Lmc.mk_rfile (concat (map (decimal 3) vs)) false)
   /\ (length vs <= Z.to_nat Lmc.NUM_MAILBOXES)%nat
   /\ Forall word_ok vs
   /\ Forall word_ok [5])
  /\ exists e, Lmc.main 10 Sample.lmc_argv fs [5] = Some (Ok e)
               /\ tidy (Lmc.final e)
               /\ Lmc.halted (Lmc.cpu (Lmc.machine (Lmc.final e))) = true
               /\ Lmc.status e
                  = Lmc.bool_int (Lmc.error (Lmc.cpu (Lmc.machine (Lmc.final e)))).
Proof.
  intros vs fs.
  assert (H1 : fs "prog.lmc"%string
               = Some (Lmc.mk_rfile (concat (map (decimal 3) vs)) false)) by reflexivity.
  assert (H2 : (length vs <= Z.to_nat Lmc.NUM_MAILBOXES)%nat) by (vm_compute; lia).
  assert (H3 : Forall word_ok vs) by shape.
  assert (H4 : Forall word_ok [5]) by shape.
  split; [auto|].
  destruct (word_image_runs "lmc" "prog.lmc" fs vs [5] 10%nat H1 H2 H3 H4) as (_ & _ & H).
  eexists. split; [vm_compute; reflexivity|exact H].
Defined.

Lemma finish_line_in_comment_witness :
  let pre := Demo.chars " x / y" in
  Forall inline pre
  /\ Lmasm.finish_line (pre ++ newline :: [Demo.sp]) true 3 = (0, [Demo.sp], [])
  /\ Lmasm.finish_line pre true 3 = (0, [], []).
Proof.
  intros pre.
  assert (H1 : Forall inline pre) by shape.
  split; [exact H1|].
  exact (finish_line_in_comment pre [Demo.sp] 3 H1).
Defined.

Lemma finish_line_accepts_witness :
  let blanks := [Demo.sp; Demo.tab] in
  let body := Demo.chars "note" in
  (Forall blank blanks /\ Forall inline body)
  /\ Lmasm.finish_line (blanks ++ slash :: slash :: body ++ newline :: [Demo.sp]) false 3
     = (0, [Demo.sp], []).
Proof.
  intros blanks body.
  assert (H1 : Forall blank blanks) by shape.
  assert (H2 : Forall inline body) by shape.
  split; [split; assumption|].
  destruct (finish_line_accepts blanks body [Demo.sp] 3 H1 H2) as (_ & _ & H & _).
  exact H.
Defined.

Lemma finish_line_rejects_witness :
  Forall blank [Demo.sp]
  /\ Lmasm.finish_line ([Demo.sp] ++ "x"%char :: [Demo.tab]) false 3
     = (1, [Demo.tab], [Lmasm.syntax "Expected end-of-line" 3])
  /\ Lmasm.finish_line ([Demo.sp] ++ slash :: Demo.sp :: [Demo.tab]) false 3
     = (1, [Demo.tab], [Lmasm.syntax "Unexpected '/'" 3]).
Proof.
  assert (H1 : Forall blank [Demo.sp]) by shape.
  split; [exact H1|].
  destruct (finish_line_rejects [Demo.sp] [Demo.tab] 3 H1) as (Hc & Hs & _).
  split; [apply Hc; reflexivity|apply Hs; reflexivity].
Defined.

Lemma label_length_limit_witness :
  let ch := "A"%char in
  let nm := "BCDEFGHIJKLMNOPQRSTUVWXYZ012345"%string in
  (String.length (String ch nm) = Lmasm.MAX_LABEL_LEN
   /\ Lmasm.islabel ch = true
   /\ Lmasm.isdigit ch = false
   /\ Forall (fun c => Lmasm.islabel c = true) (list_ascii_of_string nm))
  /\ Lmasm.parse_label (ch :: list_ascii_of_string nm ++ ["6"%char]) 4
     = (1, String ch nm, [],
        [Fprintf "Label on line %d exceeds max length of %d\n"
           [ArgInt 4; ArgInt (Z.of_nat Lmasm.MAX_LABEL_LEN)]]).
Proof.
  intros ch nm.
  assert (H1 : String.length (String ch nm) = Lmasm.MAX_LABEL_LEN) by reflexivity.
  assert (H2 : Lmasm.islabel ch = true) by reflexivity.
  assert (H3 : Lmasm.isdigit ch = false) by reflexivity.
  assert (H4 : Forall (fun c => Lmasm.islabel c = true) (list_ascii_of_string nm)) by shape.
  split; [auto|].
  destruct (label_length_limit ch "6"%char nm [] 4 H1 H2 H3 H4) as (_ & H & _).
  apply H. reflexivity.
Defined.

Lemma literal_is_read_witness :
  (Forall is_digit [0; 4; 2] /\ denotes [0; 4; 2] <= INT_MAX)
  /\ Lmasm.parse_addr (map digit_char [0; 4; 2] ++ newline :: [Demo.sp]) [] 7
     = Ok (denotes [0; 4; 2], [Demo.sp], []).
Proof.
  assert (H1 : Forall is_digit [0; 4; 2]) by shape.
  assert (H2 : denotes [0; 4; 2] <= INT_MAX) by shape.
  split; [split; assumption|].
  destruct (literal_is_read 0 [4; 2] "x"%char [Demo.sp] [] 7 H1 H2) as (H & _).
  exact H.
Defined.

Lemma literal_overflows_witness :
  let ds := replicate 9 0 in
  (Forall is_digit (3 :: ds) /\ INT_MAX < denotes (3 :: ds))
  /\ Lmasm.parse_addr (map digit_char (3 :: ds) ++ [newline]) [] 7
     = Undefined SignedOverflow.
Proof.
  intros ds.
  assert (H1 : Forall is_digit (3 :: ds)) by shape.
  assert (H2 : INT_MAX < denotes (3 :: ds)) by reflexivity.
  split; [split; assumption|].
  exact (literal_overflows 3 ds [newline] [] 7 H1 H2).
Defined.

Lemma mnemonic_case_witness :
  Lmasm.lowered "lda" = Lmasm.lowered "LDA"
  /\ Lmasm.find_opcode "lda" Lmasm.OPCODES = Lmasm.find_opcode "LDA" Lmasm.OPCODES.
Proof.
  assert (H1 : Lmasm.lowered "lda" = Lmasm.lowered "LDA") by reflexivity.
  split; [exact H1|].
  destruct (mnemonic_case "lda" "LDA" Lmasm.OPCODES H1) as (H & _).
  exact H.
Defined.

Lemma configure_limits_witness :
  (1 <= 3 <= 9 /\ 10 <= 10)
  /\ Lmasm.max_addr (Lmasm.configure 3) = 10 ^ (3 - 1) - 1
  /\ Lmasm.max_dat (Lmasm.configure 3) = 10 ^ 3 - 1
  /\ Lmasm.times_ten_checked (Z.to_nat 10) 1 = Undefined SignedOverflow.
Proof.
  assert (H1 : 1 <= 3 <= 9) by lia.
  assert (H2 : 10 <= 10) by lia.
  split; [split; assumption|].
  destruct (configure_limits 3) as [Hsmall _].
  destruct (configure_limits 10) as [_ Hbig].
  destruct (Hsmall H1) as (_ & _ & Ha & Hd & _).
  split; [exact Ha|]. split; [exact Hd|exact (Hbig H2)].
Defined.

Lemma encode_decimal_effect_witness :
  (0 <= 3 <= Z.of_nat (length Lmasm.fresh_buf) /\ 0 <= 1234)
  /\ denotes (take (Z.to_nat 3) (Lmasm.encode_decimal Lmasm.fresh_buf 1234 3))
     = 1234 `mod` 10 ^ 3.
Proof.
  assert (H1 : 0 <= 3 <= Z.of_nat (length Lmasm.fresh_buf)) by (vm_compute; split; congruence).
  assert (H2 : 0 <= 1234) by lia.
  split; [split; assumption|].
  destruct (encode_decimal_effect Lmasm.fresh_buf 1234 3 H1 H2) as (_ & _ & _ & H).
  exact H.
Defined.

Lemma dat_round_trip_witness :
  (1 <= 3 <= Z.of_nat Lmasm.MAX_NUM_DIGITS
   /\ Lmasm.room Sample.unlimited = None
   /\ 0 <= 42 <= Lmasm.max_dat (Lmasm.configure 3))
  /\ exists ds,
       Lmasm.lmasm_write_dat Sample.lda (Lmasm.configure 3) 42 Sample.unlimited
       = (0, Lmasm.mk_wfile (Lmasm.written Sample.unlimited ++ ds) None, [])
       /\ Lmc.load ds 0 (Lmc.mailboxes Lmc.zeroed)
          = Ok (<[0%nat := 42]> (Lmc.mailboxes Lmc.zeroed), 3).
Proof.
  assert (H1 : 1 <= 3 <= Z.of_nat Lmasm.MAX_NUM_DIGITS) by (vm_compute; split; congruence).
  assert (H2 : Lmasm.room Sample.unlimited = None) by reflexivity.
  assert (H3 : 0 <= 42 <= Lmasm.max_dat (Lmasm.configure 3))
    by (vm_compute; split; congruence).
  split; [auto|].
  destruct (dat_round_trip Sample.lda 3 42 Sample.unlimited H1 H2 H3)
    as (ds & E & _ & _ & _ & Hload).
  exists ds. split; [exact E|]. apply Hload. reflexivity.
Defined.

Lemma write_to_full_file_witness :
  let conf := Lmasm.configure 3 in
  let f := Lmasm.mk_wfile [] (Some 2%nat) in
  (1 <= Lmasm.num_digits conf <= Z.of_nat Lmasm.MAX_NUM_DIGITS
   /\ Lmasm.room f = Some 2%nat
   /\ (2 < Z.to_nat (Lmasm.num_digits conf))%nat
   /\ is_digit (Lmasm.code Sample.lda)
   /\ 0 <= 42 <= Lmasm.max_addr conf)
  /\ Lmasm.lmasm_write_op Sample.lda conf 42 f
     = (-1, Lmasm.mk_wfile [5; 4] (Some O), []).
Proof.
  intros conf f.
  assert (H1 : 1 <= Lmasm.num_digits conf <= Z.of_nat Lmasm.MAX_NUM_DIGITS)
    by (vm_compute; split; congruence).
  assert (H2 : Lmasm.room f = Some 2%nat) by reflexivity.
  assert (H3 : (2 < Z.to_nat (Lmasm.num_digits conf))%nat) by (vm_compute; lia).
  assert (H4 : is_digit (Lmasm.code Sample.lda)) by (vm_compute; split; congruence).
  assert (H5 : 0 <= 42 <= Lmasm.max_addr conf) by (vm_compute; split; congruence).
  split; [auto 6|].
  destruct (write_to_full_file Sample.lda conf 42 f 2 H1 H2 H3 H4) as (_ & H).
  exact (H H5).
Defined.


Lemma pass1_allocates_witness :
  (Forall line_ok Demo.lines /\ (labels_in Demo.lines <= 31)%nat
   /\ turned Demo.lines < Z.of_nat 20)
  /\ loop Lmasm.pass1_body 20 (Lmasm.pass1_start (source_text Demo.lines))
     = Some (Ok (0, between_lines [] 5 11
                      [Lmasm.mk_label "LOOP" 1; Lmasm.mk_label "END" 4; Lmasm.mk_label "X" 4]
                      [])).
Proof.
  assert (H1 : Forall line_ok Demo.lines) by shape.
  assert (H2 : (labels_in Demo.lines <= 31)%nat) by (vm_compute; lia).
  assert (H3 : turned Demo.lines < Z.of_nat 20) by reflexivity.
  split; [auto|].
  exact (pass1_allocates Demo.lines 20 H1 H2 H3).
Defined.

Lemma thirty_second_label_witness :
  let c := "M"%char in
  let fs := Demo.disk (source_text Demo.many_labels ++ [c]) None in
  (Forall line_ok Demo.many_labels
   /\ labels_in Demo.many_labels = 31%nat
   /\ Lmasm.is_char Lmasm.NL c = false
   /\ Lmasm.is_char Lmasm.SLASH c = false
   /\ Lmasm.isblank c = false
   /\ Lmasm.fopen_r fs "prog.asm" = Some (source_text Demo.many_labels ++ [c])
   /\ turned Demo.many_labels < Z.of_nat 100)
  /\ Lmasm.main 100 Sample.asm_argv fs = Some (Undefined (LabelStore 32)).
Proof.
  intros c fs.
  assert (H1 : Forall line_ok Demo.many_labels) by (apply Forall_replicate; shape).
  assert (H2 : labels_in Demo.many_labels = 31%nat) by reflexivity.
  assert (H3 : Lmasm.is_char Lmasm.NL c = false) by reflexivity.
  assert (H4 : Lmasm.is_char Lmasm.SLASH c = false) by reflexivity.
  assert (H5 : Lmasm.isblank c = false) by reflexivity.
  assert (H6 : Lmasm.fopen_r fs "prog.asm" = Some (source_text Demo.many_labels ++ [c]))
    by reflexivity.
  assert (H7 : turned Demo.many_labels < Z.of_nat 100) by reflexivity.
  split; [auto 8|].
  exact (thirty_second_label Demo.many_labels c [] "lmasm" "prog.asm" "prog.lmc" fs 100
           H1 H2 H3 H4 H5 H6 H7).
Defined.

Lemma stray_character_loops_witness :
  let c := ":"%char in
  let fs := Demo.disk [c] None in
  (Forall line_ok [] /\ (labels_in [] <= 31)%nat
   /\ Lmasm.is_char Lmasm.NL c = false
   /\ Lmasm.is_char Lmasm.SLASH c = false
   /\ Lmasm.isblank c = false
   /\ Lmasm.islabel c = false
   /\ Lmasm.fopen_r fs "prog.asm" = Some (source_text [] ++ [c])
   /\ turned [] + 32 - Z.of_nat (labels_in []) <= Z.of_nat 40)
  /\ Lmasm.main 40 Sample.asm_argv fs = Some (Undefined (LabelStore 32)).
Proof.
  intros c fs.
  assert (H1 : Forall line_ok []) by constructor.
  assert (H2 : (labels_in [] <= 31)%nat) by (vm_compute; lia).
  assert (H3 : Lmasm.is_char Lmasm.NL c = false) by reflexivity.
  assert (H4 : Lmasm.is_char Lmasm.SLASH c = false) by reflexivity.
  assert (H5 : Lmasm.isblank c = false) by reflexivity.
  assert (H6 : Lmasm.islabel c = false) by reflexivity.
  assert (H7 : Lmasm.fopen_r fs "prog.asm" = Some (source_text [] ++ [c])) by reflexivity.
  assert (H8 : turned [] + 32 - Z.of_nat (labels_in []) <= Z.of_nat 40)
    by (vm_compute; congruence).
  split; [auto 9|].
  destruct (stray_character_loops [] c [] "lmasm" "prog.asm" "prog.lmc" fs 40
              H1 H2 H3 H4 H5 H6 H7 H8) as [_ H].
  exact H.
Defined.

Lemma assembler_correct_witness :
  let fs := Demo.disk (source_text Demo.lines) None in
  (Forall asm_ok Demo.program
   /\ (labels_in Demo.lines <= 31)%nat
   /\ image (table_from 0 Demo.lines) Demo.program = Some Demo.words
   /\ (length Demo.words <= 99)%nat
   /\ Lmasm.fopen_r fs "prog.asm" = Some (source_text Demo.lines)
   /\ Lmasm.fopen_w fs "prog.lmc" = Some None
   /\ turned Demo.lines < Z.of_nat 20)
  /\ Lmasm.main 20 Sample.asm_argv fs
     = Some (Ok (Lmasm.mk_exit 0 (Sample.progress 5) []
                   (Some [9; 0; 1; 3; 0; 4; 9; 0; 2; 6; 0; 1; 0; 4; 2]))).
Proof.
  intros fs.
  assert (H1 : Forall asm_ok Demo.program) by shape.
  assert (H2 : (labels_in Demo.lines <= 31)%nat) by (vm_compute; lia).
  assert (H3 : image (table_from 0 Demo.lines) Demo.program = Some Demo.words)
    by (vm_compute; reflexivity).
  assert (H4 : (length Demo.words <= 99)%nat) by (vm_compute; lia).
  assert (H5 : Lmasm.fopen_r fs "prog.asm" = Some (source_text Demo.lines)) by reflexivity.
  assert (H6 : Lmasm.fopen_w fs "prog.lmc" = Some None) by reflexivity.
  assert (H7 : turned Demo.lines < Z.of_nat 20) by reflexivity.
  split; [auto 8|].
  destruct (assembler_correct Demo.program Demo.words "lmasm" "prog.asm" "prog.lmc" fs 20
              H1 H2 H3 H4 H5 H6 H7) as [H _].
  exact H.
Defined.

Lemma failing_fputc_is_silent_witness :
  let labels := table_from 0 Demo.lines in
  let f := Lmasm.mk_wfile [] (Some 7%nat) in
  (Forall asm_ok Demo.program
   /\ image labels Demo.program = Some Demo.words
   /\ Lmasm.room f = Some 7%nat
   /\ (7 < 3 * length Demo.words)%nat
   /\ (length Demo.program <= 20)%nat)
  /\ exists st,
       loop (Lmasm.pass2_body (Lmasm.configure 3) labels "prog.lmc") 20
         (Lmasm.mk_pass2 (source_text Demo.lines) 0 f [])
       = Some (Ok (1, st))
       /\ Lmasm.p2_err st = []
       /\ Lmasm.written (Lmasm.p2_output st) = [9; 0; 1; 3; 0; 4; 9].
Proof.
  intros labels f.
  assert (H1 : Forall asm_ok Demo.program) by shape.
  assert (H2 : image labels Demo.program = Some Demo.words) by (vm_compute; reflexivity).
  assert (H3 : Lmasm.room f = Some 7%nat) by reflexivity.
  assert (H4 : (7 < 3 * length Demo.words)%nat) by (vm_compute; lia).
  assert (H5 : (length Demo.program <= 20)%nat) by (vm_compute; lia).
  split; [auto 6|].
  exact (failing_fputc_is_silent labels "prog.lmc" Demo.program Demo.words f [] 7 20
           H1 H2 H3 H4 H5).
Defined.

Lemma pass1_error_line_witness :
  let d := "9"%char in
  let r := Demo.chars "X DAT" in
  let fs := Demo.disk (source_text Demo.lines ++ d :: r) None in
  (Forall line_ok Demo.lines
   /\ (labels_in Demo.lines <= 30)%nat
   /\ Lmasm.isdigit d = true
   /\ Lmasm.fopen_r fs "prog.asm" = Some (source_text Demo.lines ++ d :: r)
   /\ turned Demo.lines < Z.of_nat 20)
  /\ length Demo.lines = 8%nat
  /\ Lmasm.main 20 Sample.asm_argv fs
     = Some (Ok (Lmasm.mk_exit 1 [Lmasm.banner (Lmasm.configure 3)]
                   [Lmasm.syntax "Label begins with digit" 12] None)).
Proof.
  intros d r fs.
  assert (H1 : Forall line_ok Demo.lines) by shape.
  assert (H2 : (labels_in Demo.lines <= 30)%nat) by (vm_compute; lia).
  assert (H3 : Lmasm.isdigit d = true) by reflexivity.
  assert (H4 : Lmasm.fopen_r fs "prog.asm" = Some (source_text Demo.lines ++ d :: r))
    by reflexivity.
  assert (H5 : turned Demo.lines < Z.of_nat 20) by reflexivity.
  split; [auto 6|]. split; [reflexivity|].
  exact (pass1_error_line Demo.lines d r "lmasm" "prog.asm" "prog.lmc" fs 20
           H1 H2 H3 H4 H5).
Defined.

Lemma unknown_mnemonic_witness :
  let all := Demo.lines ++ [Demo.mul] in
  let fs := Demo.disk (source_text all) None in
  (Forall asm_ok Demo.program
   /\ line_ok Demo.mul
   /\ Lmasm.find_opcode "MUL" Lmasm.OPCODES = None
   /\ (labels_in all <= 31)%nat
   /\ allocated all <= 99
   /\ image (table_from 0 all) Demo.program = Some Demo.words
   /\ Lmasm.fopen_r fs "prog.asm" = Some (source_text all)
   /\ Lmasm.fopen_w fs "prog.lmc" = Some None
   /\ turned all < Z.of_nat 20)
  /\ Lmasm.main 20 Sample.asm_argv fs
     = Some (Ok (Lmasm.mk_exit 1 (Sample.progress 6)
                   [Fprintf "Error on line %d: No such instruction %s\n"
                      [ArgInt 9; ArgStr "MUL"]]
                   (Some [9; 0; 1; 3; 0; 4; 9; 0; 2; 6; 0; 1; 0; 4; 2]))).
Proof.
  intros all fs.
  assert (H1 : Forall asm_ok Demo.program) by shape.
  assert (H2 : line_ok Demo.mul) by shape.
  assert (H3 : Demo.chars " 3" = [] \/ exists b t', Demo.chars " 3" = b :: t' /\ blank b)
    by (right; eexists _, _; split; reflexivity).
  assert (H4 : Lmasm.find_opcode "MUL" Lmasm.OPCODES = None) by reflexivity.
  assert (H5 : Forall line_ok ([] : list src_line)) by constructor.
  assert (H6 : (labels_in all <= 31)%nat) by (vm_compute; lia).
  assert (H7 : allocated all <= 99) by (vm_compute; congruence).
  assert (H8 : image (table_from 0 all) Demo.program = Some Demo.words)
    by (vm_compute; reflexivity).
  assert (H9 : Lmasm.fopen_r fs "prog.asm" = Some (source_text all)) by reflexivity.
  assert (H10 : Lmasm.fopen_w fs "prog.lmc" = Some None) by reflexivity.
  assert (H11 : turned all < Z.of_nat 20) by reflexivity.
  split; [auto 10|].
  exact (unknown_mnemonic Demo.program Demo.words None [Demo.sp] "M" "U" "L"
           (Demo.chars " 3") [] "lmasm" "prog.asm" "prog.lmc" fs 20
           H1 H2 H3 H4 H5 H6 H7 H8 H9 H10 H11).
Defined.

Lemma assembled_program_runs_witness :
  let lines := map raw Demo.echo in
  let fs := Demo.disk (source_text lines) None in
  let img := concat (map (decimal 3) Demo.echo_words) in
  (Forall asm_ok Demo.echo
   /\ (labels_in lines <= 31)%nat
   /\ image (table_from 0 lines) Demo.echo = Some Demo.echo_words
   /\ (length Demo.echo_words <= 99)%nat
   /\ Lmasm.fopen_r fs "prog.asm" = Some (source_text lines)
   /\ Lmasm.fopen_w fs "prog.lmc" = Some None
   /\ turned lines < Z.of_nat 20
   /\ Sample.holding img "prog.lmc"%string = Some (Lmc.mk_rfile img false)
   /\ Forall word_ok [5])
  /\ exists out e,
       Lmasm.main 20 Sample.asm_argv fs = Some (Ok (Lmasm.mk_exit 0 out [] (Some img)))
       /\ Lmc.main 10 Sample.lmc_argv (Sample.holding img) [5] = Some (Ok e)
       /\ tidy (Lmc.final e)
       /\ Lmc.halted (Lmc.cpu (Lmc.machine (Lmc.final e))) = true
       /\ Lmc.status e = Lmc.bool_int (Lmc.error (Lmc.cpu (Lmc.machine (Lmc.final e)))).
Proof.
  intros lines fs img.
  assert (H1 : Forall asm_ok Demo.echo)
    by (unfold Demo.echo; shape).
  assert (H2 : (labels_in lines <= 31)%nat) by (vm_compute; lia).
  assert (H3 : image (table_from 0 lines) Demo.echo = Some Demo.echo_words)
    by (vm_compute; reflexivity).
  assert (H4 : (length Demo.echo_words <= 99)%nat) by (vm_compute; lia).
  assert (H5 : Lmasm.fopen_r fs "prog.asm" = Some (source_text lines)) by reflexivity.
  assert (H6 : Lmasm.fopen_w fs "prog.lmc" = Some None) by reflexivity.
  assert (H7 : turned lines < Z.of_nat 20) by reflexivity.
  assert (H8 : Sample.holding img "prog.lmc"%string = Some (Lmc.mk_rfile img false))
    by reflexivity.
  assert (H9 : Forall word_ok [5]) by shape.
  split; [auto 10|].
  destruct (assembled_program_runs Demo.echo Demo.echo_words "lmasm" "prog.asm" "prog.lmc"
              fs 20 H1 H2 H3 H4 H5 H6 H7) as (out & Hmain & Hrun).
  destruct (Hrun "lmc"%string "prog.lmc"%string (Sample.holding img) [5] 10%nat H8 H9)
    as (_ & _ & H).
  exists out. eexists. split; [exact Hmain|].
  split; [vm_compute; reflexivity|exact H].
Defined.

Lemma input_is_not_checked_witness :
  let w := Demo.at_input INT_MAX in
  (Lmc.addr (Lmc.cpu (Lmc.machine w)) = 1 /\ Lmc.stdin (Lmc.tty w) = [INT_MAX])
  /\ exists w1,
       Lmc.lmc_io w = Ok w1
       /\ Lmc.a (Lmc.cpu (Lmc.machine w1)) = INT_MAX
       /\ Lmc.lmc_add (Lmc.set_cpu (Lmc.set_decoded 107 1 7) w1) = Undefined SignedOverflow.
Proof.
  intros w.
  assert (H1 : Lmc.addr (Lmc.cpu (Lmc.machine w)) = 1) by reflexivity.
  assert (H2 : Lmc.stdin (Lmc.tty w) = [INT_MAX]) by reflexivity.
  split; [split; assumption|].
  destruct (input_is_not_checked w INT_MAX 1 [] H1 H2) as (w1 & E & Ha & _ & _ & Hadd).
  exists w1. split; [exact E|]. split; [exact Ha|].
  apply Hadd; [vm_compute; split; congruence|reflexivity|reflexivity].
Defined.
